(** * rf-destaques: the classification, normalisation and Top-N pipeline

    A shallow embedding of the helpers and the pipeline of the Streamlit
    scripts [rf_destaques.py] (main variant, also [rf_destaques_2.py] and
    [rf_destaques3.py]) and [rf_destques.py] (first variant).

    Modelling conventions.
    - Python [str] values are byte strings (Stdlib [string]) holding their
      UTF-8 encoding.  Substring tests ([in]) on UTF-8 encodings agree with
      substring tests on code points.  [str.upper] and [str.lower] are
      modelled on the Latin-1 range of code points.
    - Python [float] values are modelled by their exact rational value ([Q]).
    - A cell of the sheet is [None], an [int], a [float], a [str] or a
      [datetime] (day number); this is what openpyxl yields.
    - The two pieces of library code whose behaviour the source leaves to
      pandas are kept abstract in the pipeline: [DataFrame.sort_values]
      (default kind, not stable per its documentation) and
      [pd.to_datetime(..., dayfirst=True)], which takes the clock as an
      argument ("today", "now" and times of day are read against it).
      NumPy's generic quicksort kernel for [argsort], which [sort_values]
      runs, is modelled concretely to show how it orders ties. *)

From Stdlib Require Import String Ascii List ZArith NArith QArith Qround Qabs Lia Bool.
From Stdlib Require Import Sorting.Permutation Sorting.Sorted.
Import ListNotations.
Open Scope list_scope.
Open Scope string_scope.

(* ------------------------------------------------------------------ *)
(** ** Characters and Python string operations *)

Definition code (c : ascii) : nat := nat_of_ascii c.

Definition chr (n : nat) : ascii := ascii_of_nat n.

Definition is_digit (c : ascii) : bool :=
  (48 <=? code c)%nat && (code c <=? 57)%nat.

Definition ch_eqb (c d : ascii) : bool := Ascii.eqb c d.

(** [str.upper] on UTF-8 bytes: ASCII letters, the Latin-1 lower-case
    letters (two-byte sequences [C3 A0..BE] but [C3 B7] (division sign)),
    [C3 9F] (sharp s, upper-cased to "SS"), [C3 BF] (y diaeresis, to
    [C5 B8]) and [C2 B5] (micro sign, to Greek capital mu [CE 9C]). *)
Fixpoint py_upper (s : string) : string :=
  match s with
  | EmptyString => EmptyString
  | String c rest =>
      let n := code c in
      if (97 <=? n)%nat && (n <=? 122)%nat then String (chr (n - 32)) (py_upper rest)
      else if (n =? 195)%nat then
        match rest with
        | String c2 rest2 =>
            let m := code c2 in
            if (160 <=? m)%nat && (m <=? 190)%nat && negb (m =? 183)%nat
            then String c (String (chr (m - 32)) (py_upper rest2))
            else if (m =? 159)%nat then "SS" ++ py_upper rest2
            else if (m =? 191)%nat then String (chr 197) (String (chr 184) (py_upper rest2))
            else String c (String c2 (py_upper rest2))
        | EmptyString => String c EmptyString
        end
      else if (n =? 194)%nat then
        match rest with
        | String c2 rest2 =>
            if (code c2 =? 181)%nat then String (chr 206) (String (chr 156) (py_upper rest2))
            else String c (String c2 (py_upper rest2))
        | EmptyString => String c EmptyString
        end
      else String c (py_upper rest)
  end.

(** [str.lower] on UTF-8 bytes: ASCII letters and the Latin-1 upper-case
    letters ([C3 80..9E] but [C3 97], the multiplication sign). *)
Fixpoint py_lower (s : string) : string :=
  match s with
  | EmptyString => EmptyString
  | String c rest =>
      let n := code c in
      if (65 <=? n)%nat && (n <=? 90)%nat then String (chr (n + 32)) (py_lower rest)
      else if (n =? 195)%nat then
        match rest with
        | String c2 rest2 =>
            let m := code c2 in
            if (128 <=? m)%nat && (m <=? 158)%nat && negb (m =? 151)%nat
            then String c (String (chr (m + 32)) (py_lower rest2))
            else String c (String c2 (py_lower rest2))
        | EmptyString => String c EmptyString
        end
      else String c (py_lower rest)
  end.

Fixpoint prefixb (p s : string) : bool :=
  match p, s with
  | EmptyString, _ => true
  | String a p', String b s' => ch_eqb a b && prefixb p' s'
  | String _ _, EmptyString => false
  end.

(** Python's [p in s]. *)
Fixpoint contains (p s : string) : bool :=
  prefixb p s ||
  match s with
  | EmptyString => false
  | String _ s' => contains p s'
  end.

(** [s.replace(old, new)] for a non-empty [old]: occurrences are replaced
    from left to right without overlap.  [k] counts the bytes of a matched
    occurrence still to be skipped. *)
Fixpoint replace_go (old new : string) (k : nat) (s : string) : string :=
  match s with
  | EmptyString => EmptyString
  | String c s' =>
      match k with
      | S k' => replace_go old new k' s'
      | O =>
          if prefixb old s then new ++ replace_go old new (String.length old - 1) s'
          else String c (replace_go old new 0 s')
      end
  end.

(** With an empty [old], Python inserts [new] before every character and
    at the end. *)
Fixpoint replace_empty (new s : string) : string :=
  match s with
  | EmptyString => new
  | String c s' => new ++ String c (replace_empty new s')
  end.

Definition py_replace (old new s : string) : string :=
  match old with
  | EmptyString => replace_empty new s
  | _ => replace_go old new 0 s
  end.

(** The characters [str.strip()] removes are those Python's [str.isspace]
    accepts.  The one-byte ones: [\t \n \x0b \x0c \r], [\x1c..\x1f] and
    the space. *)
Definition is_space (c : ascii) : bool :=
  let n := code c in
  ((9 <=? n)%nat && (n <=? 13)%nat) || ((28 <=? n)%nat && (n <=? 32)%nat).

(** The two-byte ones: U+0085 and U+00A0 (no-break space), [C2 85] and
    [C2 A0]. *)
Definition ws2 (c1 c2 : ascii) : bool :=
  (code c1 =? 194)%nat && ((code c2 =? 133)%nat || (code c2 =? 160)%nat).

(** The three-byte ones: U+1680 [E1 9A 80], U+2000..U+200A [E2 80 80..8A],
    U+2028, U+2029, U+202F [E2 80 A8, A9, AF], U+205F [E2 81 9F] and
    U+3000 [E3 80 80]. *)
Definition ws3 (c1 c2 c3 : ascii) : bool :=
  let a := code c1 in
  let b := code c2 in
  let c := code c3 in
  ((a =? 225)%nat && (b =? 154)%nat && (c =? 128)%nat) ||
  ((a =? 226)%nat && (b =? 128)%nat &&
   (((128 <=? c)%nat && (c <=? 138)%nat) || (c =? 168)%nat || (c =? 169)%nat || (c =? 175)%nat)) ||
  ((a =? 226)%nat && (b =? 129)%nat && (c =? 159)%nat) ||
  ((a =? 227)%nat && (b =? 128)%nat && (c =? 128)%nat).

(** [str.lstrip()] on the UTF-8 encoding. *)
Fixpoint lstrip (s : string) : string :=
  match s with
  | EmptyString => EmptyString
  | String c1 s1 =>
      if is_space c1 then lstrip s1 else
      match s1 with
      | String c2 s2 =>
          if ws2 c1 c2 then lstrip s2 else
          match s2 with
          | String c3 s3 => if ws3 c1 c2 c3 then lstrip s3 else s
          | EmptyString => s
          end
      | EmptyString => s
      end
  end.

Fixpoint rev_str (s : string) : string :=
  match s with
  | EmptyString => EmptyString
  | String c s' => rev_str s' ++ String c EmptyString
  end.

(** [lstrip] on the reversed encoding: a multi-byte space shows its bytes
    last first. *)
Fixpoint lstrip_rev (s : string) : string :=
  match s with
  | EmptyString => EmptyString
  | String c1 s1 =>
      if is_space c1 then lstrip_rev s1 else
      match s1 with
      | String c2 s2 =>
          if ws2 c2 c1 then lstrip_rev s2 else
          match s2 with
          | String c3 s3 => if ws3 c3 c2 c1 then lstrip_rev s3 else s
          | EmptyString => s
          end
      | EmptyString => s
      end
  end.

(** [str.strip()]: [lstrip], then the same at the end. *)
Definition py_strip (s : string) : string := rev_str (lstrip_rev (rev_str (lstrip s))).

Fixpoint str_all (f : ascii -> bool) (s : string) : bool :=
  match s with
  | EmptyString => true
  | String c s' => f c && str_all f s'
  end.

Fixpoint str_map (f : ascii -> ascii) (s : string) : string :=
  match s with
  | EmptyString => EmptyString
  | String c s' => String (f c) (str_map f s')
  end.

(* ------------------------------------------------------------------ *)
(** ** Numbers and their decimal rendering *)

Definition digit_char (n : N) : ascii := chr (48 + N.to_nat n).

(** Decimal digits of a natural number, most significant first. *)
Fixpoint digits_aux (fuel : nat) (n : N) (acc : string) : string :=
  match fuel with
  | O => acc
  | S f =>
      let acc' := String (digit_char (n mod 10)) acc in
      if (n <? 10)%N then acc' else digits_aux f (n / 10) acc'
  end.

Definition N_to_string (n : N) : string :=
  digits_aux (S (N.to_nat (N.log2 n))) n EmptyString.

Definition Z_to_string (z : Z) : string :=
  if (z <? 0)%Z then "-" ++ N_to_string (Z.to_N (- z)) else N_to_string (Z.to_N z).

(** [n] written with at least [w] digits (zero padded on the left). *)
Definition pad_left (w : nat) (s : string) : string :=
  (fix zeros (k : nat) : string :=
     match k with O => EmptyString | S k' => String "0" (zeros k') end)
    (w - String.length s)%nat ++ s.

(* ------------------------------------------------------------------ *)
(** ** Dates (day numbers, day 0 = 1970-01-01) *)

Definition civil_from_days (z0 : Z) : Z * Z * Z :=
  let z := (z0 + 719468)%Z in
  let era := (z / 146097)%Z in
  let doe := (z - era * 146097)%Z in
  let yoe := ((doe - doe / 1460 + doe / 36524 - doe / 146096) / 365)%Z in
  let y := (yoe + era * 400)%Z in
  let doy := (doe - (365 * yoe + yoe / 4 - yoe / 100))%Z in
  let mp := ((5 * doy + 2) / 153)%Z in
  let d := (doy - (153 * mp + 2) / 5 + 1)%Z in
  let m := if (mp <? 10)%Z then (mp + 3)%Z else (mp - 9)%Z in
  ((if (m <=? 2)%Z then (y + 1)%Z else y), m, d).

Definition two (z : Z) : string := pad_left 2 (Z_to_string z).

Definition four (z : Z) : string := pad_left 4 (Z_to_string z).

(** [dt.strftime("%d/%m/%Y")]. *)
Definition strftime_dmy (d : Z) : string :=
  let '(y, m, dd) := civil_from_days d in
  two dd ++ "/" ++ two m ++ "/" ++ four y.

(* ------------------------------------------------------------------ *)
(** ** Sheet cells *)

(** A float cell is kept as the decimal [m * 10^-e] that Python prints
    for it (its shortest round-trip representation). *)
Inductive Cell : Type :=
| CNone
| CInt (z : Z)
| CFloat (m : Z) (e : nat)
| CStr (s : string)
| CDate (d : Z).

Definition pow10 (e : nat) : Z := (10 ^ Z.of_nat e)%Z.

Definition float_val (m : Z) (e : nat) : Q := Qmake m (Z.to_pos (pow10 e)).

Fixpoint drop_trailing_zeros_rev (s : string) : string :=
  match s with
  | String "0" s' => drop_trailing_zeros_rev s'
  | _ => s
  end.

(** [repr] of a float in fixed notation: at least one fractional digit. *)
Definition float_repr (m : Z) (e : nat) : string :=
  let a := Z.abs m in
  let ip := (a / pow10 e)%Z in
  let fp := pad_left e (Z_to_string (a mod pow10 e)) in
  let fp' := rev_str (drop_trailing_zeros_rev (rev_str fp)) in
  (if (m <? 0)%Z then "-" else "") ++ Z_to_string ip ++ "." ++
  (match fp' with EmptyString => "0" | _ => fp' end).

(** [str(x)]. *)
Definition py_str (x : Cell) : string :=
  match x with
  | CNone => "None"
  | CInt z => Z_to_string z
  | CFloat m e => float_repr m e
  | CStr s => s
  | CDate d => let '(y, m, dd) := civil_from_days d in
               four y ++ "-" ++ two m ++ "-" ++ two dd ++ " 00:00:00"
  end.

(** Python exceptions: a computation either returns or raises. *)
Inductive Res (A : Type) : Type :=
| Ok (a : A)
| Raise.
Arguments Ok {A} a.
Arguments Raise {A}.

(* ------------------------------------------------------------------ *)
(** ** Code points, [float()] and the regular expressions of the parsers *)

(** The value of a string of ASCII digits. *)
Fixpoint digits_value_aux (acc : Z) (s : string) : Z :=
  match s with
  | EmptyString => acc
  | String c s' => digits_value_aux (acc * 10 + Z.of_nat (code c - 48))%Z s'
  end.

Definition digits_value (s : string) : Z := digits_value_aux 0 s.

(** The parsers read code points: the [\d] of Python's [re] on a [str]
    pattern is any decimal digit of Unicode (category Nd), not only [0-9],
    and [float()] reads all of them. *)
Definition byte (c : ascii) : Z := Z.of_nat (code c).

(** The code points of a [str] from its UTF-8 encoding; the lead byte of a
    sequence cut short stands for itself. *)
Fixpoint utf8_decode (s : string) : list Z :=
  match s with
  | EmptyString => []
  | String c1 s1 =>
      let b1 := byte c1 in
      if (b1 <? 192)%Z then b1 :: utf8_decode s1 else
      match s1 with
      | EmptyString => [b1]
      | String c2 s2 =>
          let b2 := (byte c2 - 128)%Z in
          if (b1 <? 224)%Z then ((b1 - 192) * 64 + b2)%Z :: utf8_decode s2 else
          match s2 with
          | EmptyString => b1 :: utf8_decode s1
          | String c3 s3 =>
              let b3 := (byte c3 - 128)%Z in
              if (b1 <? 240)%Z then (((b1 - 224) * 64 + b2) * 64 + b3)%Z :: utf8_decode s3 else
              match s3 with
              | EmptyString => b1 :: utf8_decode s1
              | String c4 s4 =>
                  ((((b1 - 240) * 64 + b2) * 64 + b3) * 64 + (byte c4 - 128))%Z :: utf8_decode s4
              end
          end
      end
  end.

(** The decimal digits of Unicode 14.0 (the database of Python 3.11) come
    in runs of ten; this is the first code point of each run, whose digit
    [k] is the start plus [k]. *)
Definition nd_starts : list Z :=
  ([0x30; 0x660; 0x6f0; 0x7c0; 0x966; 0x9e6; 0xa66; 0xae6; 0xb66; 0xbe6; 0xc66;
  0xce6; 0xd66; 0xde6; 0xe50; 0xed0; 0xf20; 0x1040; 0x1090; 0x17e0; 0x1810;
  0x1946; 0x19d0; 0x1a80; 0x1a90; 0x1b50; 0x1bb0; 0x1c40; 0x1c50; 0xa620;
  0xa8d0; 0xa900; 0xa9d0; 0xa9f0; 0xaa50; 0xabf0; 0xff10; 0x104a0; 0x10d30;
  0x11066; 0x110f0; 0x11136; 0x111d0; 0x112f0; 0x11450; 0x114d0; 0x11650;
  0x116c0; 0x11730; 0x118e0; 0x11950; 0x11c50; 0x11d50; 0x11da0; 0x16a60;
  0x16ac0; 0x16b50; 0x1d7ce; 0x1d7d8; 0x1d7e2; 0x1d7ec; 0x1d7f6; 0x1e140;
  0x1e2f0; 0x1e950; 0x1fbf0])%Z.

Fixpoint nd_lookup (c : Z) (starts : list Z) : option Z :=
  match starts with
  | [] => None
  | s :: l => if (s <=? c)%Z && (c <? s + 10)%Z then Some (c - s)%Z else nd_lookup c l
  end.

(** [unicodedata.decimal(c, None)]. *)
Definition nd_value (c : Z) : option Z := nd_lookup c nd_starts.

(** [\d] on one character ([c.isdecimal()]). *)
Definition isdecimal (c : Z) : bool :=
  match nd_value c with Some _ => true | None => false end.

Definition digit_of (c : Z) : Z :=
  match nd_value c with Some v => v | None => 0%Z end.

(** The value of a run of decimal digits. *)
Definition nd_digits_value (l : list Z) : Z :=
  fold_left (fun acc c => acc * 10 + digit_of c)%Z l 0%Z.

(** Greedy [\d*]: the digits at the front and the rest. *)
Fixpoint span_digits (l : list Z) : list Z * list Z :=
  match l with
  | c :: l' =>
      if isdecimal c then let '(d, r) := span_digits l' in (c :: d, r)
      else ([], l)
  | [] => ([], [])
  end.

(** The optional sign in front of a numeral ([-] is 45, [+] is 43). *)
Definition split_sign (l : list Z) : bool * list Z :=
  match l with
  | c :: r => if (c =? 45)%Z then (true, r) else if (c =? 43)%Z then (false, r) else (false, l)
  | [] => (false, l)
  end.

Definition signed (neg : bool) (q : Q) : Q := if neg then Qopp q else q.

(** The value of the decimal numeral [ip.fp]. *)
Definition decimal_value (ip fp : list Z) : Q :=
  inject_Z (nd_digits_value ip) + Qmake (nd_digits_value fp) (Z.to_pos (pow10 (length fp))).

(** [float(s)] on the texts that reach it here, which are made of an
    optional sign, decimal digits and dots ([.] is 46):
    [[+-]? digits [. digits]] with at least one digit; anything else raises
    [ValueError] ([None]). *)
Definition py_float (s : list Z) : option Q :=
  let '(neg, body) := split_sign s in
  let '(ip, rest) := span_digits body in
  match rest with
  | [] => match ip with [] => None | _ => Some (signed neg (inject_Z (nd_digits_value ip))) end
  | c :: fr =>
      if (c =? 46)%Z then
        let '(fp, rest2) := span_digits fr in
        match rest2, ip, fp with
        | _ :: _, _, _ => None
        | [], [], [] => None
        | [], _, _ => Some (signed neg (decimal_value ip fp))
        end
      else None
  end.

(** The class [[\d\.,]] ([,] is 44). *)
Definition is_dc (c : Z) : bool :=
  isdecimal c || (c =? 46)%Z || (c =? 44)%Z.

(** Greedy [[\d\.,]*]. *)
Fixpoint span_dc (l : list Z) : list Z * list Z :=
  match l with
  | c :: l' =>
      if is_dc c then let '(d, r) := span_dc l' in (c :: d, r)
      else ([], l)
  | [] => ([], [])
  end.

(** Python [re.search] with the pattern [-?\d[\d\.,]*]: the leftmost match. *)
Fixpoint search_rate (s : list Z) : option (list Z) :=
  match s with
  | [] => None
  | c :: s' =>
      if (c =? 45)%Z then
        match s' with
        | d :: s'' =>
            if isdecimal d then Some (c :: d :: fst (span_dc s'')) else search_rate s'
        | [] => None
        end
      else if isdecimal c then Some (c :: fst (span_dc s'))
      else search_rate s'
  end.

(** [\d+(\.\d+)?] at the front of [s], which starts with a digit. *)
Definition numeral_body (s : list Z) : list Z :=
  let '(ip, rest) := span_digits s in
  match rest with
  | c :: r =>
      if (c =? 46)%Z then
        let '(fp, _) := span_digits r in
        match fp with [] => ip | _ => ip ++ 46%Z :: fp end
      else ip
  | [] => ip
  end.

(** pandas [str.extract] with the pattern [(-?\d+(\.\d+)?)]: the leftmost match. *)
Fixpoint search_numeral (s : list Z) : option (list Z) :=
  match s with
  | [] => None
  | c :: s' =>
      if (c =? 45)%Z then
        match s' with
        | d :: _ => if isdecimal d then Some (c :: numeral_body s') else search_numeral s'
        | [] => None
        end
      else if isdecimal c then Some (numeral_body s)
      else search_numeral s'
  end.

(** [s.replace(x, y)], [s.replace(x, "")] and [x in s] for one-character
    [x] and [y], on code points. *)
Definition cp_replace (x y : Z) (l : list Z) : list Z :=
  map (fun c => if (c =? x)%Z then y else c) l.

Definition cp_delete (x : Z) (l : list Z) : list Z :=
  filter (fun c => negb (c =? x)%Z) l.

Definition cp_in (x : Z) (l : list Z) : bool := existsb (Z.eqb x) l.

(* ------------------------------------------------------------------ *)
(** ** Field parsers (rf_destaques.py) *)

(** The separator handling of [parse_rate_value] on the matched numeral. *)
Definition normalize_rate_num (num : list Z) : list Z :=
  if cp_in 46 num && cp_in 44 num then cp_replace 44 46 (cp_delete 46 num)
  else if cp_in 44 num then cp_replace 44 46 num
  else num.

(** The text [parse_rate_value] searches: [str(x).upper()] without [%] and
    spaces.  [str.upper] is modelled on Latin-1 ([py_upper]); outside that
    range no character upper-cases to a decimal digit, [-], [.], [,], [%]
    or a space, and none of these changes, so the match is the same. *)
Definition rate_text (s : string) : list Z :=
  utf8_decode (py_replace " " "" (py_replace "%" "" (py_upper s))).

Definition parse_rate_text (s : string) : Res (option Q) :=
  match search_rate (rate_text s) with
  | None => Ok None
  | Some num =>
      match py_float (normalize_rate_num num) with
      | Some q => Ok (Some q)
      | None => Raise
      end
  end.

(** [parse_rate_value(x)]; [isinstance(x, (int, float))] returns [float(x)]. *)
Definition parse_rate_value (x : Cell) : Res (option Q) :=
  match x with
  | CNone => Ok None
  | CInt z => Ok (Some (inject_Z z))
  | CFloat m e => Ok (Some (float_val m e))
  | _ => parse_rate_text (py_str x)
  end.

(** [pd.api.types.is_numeric_dtype] of a column built from these cells:
    only numbers and [None], and not all [None]. *)
Definition numeric_dtype (s : list Cell) : bool :=
  forallb (fun c => match c with CNone | CInt _ | CFloat _ _ => true | _ => false end) s &&
  existsb (fun c => match c with CInt _ | CFloat _ _ => true | _ => false end) s.

Definition to_numeric_cell (c : Cell) : option Q :=
  match c with
  | CInt z => Some (inject_Z z)
  | CFloat m e => Some (float_val m e)
  | _ => None
  end.

(** The text [to_numeric_series] searches: stripped, every [.] dropped,
    [,] turned into [.]. *)
Definition number_text (x : string) : list Z :=
  utf8_decode (py_replace "," "." (py_replace "." "" (py_strip x))).

(** One cell of the text branch of [to_numeric_series]: the first match of
    [(-?\d+(\.\d+)?)] converted by [pd.to_numeric(errors="coerce")], whose
    C parser reads only the ASCII digits [0-9], so a match holding another
    decimal digit becomes NaN. *)
Definition to_numeric_text (x : string) : option Q :=
  match search_numeral (number_text x) with
  | None => None
  | Some m => if forallb (fun c => (c <? 128)%Z) m then py_float m else None
  end.

(** [to_numeric_series(s)]; [None] stands for NaN. *)
Definition to_numeric_series (s : list Cell) : list (option Q) :=
  if numeric_dtype s then map to_numeric_cell s
  else map (fun c => to_numeric_text (py_str c)) s.

(* ------------------------------------------------------------------ *)
(** ** Classifiers (rf_destaques.py) *)

Inductive Indexer : Type := PosCDI | Pre | IPCA.

Inductive Horizon : Type := Curto | Medio | Longo.

Definition indexer_eqb (a b : Indexer) : bool :=
  match a, b with
  | PosCDI, PosCDI | Pre, Pre | IPCA, IPCA => true
  | _, _ => false
  end.

Definition horizon_eqb (a b : Horizon) : bool :=
  match a, b with
  | Curto, Curto | Medio, Medio | Longo, Longo => true
  | _, _ => false
  end.

Definition categorize_horizon (days : option Q) : option Horizon :=
  match days with
  | None => None
  | Some d =>
      if Qle_bool d 360 then Some Curto
      else if Qle_bool d 1080 then Some Medio
      else Some Longo
  end.

Definition classify_indexer (raw : Cell) : option Indexer :=
  match raw with
  | CNone => None
  | _ =>
      let t := py_upper (py_str raw) in
      if contains "IPCA" t then Some IPCA
      else if contains "CDI" t || contains "PÓS" t || contains "POS" t then Some PosCDI
      else if contains "PRÉ" t || contains "PRE" t || contains "FIXA" t then Some Pre
      else None
  end.

(** [find_col(df, candidates)]: for each candidate in order, the first
    column whose lower-cased name equals or contains it. *)
Fixpoint find_in_cols (cand_l : string) (cols : list string) : option string :=
  match cols with
  | [] => None
  | c :: cs =>
      if String.eqb cand_l (py_lower c) || contains cand_l (py_lower c) then Some c
      else find_in_cols cand_l cs
  end.

Fixpoint find_col (cols : list string) (candidates : list string) : option string :=
  match candidates with
  | [] => None
  | cand :: rest =>
      match find_in_cols (py_lower cand) cols with
      | Some c => Some c
      | None => find_col cols rest
      end
  end.

(* ------------------------------------------------------------------ *)
(** ** The first variant, rf_destques.py *)

Module Destques.

(** [find_col]: for each candidate, an exact (lower-cased) match first,
    then a substring match. *)
Fixpoint find_exact (cand : string) (cols : list string) : option string :=
  match cols with
  | [] => None
  | c :: cs => if String.eqb cand (py_lower c) then Some c else find_exact cand cs
  end.

Fixpoint find_sub (cand : string) (cols : list string) : option string :=
  match cols with
  | [] => None
  | c :: cs => if contains cand (py_lower c) then Some c else find_sub cand cs
  end.

Fixpoint find_col (cols : list string) (candidates : list string) : option string :=
  match candidates with
  | [] => None
  | cand :: rest =>
      match find_exact (py_lower cand) cols with
      | Some c => Some c
      | None =>
          match find_sub (py_lower cand) cols with
          | Some c => Some c
          | None => find_col cols rest
          end
      end
  end.

(** [classify_indexer]: the post-fixed test (with the bare token DI) comes
    before the IPCA test. *)
Definition classify_indexer (raw : Cell) : option Indexer :=
  match raw with
  | CNone => None
  | _ =>
      let t := py_upper (py_strip (py_str raw)) in
      if contains "CDI" t || contains "PÓS" t || contains "POS" t || contains "DI" t then Some PosCDI
      else if contains "IPCA" t then Some IPCA
      else if contains "PRÉ" t || contains "PRE" t || contains "FIXA" t then Some Pre
      else None
  end.

(** [parse_rate_value]: no special case for numbers, suffix tokens removed,
    every [.] dropped and [,] turned into [.], conversion errors give None. *)
Definition parse_rate_value (x : Cell) : option (option Q) :=
  match x with
  | CNone => Some None
  | _ =>
      let s := py_upper (py_strip (py_str x)) in
      let s := py_replace "A A" "" (py_replace "AA" "" (py_replace "A.A." "" (py_replace "%" "" s))) in
      let s := py_replace " " "" s in
      let s := py_replace "," "." (py_replace "." "" s) in
      match search_numeral (utf8_decode s) with
      | None => Some None
      | Some m => Some (py_float m)
      end
  end.

End Destques.

(* ------------------------------------------------------------------ *)
(** ** Presentation (rf_destaques.py) *)

Definition Qltb (a b : Q) : bool := negb (Qle_bool b a).

(** Python's [round] (half to even) to an integer. *)
Definition round_half_even (q : Q) : Z :=
  let f := Qfloor q in
  let r := q - inject_Z f in
  if Qltb r (1 # 2) then f
  else if Qltb (1 # 2) r then (f + 1)%Z
  else if Z.even f then f else (f + 1)%Z.

(** Sign, integer part and hundredths of a value rounded to 2 decimals. *)
Definition fixed2_parts (v : Q) : bool * N * N :=
  let c := Z.to_N (round_half_even (Qabs v * 100)) in
  (Qltb v 0, (c / 100)%N, (c mod 100)%N).

(** Thousands grouping: [sep] inserted every three digits from the right. *)
Fixpoint group_rev (sep : ascii) (k : nat) (s : string) : string :=
  match s with
  | EmptyString => EmptyString
  | String c s' =>
      if (k =? 3)%nat then String sep (String c (group_rev sep 1 s'))
      else String c (group_rev sep (S k) s')
  end.

Definition group_with (sep : ascii) (ds : string) : string :=
  rev_str (group_rev sep 0 (rev_str ds)).

(** [f"{v:,.2f}"] ([grouped]) and [f"{v:.2f}"]. *)
Definition py_format_2f (grouped : bool) (v : Q) : string :=
  let '(neg, ip, fr) := fixed2_parts v in
  (if neg then "-" else "") ++
  (if grouped then group_with "," (N_to_string ip) else N_to_string ip) ++
  "." ++ pad_left 2 (N_to_string fr).

Definition format_rate_for_display (rate_num : option Q) (indexador : option Indexer) : string :=
  match rate_num with
  | None => ""
  | Some val =>
      match indexador with
      | Some PosCDI =>
          let val := if Qle_bool val 2 then val * 100 else val in
          py_replace "X" "." (py_replace "." "," (py_replace "," "X" (py_format_2f true val ++ "%")))
      | _ =>
          let val := if Qle_bool val (3 # 2) then val * 100 else val in
          py_replace "." "," (py_format_2f false val ++ "%")
      end
  end.

(** [f"R$ {int(round(v)):,.0f}".replace(",", ".")]. *)
Definition format_currency_brl (value : option Q) : string :=
  match value with
  | None => ""
  | Some v =>
      let z := round_half_even v in
      py_replace "," "."
        ("R$ " ++ (if (z <? 0)%Z then "-" else "") ++ group_with "," (N_to_string (Z.to_N (Z.abs z))))
  end.

Definition format_date_br (dt : option Z) : string :=
  match dt with
  | None => ""
  | Some d => strftime_dmy d
  end.

(* ------------------------------------------------------------------ *)
(** ** Normalised records and the selection engine *)

(** A row of the transformed DataFrame: the sheet's cells by column name
    and the columns added by the Transform block. *)
Record Rec : Type := mkRec {
  r_cells : list (string * Cell);
  indexador_pad : option Indexer;
  prazo_dias : option Q;
  horizonte : option Horizon;
  taxa_num : option Q;
  taxa_fmt : string;
  aplic_min_num : option Q;
  aplic_min_fmt : string;
  venc_fmt : string
}.

Fixpoint assoc_get (k : string) (l : list (string * Cell)) : option Cell :=
  match l with
  | [] => None
  | (k', v) :: l' => if String.eqb k k' then Some v else assoc_get k l'
  end.

(** [row[col]] for a column of the sheet. *)
Definition row_get (r : Rec) (col : string) : Cell :=
  match assoc_get col (r_cells r) with Some v => v | None => CNone end.

(** The order of [sort_values("taxa_num", ascending=False)]: larger rates
    first, NaN last. *)
Definition rate_ge (a b : Rec) : bool :=
  match taxa_num a, taxa_num b with
  | Some x, Some y => Qle_bool y x
  | Some _, None => true
  | None, None => true
  | None, Some _ => false
  end.

Definition ranked (l : list Rec) : Prop := Sorted (fun a b => rate_ge a b = true) l.

(** What pandas documents for [sort_values(..., ascending=False)] with the
    default [kind="quicksort"]: the result is a permutation of the rows in
    descending order of the key; the order of equal keys is not specified
    (only "mergesort" and "stable" are stable). *)
Definition sort_contract (sort_values : list Rec -> list Rec) : Prop :=
  forall l, Permutation (sort_values l) l /\ ranked (sort_values l).

(** Insertion sorts, used as concrete instances of the contract. *)
Fixpoint insert_by (le : Rec -> Rec -> bool) (x : Rec) (l : list Rec) : list Rec :=
  match l with
  | [] => [x]
  | y :: l' => if le x y then x :: y :: l' else y :: insert_by le x l'
  end.

Definition isort_by (le : Rec -> Rec -> bool) (l : list Rec) : list Rec :=
  fold_right (insert_by le) [] l.

(** Ties kept in input order: the stable descending sort. *)
Definition stable_sort_desc : list Rec -> list Rec := isort_by rate_ge.

Definition in_block (idx : Indexer) (hz : Horizon) (r : Rec) : bool :=
  match indexador_pad r, horizonte r with
  | Some i, Some h => indexer_eqb i idx && horizon_eqb h hz
  | _, _ => false
  end.

(** [top_n_block(df, idx, horizon, n)]; [n] comes from a number input
    bounded to 1..20, so it is a natural number. *)
Definition top_n_block (sort_values : list Rec -> list Rec)
    (df : list Rec) (idx : Indexer) (hz : Horizon) (n : nat) : list Rec :=
  firstn n (sort_values (filter (in_block idx hz) df)).

(* ------------------------------------------------------------------ *)
(** ** The default sort of [sort_values]: NumPy's argsort

    [df.sort_values("taxa_num", ascending=False)] sorts with pandas'
    [nargsort] and [kind="quicksort"], which calls NumPy's [argsort].  This
    is the generic kernel [aquicksort_] of [npysort/quicksort.cpp] (an
    introsort: median-of-3 quicksort, insertion sort on ranges of at most
    16 elements, heapsort [aheapsort_] past the depth limit) for [double]
    keys.  On x86 CPUs with AVX2 or AVX-512 recent NumPy releases dispatch
    to a vectorised kernel instead, which is not modelled here.  NaN keys
    are taken out by [nargsort] before the call, so [Tag::less] is [<]. *)

Section NumPyArgsort.
Local Open Scope nat_scope.



(** [tosort[i]] and [tosort[i] = x]; the pointers of the C code are
    positions in [tosort]. *)
Definition get (t : list nat) (i : nat) : nat := nth i t 0%nat.



(** [v[*p]]. *)
Definition val (v : list Q) (t : list nat) (p : nat) : Q := nth (get t p) v 0%Q.


















End NumPyArgsort.



(* ------------------------------------------------------------------ *)
(** ** Optional post-filters (rf_destaques.py) *)

Definition rating_map : list (string * Z) :=
  [("AAA", 1); ("AA+", 2); ("AA", 3); ("AA-", 4);
   ("A+", 5); ("A", 6); ("A-", 7);
   ("BBB+", 8); ("BBB", 9); ("BBB-", 10);
   ("BB+", 11); ("BB", 12); ("BB-", 13);
   ("B+", 14); ("B", 15); ("B-", 16);
   ("CCC", 17); ("CC", 18); ("C", 19); ("D", 20)]%Z.

Fixpoint lookup_z (k : string) (m : list (string * Z)) : option Z :=
  match m with
  | [] => None
  | (k', v) :: m' => if String.eqb k k' then Some v else lookup_z k m'
  end.

(** [rating_score(x)]: [str(x).strip().upper().replace(" ", "")] looked up. *)
Definition rating_score (x : Cell) : option Z :=
  match x with
  | CNone => None
  | _ => lookup_z (py_replace " " "" (py_upper (py_strip (py_str x)))) rating_map
  end.

Definition rating_ok (col : string) (min_score : Z) (r : Rec) : bool :=
  match rating_score (row_get r col) with
  | Some s => (s <=? min_score)%Z
  | None => false
  end.

(** The rating block; it calls no [st.warning]. *)
Definition rating_filter (use_rating_filter : bool) (col_rating : option string)
    (rating_min : string) (df : list Rec) : list Rec :=
  match use_rating_filter, col_rating with
  | true, Some col =>
      match rating_score (CStr rating_min) with
      | Some min_score => filter (rating_ok col min_score) df
      | None => df
      end
  | _, _ => df
  end.

Definition min_app_ok (max_min_app : Z) (r : Rec) : bool :=
  match aplic_min_num r with
  | Some a => Qle_bool a (inject_Z max_min_app)
  | None => false
  end.

(** [if use_min_app_filter and max_min_app and max_min_app > 0]. *)
Definition min_app_filter (use_min_app_filter : bool) (max_min_app : Z) (df : list Rec) : list Rec :=
  if use_min_app_filter && (0 <? max_min_app)%Z then filter (min_app_ok max_min_app) df
  else df.

Definition rating_warning : string :=
  "Rating mínimo não reconhecido no mapeamento. Filtro de rating foi ignorado.".

(** The rating block of rf_destques.py, with the warnings it shows. *)
Definition destques_rating_filter (use_rating_filter : bool) (col_rating : option string)
    (rating_min : string) (df : list Rec) : list Rec * list string :=
  match use_rating_filter, col_rating with
  | true, Some col =>
      let df := filter (fun r => match row_get r col with CNone => false | _ => true end) df in
      match rating_score (CStr rating_min) with
      | None => (df, [rating_warning])
      | Some min_score => (filter (rating_ok col min_score) df, [])
      end
  | _, _ => (df, [])
  end.

(** The rating block of rf_destaques.py with the warnings it shows. *)
Definition rating_step (use_rating_filter : bool) (col_rating : option string)
    (rating_min : string) (df : list Rec) : list Rec * list string :=
  (rating_filter use_rating_filter col_rating rating_min df, []).

(* ------------------------------------------------------------------ *)
(** ** The sheet reader [read_credito_bancario_fast] / [read_sheet_fast] *)

Definition nl : string := String (ascii_of_nat 10) EmptyString.

Definition cr : string := String (ascii_of_nat 13) EmptyString.

Definition normalize_colname (c : Cell) : string :=
  match c with
  | CNone => ""
  | _ => py_replace cr " " (py_replace nl " " (py_strip (py_str c)))
  end.

(** [x is None or str(x).strip() == ""]. *)
Definition is_blank_cell (x : Cell) : bool :=
  match x with
  | CNone => true
  | _ => String.eqb (py_strip (py_str x)) ""
  end.

Definition blank_row (row : list Cell) : bool := forallb is_blank_cell row.

(** The loop over [ws.iter_rows(min_row=header_row + 1)]. *)
Fixpoint read_rows (empty_streak : nat) (rows : list (list Cell)) : list (list Cell) :=
  match rows with
  | [] => []
  | row :: rest =>
      if blank_row row then
        if (20 <=? S empty_streak)%nat then []
        else read_rows (S empty_streak) rest
      else row :: read_rows 0 rest
  end.

Definition col_all_none (data : list (list Cell)) (j : nat) : bool :=
  forallb (fun row => match nth j row CNone with CNone => true | _ => false end) data.

(** [pd.DataFrame(data, columns=header).dropna(axis=1, how="all")]: the
    constructor pads the shorter rows with [None] to the widest row, and
    raises when that width differs from the header's; with no row at all
    every column is empty and [dropna] removes it. *)
Definition pad_row (w : nat) (row : list Cell) : list Cell :=
  row ++ repeat CNone (w - length row).

Definition read_sheet_fast (header_cells : list Cell) (rows : list (list Cell))
    : Res (list string * list (list Cell)) :=
  let header := map normalize_colname header_cells in
  let data := read_rows 0 rows in
  match data with
  | [] => Ok ([], [])
  | _ :: _ =>
      let w := list_max (map (@length Cell) data) in
      if (w =? length header)%nat then
        let padded := map (pad_row w) data in
        let keep := filter (fun j => negb (col_all_none padded j)) (seq 0 w) in
        Ok (map (fun j => nth j header "") keep,
            map (fun row => map (fun j => nth j row CNone) keep) padded)
      else Raise
  end.

(* ------------------------------------------------------------------ *)
(** ** The pipeline of rf_destaques.py *)

(** The two pandas operations the script relies on: [sort_values] on
    [taxa_num] (descending) and [pd.to_datetime(..., dayfirst=True)].  The
    first argument of [to_datetime] is the clock: pandas reads the texts
    ["today"] and ["now"] as the current time. *)
Record Pandas : Type := mkPandas {
  sort_values : list Rec -> list Rec;
  to_datetime : Z -> list Cell -> list (option Z)
}.

(** The sidebar settings. *)
Record Config : Type := mkConfig {
  top_n : nat;
  use_rating_filter : bool;
  rating_min : string;
  use_min_app_filter : bool;
  max_min_app : Z
}.

Record Table : Type := mkTable {
  t_cols : list string;
  t_rows : list (list Cell)
}.

Fixpoint col_index (c : string) (cols : list string) : nat :=
  match cols with
  | [] => 0
  | c' :: cs => if String.eqb c c' then 0 else S (col_index c cs)
  end.

(** [df[col]]. *)
Definition column (t : Table) (c : string) : list Cell :=
  map (fun row => nth (col_index c (t_cols t)) row CNone) (t_rows t).

Fixpoint res_map {A B : Type} (f : A -> Res B) (l : list A) : Res (list B) :=
  match l with
  | [] => Ok []
  | x :: l' =>
      match f x with
      | Raise => Raise
      | Ok y => match res_map f l' with Raise => Raise | Ok ys => Ok (y :: ys) end
      end
  end.

Definition is_some {A : Type} (o : option A) : bool :=
  match o with Some _ => true | None => false end.

(** The survivor filter of line 228. *)
Definition complete (r : Rec) : bool :=
  is_some (indexador_pad r) && is_some (horizonte r) && is_some (taxa_num r).

Fixpoint join (sep : string) (l : list string) : string :=
  match l with
  | [] => ""
  | [x] => x
  | x :: l' => x ++ sep ++ join sep l'
  end.

Definition format_card (col_emissor col_produto : string) (r : Rec) (prefixo_taxa : string) : string :=
  let emissor := py_strip (py_str (row_get r col_emissor)) in
  let produto := py_strip (py_str (row_get r col_produto)) in
  let taxa := py_strip (taxa_fmt r) in
  let venc := py_strip (venc_fmt r) in
  let amin := py_strip (aplic_min_fmt r) in
  let titulo := py_strip (produto ++ " " ++ emissor) in
  let taxa_exibicao := match taxa with EmptyString => "" | _ => prefixo_taxa ++ taxa end in
  "🏦*" ++ titulo ++ "*" ++ nl ++
  "⏰ Vencimento: " ++ venc ++ nl ++
  "📈 Taxa: " ++ taxa_exibicao ++ nl ++
  "💰mínimo: " ++ amin ++ nl.

Definition has_indexer (label : Indexer) (r : Rec) : bool :=
  match indexador_pad r with Some i => indexer_eqb i label | None => false end.

Definition section (sort_values : list Rec -> list Rec) (col_emissor col_produto : string)
    (df : list Rec) (top_n : nat) (label : Indexer) (section_title prefixo_taxa : string) : string :=
  let sub := firstn top_n (sort_values (filter (has_indexer label) df)) in
  match sub with
  | [] => "📍*" ++ section_title ++ "*" ++ nl ++ "- (sem ativos hoje)" ++ nl ++ nl
  | _ => "📍*" ++ section_title ++ "*" ++ nl ++
         join nl (map (fun r => format_card col_emissor col_produto r prefixo_taxa) sub) ++ nl
  end.

(** [build_whatsapp_message(df, top_n)]; [today] is [datetime.now()]. *)
Definition build_whatsapp_message (sort_values : list Rec -> list Rec) (today : Z)
    (col_emissor col_produto : string) (df : list Rec) (top_n : nat) : string :=
  let data_envio := strftime_dmy today in
  "*Destaques de ativos Bancários*" ++ nl ++
  "🚨*TAXAS DE HOJE (" ++ data_envio ++ ")*" ++ nl ++ nl ++
  (section sort_values col_emissor col_produto df top_n PosCDI "PÓS-FIXADOS" "" ++
   section sort_values col_emissor col_produto df top_n Pre "PRÉ-FIXADOS" "" ++
   section sort_values col_emissor col_produto df top_n IPCA "IPCA" "IPCA+ ").

Definition indexers : list Indexer := [PosCDI; Pre; IPCA].

Definition horizons : list Horizon := [Curto; Medio; Longo].

(** The nine blocks shown in the tabs and written to the CSV. *)
Definition all_blocks (sort_values : list Rec -> list Rec) (df : list Rec) (n : nat)
    : list (Indexer * Horizon * list Rec) :=
  flat_map (fun idx => map (fun hz => (idx, hz, top_n_block sort_values df idx hz n)) horizons) indexers.

(** ** Repeated column labels

    The header row may repeat a label.  [df[c]] is then a DataFrame, not a
    Series.  Each helper the Transform block applies to [df[c]] (or to
    [r[c]] in the row-wise apply) tests [x is None or pd.isna(x)], or
    calls [.str] or [pd.to_datetime] on it.  On a DataFrame this raises, or
    the assignment of the result to one column does; with no row left the
    apply returns a DataFrame, whose assignment raises too.  The columns the
    script adds ([indexador_pad], [prazo_dias], ...) are only appended when
    the sheet does not already have them, so a label is repeated in the
    frame exactly when it is repeated in the header row. *)

Fixpoint count_label (c : string) (cols : list string) : nat :=
  match cols with
  | [] => 0
  | c' :: cs => (if String.eqb c c' then 1 else 0) + count_label c cs
  end.

Definition repeated (cols : list string) (c : string) : bool := (2 <=? count_label c cols)%nat.

Fixpoint has_dup (l : list string) : bool :=
  match l with
  | [] => false
  | x :: l' => existsb (String.eqb x) l' || has_dup l'
  end.

(** The labels read by the Transform block, in order: [df[col_indexador]],
    [df[col_prazo]] (or [df[col_venc]]), [df["prazo_dias"]], [df[col_taxa]],
    [r["taxa_num"]] and [r["indexador_pad"]], [df[col_min]],
    [df["aplic_min_num"]], [df[col_venc]] and [df["_venc_dt"]]. *)
Definition transform_reads (ci ct : string) (col_prazo : option string) (cv cm : string) : list string :=
  [ci] ++ (match col_prazo with Some cpz => [cpz] | None => [cv] end) ++
  ["prazo_dias"; ct; "taxa_num"; "indexador_pad"; cm; "aplic_min_num"; cv; "_venc_dt"].

(** The labels read by the rating block: [df[col_rating]], and the mask
    [df["_rating_score"].notna() & ...] once the minimum is known. *)
Definition rating_reads (use_rating_filter : bool) (col_rating : option string)
    (rating_min : string) : list string :=
  match use_rating_filter, col_rating with
  | true, Some col =>
      col :: match rating_score (CStr rating_min) with Some _ => ["_rating_score"] | None => [] end
  | _, _ => []
  end.

Definition preview_cols (ce cp ci : string) (col_rating : option string) : list string :=
  [ce; cp; ci; "taxa_fmt"; "aplic_min_fmt"; "venc_fmt"] ++
  (match col_rating with Some r => [r] | None => [] end) ++ ["prazo_dias"; "horizonte"].

(** [st.dataframe(df[preview_cols])] raises when the selected frame repeats
    a label: Arrow refuses duplicate column names. *)
Definition preview_clash (cols pcols : list string) : bool :=
  has_dup pcols || existsb (repeated cols) pcols.


Inductive Outcome : Type :=
| Stopped (missing : list string)
| Crashed
| Done (df : list Rec) (blocks : list (Indexer * Horizon * list Rec)) (msg : string).

Definition missing_cols (col_emissor col_produto col_indexador col_taxa col_prazo col_venc col_min
    : option string) : list string :=
  (if is_some col_emissor then [] else ["Emissor"]) ++
  (if is_some col_produto then [] else ["Produto"]) ++
  (if is_some col_indexador then [] else ["Indexador"]) ++
  (if is_some col_taxa then [] else ["Tx. Máxima/Taxa"]) ++
  (if is_some col_prazo || is_some col_venc then [] else ["Prazo ou Vencimento"]) ++
  (if is_some col_min then [] else ["Aplicação mínima"]) ++
  (if is_some col_venc then [] else ["Vencimento"]).

(** From the Transform block to the message, once the columns are known. *)
Definition transform (pd : Pandas) (cfg : Config) (today : Z) (t : Table)
    (ce cp ci ct : string) (col_prazo : option string) (cv cm : string)
    (col_rating : option string) : Outcome :=
  if existsb (repeated (t_cols t)) (transform_reads ci ct col_prazo cv cm) then Crashed else
  let ix := map classify_indexer (column t ci) in
  let pr := match col_prazo with
            | Some cpz => to_numeric_series (column t cpz)
            | None => map (option_map (fun d => inject_Z (d - today))) (to_datetime pd today (column t cv))
            end in
  let hz := map categorize_horizon pr in
  match res_map parse_rate_value (column t ct) with
  | Raise => Crashed
  | Ok tx =>
      let am := to_numeric_series (column t cm) in
      let vd := to_datetime pd today (column t cv) in
      let recs :=
        map (fun i =>
               mkRec (combine (t_cols t) (nth i (t_rows t) []))
                     (nth i ix None) (nth i pr None) (nth i hz None) (nth i tx None)
                     (format_rate_for_display (nth i tx None) (nth i ix None))
                     (nth i am None) (format_currency_brl (nth i am None))
                     (format_date_br (nth i vd None)))
            (seq 0 (length (t_rows t))) in
      let df := filter complete recs in
      if existsb (repeated (t_cols t))
           (rating_reads (use_rating_filter cfg) col_rating (rating_min cfg)) then Crashed else
      let df := rating_filter (use_rating_filter cfg) col_rating (rating_min cfg) df in
      let df := min_app_filter (use_min_app_filter cfg) (max_min_app cfg) df in
      if preview_clash (t_cols t) (preview_cols ce cp ci col_rating) then Crashed else
      Done df (all_blocks (sort_values pd) df (top_n cfg))
           (build_whatsapp_message (sort_values pd) today ce cp df (top_n cfg))
  end.

Definition run (pd : Pandas) (cfg : Config) (today : Z) (t : Table) : Outcome :=
  let cols := t_cols t in
  let col_emissor := find_col cols ["Emissor"] in
  let col_produto := find_col cols ["Produto"] in
  let col_indexador := find_col cols ["Indexador"] in
  let col_taxa := find_col cols ["Tx"; "Taxa"; "Máxima"; "Maxima"] in
  let col_prazo := find_col cols ["Prazo"] in
  let col_venc := find_col cols ["Vencimento"] in
  let col_min := find_col cols ["Aplicação"; "Aplicacao"; "mínima"; "minima"] in
  let col_rating := find_col cols ["Rating"] in
  match col_emissor, col_produto, col_indexador, col_taxa, col_venc, col_min with
  | Some ce, Some cp, Some ci, Some ct, Some cv, Some cm =>
      transform pd cfg today t ce cp ci ct col_prazo cv cm col_rating
  | _, _, _, _, _, _ =>
      Stopped (missing_cols col_emissor col_produto col_indexador col_taxa col_prazo col_venc col_min)
  end.

(* ------------------------------------------------------------------ *)
(** ** Concrete inputs used by the witnesses and counterexamples *)

(** A cell read by [pd.to_datetime] on the day [today]: a date is itself,
    the texts ["today"] and ["now"] are the day of the run, and any other
    text is left unparsed here. *)
Definition cell_date_at (today : Z) (c : Cell) : option Z :=
  match c with
  | CDate d => Some d
  | CStr s => if String.eqb s "today" || String.eqb s "now" then Some today else None
  | _ => None
  end.

(** A pandas instance whose sort is the stable one. *)
Definition pandas_stable : Pandas := mkPandas stable_sort_desc (fun today => map (cell_date_at today)).

(** Two post-fixed short-term offers with the same rate, in this order. *)
Definition offer (issuer : string) (rate : Q) (min_app : option Q) (rating : Cell) : Rec :=
  mkRec [("Emissor", CStr issuer); ("Rating", rating)]
        (Some PosCDI) (Some 200) (Some Curto) (Some rate) "" min_app "" "".

Definition offer_a : Rec := offer "Banco A" 110 (Some 1000) (CStr "AA").
Definition offer_b : Rec := offer "Banco B" 110 (Some 10000) CNone.
Definition offer_c : Rec := offer "Banco C" 120 (Some 3000) (CStr "A-").

(** [formatRate] as the spec words it: per-class threshold (2 for PostCDI,
    1.5 otherwise) below which the value is a fraction and is multiplied by
    100; 2 decimals, comma as decimal separator, [.] as thousands separator
    for PostCDI only, trailing [%]. *)
Definition spec_format_rate (v : Q) (cls : Indexer) : string :=
  let threshold := match cls with PosCDI => 2 | _ => 3 # 2 end in
  let w := if Qle_bool v threshold then v * 100 else v in
  let '(neg, ip, fr) := fixed2_parts w in
  (if neg then "-" else "") ++
  (match cls with PosCDI => group_with "." (N_to_string ip) | _ => N_to_string ip end) ++
  "," ++ pad_left 2 (N_to_string fr) ++ "%".

(** A header list and two alias lists for the column resolution examples. *)
Definition headers_ex : list string := ["Emissor"; "Tx. Máxima"; "Taxa"].




(** [parseRate] as the spec words it (its reference algorithm): drop [%]
    and spaces, drop every [.], turn [,] into [.], then take the first
    signed decimal numeral. *)
Definition spec_parse_rate (s : string) : option Q :=
  let t := py_replace "," "." (py_replace "." "" (py_replace " " "" (py_replace "%" "" s))) in
  match search_numeral (utf8_decode t) with
  | None => None
  | Some m => py_float m
  end.

(** The leftmost match of [-?\d[\d\.,]*] in the code points [t], as the
    regular expression defines it: [t] is [p ++ sign ++ num ++ rest], where
    [p] holds no decimal digit and does not end in [-] when the match has no
    sign, [num] is a decimal digit followed by digits, dots and commas, and
    [rest] does not go on with one of those. *)
Definition rate_match (t : list Z) (neg : bool) (num : list Z) : Prop :=
  exists p rest,
    t = (p ++ (if neg then [45%Z] else []) ++ num ++ rest)%list /\
    Forall (fun x => isdecimal x = false) p /\
    (neg = false -> last p 0%Z <> 45%Z) /\
    (exists d body, num = d :: body /\ isdecimal d = true /\
                    Forall (fun x => is_dc x = true) body) /\
    (forall x r, rest = x :: r -> is_dc x = false).

(** The leftmost match of [-?\d+(\.\d+)?] in [t]: the digits [a], then
    [.c] when [c] is not empty; without [c] the match does not go on with
    a dot and a digit. *)
Definition number_match (t : list Z) (neg : bool) (a c : list Z) : Prop :=
  exists p rest,
    t = (p ++ (if neg then [45%Z] else []) ++ a ++
         (match c with [] => [] | _ :: _ => 46%Z :: c end) ++ rest)%list /\
    Forall (fun x => isdecimal x = false) p /\
    (neg = false -> last p 0%Z <> 45%Z) /\
    a <> [] /\ Forall (fun x => isdecimal x = true) a /\
    Forall (fun x => isdecimal x = true) c /\
    (forall x r, rest = x :: r -> isdecimal x = false) /\
    (c = [] -> forall y r, rest = 46%Z :: y :: r -> isdecimal y = false).

(** Whether a rating cell is present ([notna]). *)
Definition rating_present (col : string) (r : Rec) : bool :=
  match row_get r col with CNone => false | _ => true end.

(** The reading loop starting with a streak of [k] blank rows never
    meets 20 blank rows in a row. *)
Fixpoint run_ok (k : nat) (rows : list (list Cell)) : bool :=
  match rows with
  | [] => true
  | row :: rest =>
      if blank_row row then (S k <? 20)%nat && run_ok (S k) rest
      else run_ok 0 rest
  end.

(** The first two lines of the message, with the date of the run. *)
Definition message_header (today : Z) : string :=
  "*Destaques de ativos Bancários*" ++ nl ++
  "🚨*TAXAS DE HOJE (" ++ strftime_dmy today ++ ")*" ++ nl ++ nl.

(** A text that [pd.to_datetime] may read against the clock: ["today"],
    ["now"], or a time of day such as ["10:30"], which dateutil completes
    with the current date.  The test is generous: any text holding NOW or
    TODAY in any case, or a colon. *)
Definition clock_text (c : Cell) : bool :=
  match c with
  | CStr s => contains "NOW" (py_upper s) || contains "TODAY" (py_upper s) || contains ":" s
  | _ => false
  end.

(** Apart from such texts, [pd.to_datetime] does not look at the clock. *)
Definition clock_contract (pd : Pandas) : Prop :=
  forall d1 d2 cells, forallb (fun c => negb (clock_text c)) cells = true ->
    to_datetime pd d1 cells = to_datetime pd d2 cells.

(** Two runs on the same table on the days [d1] and [d2] stop alike, crash
    alike, or give the same records and blocks and messages that differ
    only in their header. *)
Definition date_only_in_header (pd : Pandas) (cfg : Config) (d1 d2 : Z) (t : Table) : Prop :=
  match run pd cfg d1 t, run pd cfg d2 t with
  | Stopped m1, Stopped m2 => m1 = m2
  | Crashed, Crashed => True
  | Done df1 b1 msg1, Done df2 b2 msg2 =>
      df1 = df2 /\ b1 = b2 /\
      exists body, msg1 = message_header d1 ++ body /\ msg2 = message_header d2 ++ body
  | _, _ => False
  end.

(** The settings used in the examples: top 5, no post-filter. *)
Definition cfg_ex : Config := mkConfig 5 false "A" false 0.

(** A sheet with one post-fixed offer maturing on day 20814 (2026-12-27),
    without a Prazo column, and the same with a Prazo column. *)
Definition table_venc : Table :=
  mkTable ["Emissor"; "Produto"; "Indexador"; "Taxa"; "Vencimento"; "Aplicação mínima"]
          [[CStr "Banco A"; CStr "CDB"; CStr "CDI"; CStr "110%"; CDate 20814; CInt 1000]].

Definition table_prazo : Table :=
  mkTable ["Emissor"; "Produto"; "Indexador"; "Taxa"; "Prazo"; "Vencimento"; "Aplicação mínima"]
          [[CStr "Banco A"; CStr "CDB"; CStr "CDI"; CStr "110%"; CInt 360; CDate 20814; CInt 1000]].

(** The same offer with the Vencimento cell holding the text "today". *)
Definition table_prazo_today : Table :=
  mkTable ["Emissor"; "Produto"; "Indexador"; "Taxa"; "Prazo"; "Vencimento"; "Aplicação mínima"]
          [[CStr "Banco A"; CStr "CDB"; CStr "CDI"; CStr "110%"; CInt 360; CStr "today"; CInt 1000]].

Definition outcome_msg (o : Outcome) : option string :=
  match o with Done _ _ m => Some m | _ => None end.

Definition outcome_blocks (o : Outcome) : option (list (Indexer * Horizon * list Rec)) :=
  match o with Done _ b _ => Some b | _ => None end.

(** A blank row and twenty of them. *)
Definition blank_line : list Cell := [CNone; CStr "  "].

Definition data_line (s : string) : list Cell := [CStr s; CInt 1].

(** Arabic-Indic digits one and two: U+0661 U+0662. *)
Definition arabic_12 : string :=
  String (ascii_of_nat 217) (String (ascii_of_nat 161)
    (String (ascii_of_nat 217) (String (ascii_of_nat 162) EmptyString))).

(* ------------------------------------------------------------------ *)
(** ** Further helpers of the scripts *)

(** The order of the horizon buckets, shortest first. *)
Definition horizon_rank (h : Horizon) : nat :=
  match h with Curto => 0 | Medio => 1 | Longo => 2 end.

(** [categorize_horizon] of rf_destques.py, the first variant, whose middle
    test is written [360 < days <= 1080]. *)
Definition destques_categorize_horizon (days : option Q) : option Horizon :=
  match days with
  | None => None
  | Some d =>
      if Qle_bool d 360 then Some Curto
      else if Qltb 360 d && Qle_bool d 1080 then Some Medio
      else Some Longo
  end.

(** Python's [s.count(x)] for a one-character [x]. *)
Fixpoint count_char (x : ascii) (s : string) : nat :=
  match s with
  | EmptyString => 0
  | String c s' => (if ch_eqb x c then 1 else 0) + count_char x s'
  end.

(** The characters of [\d.] and of [\d,]. *)
Definition is_dd (c : ascii) : bool := is_digit c || ch_eqb c ".".

Definition is_dcomma (c : ascii) : bool := is_digit c || ch_eqb c ",".

(** A double quote. *)
Definition dq : string := String (ascii_of_nat 34) EmptyString.

(** [safe] of [copy_button] (rf_destaques_2.py): backslashes doubled, then
    backticks and [${] escaped. *)
Definition copy_button_safe (text : string) : string :=
  py_replace "${" "\${" (py_replace "`" "\`" (py_replace "\" "\\" text)).

(** The HTML string built by [copy_button]; [components.html] shows it. *)
Definition copy_button (text label : string) : string :=
  nl ++ "    <button onclick=" ++ dq ++ "navigator.clipboard.writeText(`" ++ copy_button_safe text ++ "`)" ++ dq ++ nl ++
  "    style=" ++ dq ++ "cursor:pointer;padding:8px 12px;border-radius:8px;border:1px solid #ddd;background:white;" ++ dq ++ ">" ++ nl ++
  "    📋 " ++ label ++ nl ++
  "    </button>" ++ nl ++
  "    ".


(** An HTML attribute value in double quotes ends at the next double quote. *)
Fixpoint upto_dq (s : string) : string :=
  match s with
  | EmptyString => EmptyString
  | String c s' => if ch_eqb (ascii_of_nat 34) c then EmptyString else String c (upto_dq s')
  end.

(** The start of [copy_button]'s HTML, up to the opening quote of [onclick]. *)
Definition onclick_prefix : string := nl ++ "    <button onclick=" ++ dq.






(* ================================================================== *)
(** * Theorems *)

(** ** Evaluation of the helpers on sample inputs *)

Example upper_pos : py_upper "pós-fixado" = "PÓS-FIXADO".
Proof. reflexivity. Qed.

Example lower_max : py_lower "Tx. MÁXIMA" = "tx. máxima".
Proof. reflexivity. Qed.

Example replace_aa : py_replace "A.A." "" "13,45A.A." = "13,45".
Proof. reflexivity. Qed.

Example strip_ex :
  py_strip "  Banco X  " = "Banco X" /\
  py_strip (String (ascii_of_nat 194) (String (ascii_of_nat 160) "Taxa")) = "Taxa" /\
  py_strip ("Taxa" ++ String (ascii_of_nat 227) (String (ascii_of_nat 128) (String (ascii_of_nat 128) EmptyString))) = "Taxa".
Proof. repeat split; reflexivity. Qed.

Example N_to_string_ex : N_to_string 1234 = "1234".
Proof. reflexivity. Qed.

Example strftime_ex : strftime_dmy 20454 = "01/01/2026".
Proof. reflexivity. Qed.

Example py_str_float : py_str (CFloat 15 1) = "1.5" /\ py_str (CFloat 110 0) = "110.0".
Proof. split; reflexivity. Qed.

Example py_float_ex :
  py_float (utf8_decode "1234.56") = Some (Qmake 123456 100) /\
  py_float (utf8_decode "1.2.3") = None /\
  py_float (utf8_decode "-7.") = Some (Qopp (Qmake 7 1 + Qmake 0 1)).
Proof. repeat split; reflexivity. Qed.

Example search_ex :
  search_rate (utf8_decode "IPCA+7,20") = Some (utf8_decode "7,20") /\
  search_numeral (utf8_decode "1234.56") = Some (utf8_decode "1234.56") /\
  utf8_decode arabic_12 = [1633; 1634]%Z /\
  search_rate (utf8_decode arabic_12) = Some [1633; 1634]%Z.
Proof. repeat split; vm_compute; reflexivity. Qed.

Example format_ex :
  format_rate_for_display (Some (Qmake 110 100)) (Some PosCDI) = "110,00%" /\
  format_rate_for_display (Some (Qmake 72 1000)) (Some IPCA) = "7,20%" /\
  format_rate_for_display (Some (Qmake 123456 100)) (Some PosCDI) = "1.234,56%" /\
  format_currency_brl (Some (Qmake 50000 1)) = "R$ 50.000".
Proof. repeat split; reflexivity. Qed.

Example parse_ex :
  parse_rate_value (CStr "IPCA + 7,20%") = Ok (Some (Qmake 720 100)) /\
  parse_rate_value (CStr "110% CDI") = Ok (Some (Qmake 110 1)) /\
  to_numeric_series [CStr "1.234,56"] = [Some (Qmake 123456 100)] /\
  classify_indexer (CStr "IPCA com piso PRÉ") = Some IPCA /\
  find_col ["Emissor"; "Tx. Máxima"] ["Tx"; "Taxa"] = Some "Tx. Máxima" /\
  parse_rate_value (CStr arabic_12) = Ok (Some (Qmake 12 1)) /\
  to_numeric_text arabic_12 = None.
Proof. repeat split; vm_compute; reflexivity. Qed.

(** ** Order facts and the sort instances *)

Lemma rate_ge_total (a b : Rec) : rate_ge a b = false -> rate_ge b a = true.
Proof.
  unfold rate_ge.
  destruct (taxa_num a) as [x|], (taxa_num b) as [y|]; try discriminate; auto.
  intros H. apply Qle_bool_iff.
  destruct (Qlt_le_dec x y) as [Hlt|Hle].
  - apply Qlt_le_weak; exact Hlt.
  - apply Qle_bool_iff in Hle. congruence.
Qed.

Lemma rate_ge_trans (a b c : Rec) :
  rate_ge a b = true -> rate_ge b c = true -> rate_ge a c = true.
Proof.
  unfold rate_ge.
  destruct (taxa_num a) as [x|], (taxa_num b) as [y|], (taxa_num c) as [z|];
    try discriminate; auto.
  rewrite !Qle_bool_iff. intros H1 H2. eapply Qle_trans; eassumption.
Qed.

Lemma insert_by_perm (le : Rec -> Rec -> bool) (x : Rec) (l : list Rec) :
  Permutation (insert_by le x l) (x :: l).
Proof.
  induction l as [|y l IH]; simpl.
  - reflexivity.
  - destruct (le x y).
    + reflexivity.
    + rewrite IH. apply perm_swap.
Qed.

Lemma isort_by_perm (le : Rec -> Rec -> bool) (l : list Rec) :
  Permutation (isort_by le l) l.
Proof.
  induction l as [|x l IH]; simpl.
  - reflexivity.
  - rewrite insert_by_perm. constructor. exact IH.
Qed.

Section InsertSorted.

Variable le : Rec -> Rec -> bool.
Hypothesis le_true : forall x y, le x y = true -> rate_ge x y = true.
Hypothesis le_false : forall x y, le x y = false -> rate_ge y x = true.

Lemma insert_by_hd (x y : Rec) (l : list Rec) :
  HdRel (fun a b => rate_ge a b = true) y l -> rate_ge y x = true ->
  HdRel (fun a b => rate_ge a b = true) y (insert_by le x l).
Proof.
  intros Hhd Hyx. destruct l as [|z l]; simpl.
  - constructor. exact Hyx.
  - destruct (le x z).
    + constructor. exact Hyx.
    + constructor. inversion Hhd; assumption.
Qed.

Lemma insert_by_ranked (x : Rec) (l : list Rec) : ranked l -> ranked (insert_by le x l).
Proof.
  unfold ranked. induction l as [|y l IH]; intros Hs; simpl.
  - repeat constructor.
  - apply Sorted_inv in Hs as [Hs Hhd].
    destruct (le x y) eqn:E.
    + constructor.
      * constructor; assumption.
      * constructor. apply le_true. exact E.
    + constructor.
      * apply IH. exact Hs.
      * apply insert_by_hd; [exact Hhd | apply le_false; exact E].
Qed.

Lemma isort_by_contract : sort_contract (isort_by le).
Proof.
  intros l. split.
  - apply isort_by_perm.
  - induction l as [|x l IH]; simpl.
    + constructor.
    + apply insert_by_ranked. exact IH.
Qed.

End InsertSorted.

Lemma stable_sort_contract : sort_contract stable_sort_desc.
Proof.
  apply isort_by_contract.
  - auto.
  - apply rate_ge_total.
Qed.

Lemma ranked_strongly (l : list Rec) :
  ranked l -> StronglySorted (fun a b => rate_ge a b = true) l.
Proof.
  intros H. apply Sorted_StronglySorted; [|exact H].
  intros a b c. apply rate_ge_trans.
Qed.



Lemma strongly_ranked (l : list Rec) :
  StronglySorted (fun a b => rate_ge a b = true) l -> ranked l.
Proof. apply StronglySorted_Sorted. Qed.




(** ** Classification *)

(** On rf_destaques.py (and rf_destaques_2.py, rf_destaques3.py) the IPCA
    test comes first. *)
Lemma classify_indexer_ipca_first (raw : Cell) :
  raw <> CNone ->
  (contains "IPCA" (py_upper (py_str raw)) = true -> classify_indexer raw = Some IPCA) /\
  (classify_indexer raw = Some PosCDI \/ classify_indexer raw = Some Pre ->
   contains "IPCA" (py_upper (py_str raw)) = false).
Proof.
  intros Hn. unfold classify_indexer.
  destruct raw; try (exfalso; apply Hn; reflexivity);
  destruct (contains "IPCA" _) eqn:E; split; intros H; try reflexivity;
    try discriminate; auto;
    destruct H as [H|H]; discriminate H.
Qed.

(** C3 (code bug): the classifier of rf_destques.py tests the post-fixed
    tokens before IPCA, so an IPCA indexer text that also names the CDI is
    classified as post-fixed, while the classifier of rf_destaques.py
    returns IPCA for it. *)
Theorem destques_classify_ipca_cdi :
  Destques.classify_indexer (CStr "IPCA + CDI") = Some PosCDI /\
  classify_indexer (CStr "IPCA + CDI") = Some IPCA.
Proof. split; reflexivity. Qed.

(** ** Column resolution *)

Lemma prefixb_refl (s : string) : prefixb s s = true.
Proof.
  induction s as [|c s IH]; simpl; [reflexivity|].
  rewrite IH, Ascii.eqb_refl. reflexivity.
Qed.

Lemma contains_refl (s : string) : contains s s = true.
Proof. destruct s; simpl; [reflexivity|]. rewrite Ascii.eqb_refl, prefixb_refl. reflexivity. Qed.

(** An alias (lower-cased) matches a header (lower-cased) when the header
    equals or contains it. *)
Definition alias_matches (a c : string) : bool := contains (py_lower a) (py_lower c).

Lemma find_in_cols_some (a : string) (cols : list string) (c : string) :
  find_in_cols (py_lower a) cols = Some c -> In c cols /\ alias_matches a c = true.
Proof.
  unfold alias_matches.
  induction cols as [|c' cs IH]; simpl; [discriminate|].
  destruct (String.eqb (py_lower a) (py_lower c')) eqn:E1;
  destruct (contains (py_lower a) (py_lower c')) eqn:E2; simpl; intros H.
  - injection H as <-. auto.
  - injection H as <-. apply String.eqb_eq in E1. rewrite E1, contains_refl in E2. discriminate.
  - injection H as <-. auto.
  - destruct (IH H). auto.
Qed.

Lemma find_in_cols_none (a : string) (cols : list string) :
  find_in_cols (py_lower a) cols = None -> forall c, In c cols -> alias_matches a c = false.
Proof.
  unfold alias_matches.
  induction cols as [|c' cs IH]; simpl; [tauto|].
  destruct (String.eqb (py_lower a) (py_lower c')) eqn:E1;
  destruct (contains (py_lower a) (py_lower c')) eqn:E2; simpl; intros H; try discriminate.
  intros c [<-|Hc]; [exact E2 | apply IH; assumption].
Qed.

Lemma find_exact_some (a : string) (cols : list string) (c : string) :
  Destques.find_exact (py_lower a) cols = Some c -> In c cols /\ alias_matches a c = true.
Proof.
  unfold alias_matches.
  induction cols as [|c' cs IH]; simpl; [discriminate|].
  destruct (String.eqb (py_lower a) (py_lower c')) eqn:E1; intros H.
  - injection H as <-. apply String.eqb_eq in E1. rewrite E1, contains_refl. auto.
  - destruct (IH H). auto.
Qed.

Lemma find_sub_some (a : string) (cols : list string) (c : string) :
  Destques.find_sub (py_lower a) cols = Some c -> In c cols /\ alias_matches a c = true.
Proof.
  unfold alias_matches.
  induction cols as [|c' cs IH]; simpl; [discriminate|].
  destruct (contains (py_lower a) (py_lower c')) eqn:E; intros H.
  - injection H as <-. auto.
  - destruct (IH H). auto.
Qed.

Lemma find_sub_none (a : string) (cols : list string) :
  Destques.find_sub (py_lower a) cols = None -> forall c, In c cols -> alias_matches a c = false.
Proof.
  unfold alias_matches.
  induction cols as [|c' cs IH]; simpl; [tauto|].
  destruct (contains (py_lower a) (py_lower c')) eqn:E; intros H; try discriminate.
  intros c [<-|Hc]; [exact E | apply IH; assumption].
Qed.

(** What both resolvers guarantee: the first alias in priority order that
    matches some header decides, and the header returned matches it. *)
Definition alias_priority_resolution (fc : list string -> list string -> option string) : Prop :=
  forall cols cands,
    (fc cols cands = None <->
       forall a c, In a cands -> In c cols -> alias_matches a c = false) /\
    (forall c, fc cols cands = Some c ->
       In c cols /\
       exists pre a post, cands = (pre ++ a :: post)%list /\ alias_matches a c = true /\
         forall a' c', In a' pre -> In c' cols -> alias_matches a' c' = false) /\
    (forall cands', map py_lower cands' = map py_lower cands -> fc cols cands' = fc cols cands).

(** The claim C4 as worded: an exact match with some alias wins over a
    substring match. *)
Definition exact_match_wins (fc : list string -> list string -> option string) : Prop :=
  forall cols cands c,
    In c cols -> (exists a, In a cands /\ py_lower a = py_lower c) ->
    exists c' a', fc cols cands = Some c' /\ In a' cands /\ py_lower a' = py_lower c'.

(** C4 (counterexample): with the headers [Tx. Máxima] and [Taxa] and the
    aliases [Tx], [Taxa] (the rate aliases of rf_destaques.py), both
    resolvers return [Tx. Máxima], a mere substring match of the first
    alias, although [Taxa] matches the second alias exactly. *)
Lemma find_col_exact_does_not_win :
  ~ exact_match_wins find_col /\ ~ exact_match_wins Destques.find_col.
Proof.
  split; intros H;
  destruct (H headers_ex ["Tx"; "Taxa"] "Taxa") as [c' [a' [Hf [Ha Heq]]]];
  try (simpl; tauto);
  try (exists "Taxa"; simpl; tauto);
  vm_compute in Hf; injection Hf as <-;
  simpl in Ha; destruct Ha as [<-|[<-|[]]]; vm_compute in Heq; discriminate Heq.
Qed.

Lemma find_col_alias_priority : alias_priority_resolution find_col.
Proof.
  intros cols cands. induction cands as [|a rest IH]; simpl.
  - split; [split; [intros _ a c []|reflexivity]|].
    split; [discriminate|]. intros cands' H. destruct cands'; [reflexivity|discriminate].
  - destruct IH as [IHn [IHs IHc]].
    destruct (find_in_cols (py_lower a) cols) as [c|] eqn:E.
    + split; [split; [discriminate|]|].
      * intros H. apply find_in_cols_some in E as [Hin Hm].
        rewrite (H a c (or_introl eq_refl) Hin) in Hm. discriminate.
      * split.
        -- intros c0 H. injection H as <-. apply find_in_cols_some in E as [Hin Hm].
           split; [exact Hin|]. exists [], a, rest. simpl. tauto.
        -- intros [|a' rest'] Hm; simpl in Hm; [discriminate|]. injection Hm as Ha Hr.
           simpl. rewrite Ha, E. reflexivity.
    + split; [split|].
      * intros H a0 c [<-|Ha] Hc.
        -- apply (find_in_cols_none _ _ E). exact Hc.
        -- apply IHn; assumption.
      * intros H. apply IHn. intros a0 c Ha Hc. apply H; [right|]; assumption.
      * split.
        -- intros c H. destruct (IHs c H) as [Hin [pre [a0 [post [Hc [Hm Hpre]]]]]].
           split; [exact Hin|]. exists (a :: pre), a0, post.
           split; [rewrite Hc; reflexivity|]. split; [exact Hm|].
           intros a' c' [<-|Ha'] Hc'; [apply (find_in_cols_none _ _ E); exact Hc'|].
           apply Hpre; assumption.
        -- intros [|a' rest'] Hm; simpl in Hm; [discriminate|]. injection Hm as Ha Hr.
           simpl. rewrite Ha, E. apply IHc. exact Hr.
Qed.

Lemma destques_find_col_alias_priority : alias_priority_resolution Destques.find_col.
Proof.
  intros cols cands. induction cands as [|a rest IH]; simpl.
  - split; [split; [intros _ a c []|reflexivity]|].
    split; [discriminate|]. intros cands' H. destruct cands'; [reflexivity|discriminate].
  - destruct IH as [IHn [IHs IHc]].
    destruct (Destques.find_exact (py_lower a) cols) as [c|] eqn:E.
    + split; [split; [discriminate|]|].
      * intros H. apply find_exact_some in E as [Hin Hm].
        rewrite (H a c (or_introl eq_refl) Hin) in Hm. discriminate.
      * split.
        -- intros c0 H. injection H as <-. apply find_exact_some in E as [Hin Hm].
           split; [exact Hin|]. exists [], a, rest. simpl. tauto.
        -- intros [|a' rest'] Hm; simpl in Hm; [discriminate|]. injection Hm as Ha Hr.
           simpl. rewrite Ha, E. reflexivity.
    + destruct (Destques.find_sub (py_lower a) cols) as [c|] eqn:E2.
      * split; [split; [discriminate|]|].
        -- intros H. apply find_sub_some in E2 as [Hin Hm].
           rewrite (H a c (or_introl eq_refl) Hin) in Hm. discriminate.
        -- split.
           ++ intros c0 H. injection H as <-. apply find_sub_some in E2 as [Hin Hm].
              split; [exact Hin|]. exists [], a, rest. simpl. tauto.
           ++ intros [|a' rest'] Hm; simpl in Hm; [discriminate|]. injection Hm as Ha Hr.
              simpl. rewrite Ha, E, E2. reflexivity.
      * split; [split|].
        -- intros H a0 c [<-|Ha] Hc.
           ++ apply (find_sub_none _ _ E2). exact Hc.
           ++ apply IHn; assumption.
        -- intros H. apply IHn. intros a0 c Ha Hc. apply H; [right|]; assumption.
        -- split.
           ++ intros c H. destruct (IHs c H) as [Hin [pre [a0 [post [Hc [Hm Hpre]]]]]].
              split; [exact Hin|]. exists (a :: pre), a0, post.
              split; [rewrite Hc; reflexivity|]. split; [exact Hm|].
              intros a' c' [<-|Ha'] Hc'; [apply (find_sub_none _ _ E2); exact Hc'|].
              apply Hpre; assumption.
           ++ intros [|a' rest'] Hm; simpl in Hm; [discriminate|]. injection Hm as Ha Hr.
              simpl. rewrite Ha, E, E2. apply IHc. exact Hr.
Qed.

(** C4 (amended): in both variants resolution is case-insensitive and
    alias priority decides: the header returned equals or contains
    (lower-cased) the first alias, in list order, that some header equals or
    contains; nothing is returned when no alias matches. *)
Theorem find_col_case_insensitive_alias_priority :
  alias_priority_resolution find_col /\ alias_priority_resolution Destques.find_col.
Proof. split; [apply find_col_alias_priority | apply destques_find_col_alias_priority]. Qed.

(** ** Rate formatting *)

Lemma py_replace_single (c d : ascii) (s : string) :
  py_replace (String c EmptyString) (String d EmptyString) s =
  str_map (fun x => if ch_eqb c x then d else x) s.
Proof.
  unfold py_replace. induction s as [|x s IH]; simpl; [reflexivity|].
  rewrite andb_true_r. destruct (ch_eqb c x); simpl; rewrite IH; reflexivity.
Qed.

Lemma str_map_app (f : ascii -> ascii) (a b : string) :
  str_map f (a ++ b) = str_map f a ++ str_map f b.
Proof. induction a as [|c a IH]; simpl; [reflexivity|]. rewrite IH. reflexivity. Qed.

Lemma str_map_rev (f : ascii -> ascii) (s : string) :
  str_map f (rev_str s) = rev_str (str_map f s).
Proof. induction s as [|c s IH]; simpl; [reflexivity|]. rewrite str_map_app, IH. reflexivity. Qed.

Lemma str_map_group_rev (f : ascii -> ascii) (sep : ascii) (k : nat) (s : string) :
  str_map f (group_rev sep k s) = group_rev (f sep) k (str_map f s).
Proof.
  revert k. induction s as [|c s IH]; intros k; simpl; [reflexivity|].
  destruct (k =? 3)%nat; simpl; rewrite IH; reflexivity.
Qed.

Lemma str_map_group_with (f : ascii -> ascii) (sep : ascii) (ds : string) :
  str_map f (group_with sep ds) = group_with (f sep) (str_map f ds).
Proof. unfold group_with. rewrite str_map_rev, str_map_group_rev, str_map_rev. reflexivity. Qed.

Lemma str_app_assoc (a b c : string) : (a ++ b) ++ c = a ++ (b ++ c).
Proof. induction a as [|x a IH]; simpl; [reflexivity|]. rewrite IH. reflexivity. Qed.

Lemma str_all_app (P : ascii -> bool) (a b : string) :
  str_all P (a ++ b) = str_all P a && str_all P b.
Proof. induction a as [|c a IH]; simpl; [reflexivity|]. rewrite IH, andb_assoc. reflexivity. Qed.

Lemma digit_char_digit (n : N) : is_digit (digit_char (n mod 10)) = true.
Proof.
  unfold is_digit, digit_char, code, chr.
  assert (Hlt : (N.to_nat (n mod 10) < 10)%nat).
  { assert (H := N.mod_lt n 10 ltac:(discriminate)).
    remember (n mod 10)%N as m. lia. }
  remember (N.to_nat (n mod 10)) as k. clear Heqk.
  rewrite nat_ascii_embedding by lia.
  apply andb_true_intro; split; apply Nat.leb_le; lia.
Qed.

Lemma digits_aux_digits (fuel : nat) (n : N) (acc : string) :
  str_all is_digit acc = true -> str_all is_digit (digits_aux fuel n acc) = true.
Proof.
  revert n acc. induction fuel as [|f IH]; intros n acc H; [exact H|].
  cbn [digits_aux].
  assert (Hacc : str_all is_digit (String (digit_char (n mod 10)) acc) = true).
  { change (is_digit (digit_char (n mod 10)) && str_all is_digit acc = true).
    rewrite digit_char_digit. exact H. }
  destruct (n <? 10)%N; [exact Hacc | apply IH; exact Hacc].
Qed.

Lemma N_to_string_digits (n : N) : str_all is_digit (N_to_string n) = true.
Proof. apply digits_aux_digits. reflexivity. Qed.

Lemma pad_left_digits (w : nat) (s : string) :
  str_all is_digit s = true -> str_all is_digit (pad_left w s) = true.
Proof.
  intros H. unfold pad_left. rewrite str_all_app, H, andb_true_r.
  induction (w - String.length s)%nat as [|k IH]; simpl; [reflexivity|exact IH].
Qed.

Lemma str_map_digits_id (f : ascii -> ascii) (s : string) :
  (forall c, is_digit c = true -> f c = c) -> str_all is_digit s = true -> str_map f s = s.
Proof.
  intros Hf. induction s as [|c s IH]; simpl; [reflexivity|].
  intros H. apply andb_prop in H as [Hc Hs]. rewrite Hf, IH; auto.
Qed.

Lemma swap_fixes_digits (a b : ascii) :
  is_digit a = false -> forall c, is_digit c = true -> (if ch_eqb a c then b else c) = c.
Proof.
  intros Ha c Hc. destruct (ch_eqb a c) eqn:E; [|reflexivity].
  apply Ascii.eqb_eq in E. subst. congruence.
Qed.

Ltac digits_fixed :=
  first [ apply N_to_string_digits
        | apply pad_left_digits; apply N_to_string_digits
        | apply swap_fixes_digits; reflexivity ].

(** C5: [format_rate_for_display] renders a rate as the spec describes:
    for PostCDI a value [<= 2] is multiplied by 100 and shown with 2
    decimals, [,] as decimal and [.] as thousands separator and a trailing
    [%]; for Pre and IPCA the threshold is 1.5 and there is no grouping;
    [formatRate(1.10, PostCDI) = "110,00%"] and
    [formatRate(0.072, IPCA) = "7,20%"]. *)
Theorem format_rate_for_display_spec :
  (forall (v : Q) (cls : Indexer),
     format_rate_for_display (Some v) (Some cls) = spec_format_rate v cls) /\
  format_rate_for_display (Some (Qmake 110 100)) (Some PosCDI) = "110,00%" /\
  format_rate_for_display (Some (Qmake 72 1000)) (Some IPCA) = "7,20%".
Proof.
  split; [|split; reflexivity].
  intros v cls. unfold format_rate_for_display, spec_format_rate, py_format_2f.
  destruct cls;
  [ destruct (fixed2_parts (if Qle_bool v 2 then v * 100 else v)) as [[neg ip] fr]
  | destruct (fixed2_parts (if Qle_bool v (3 # 2) then v * 100 else v)) as [[neg ip] fr]
  | destruct (fixed2_parts (if Qle_bool v (3 # 2) then v * 100 else v)) as [[neg ip] fr] ];
  rewrite ?py_replace_single, ?str_map_app, ?str_map_group_with, ?str_map_app;
  repeat (rewrite (str_map_digits_id _ (N_to_string _)) by digits_fixed);
  repeat (rewrite (str_map_digits_id _ (pad_left _ _)) by digits_fixed);
  rewrite ?str_app_assoc; destruct neg; reflexivity.
Qed.

(** ** Rate and number parsing *)

Lemma str_app_nil_r (s : string) : s ++ EmptyString = s.
Proof. induction s as [|c s IH]; simpl; [reflexivity|]. rewrite IH. reflexivity. Qed.

Lemma rev_str_app (a b : string) : rev_str (a ++ b) = rev_str b ++ rev_str a.
Proof.
  induction a as [|c a IH]; simpl.
  - rewrite str_app_nil_r. reflexivity.
  - rewrite IH, str_app_assoc. reflexivity.
Qed.

Lemma rev_str_involutive (s : string) : rev_str (rev_str s) = s.
Proof. induction s as [|c s IH]; simpl; [reflexivity|]. rewrite rev_str_app, IH. reflexivity. Qed.

Lemma str_all_rev (P : ascii -> bool) (s : string) : str_all P (rev_str s) = str_all P s.
Proof.
  induction s as [|c s IH]; simpl; [reflexivity|].
  rewrite str_all_app, IH. simpl. rewrite andb_true_r, andb_comm. reflexivity.
Qed.

(** A one-character [replace] acts character by character. *)
Lemma replace_single_app (x : ascii) (new a b : string) :
  replace_go (String x EmptyString) new 0 (a ++ b) =
  replace_go (String x EmptyString) new 0 a ++ replace_go (String x EmptyString) new 0 b.
Proof.
  induction a as [|c a IH]; [reflexivity|].
  cbn [append replace_go prefixb String.length]. rewrite andb_true_r. simpl Nat.sub.
  destruct (ch_eqb x c); rewrite IH; [rewrite str_app_assoc|]; reflexivity.
Qed.

Lemma replace_single_absent (P : ascii -> bool) (x : ascii) (new s : string) :
  P x = false -> str_all P s = true -> replace_go (String x EmptyString) new 0 s = s.
Proof.
  intros Hx. induction s as [|c s IH]; [reflexivity|].
  intros H. cbn [str_all] in H. apply andb_prop in H as [Hc Hs].
  cbn [replace_go prefixb]. rewrite andb_true_r.
  destruct (ch_eqb x c) eqn:E.
  - apply Ascii.eqb_eq in E. subst. congruence.
  - rewrite IH by exact Hs. reflexivity.
Qed.

Lemma contains_single_app (x : ascii) (a b : string) :
  contains (String x EmptyString) (a ++ b) =
  contains (String x EmptyString) a || contains (String x EmptyString) b.
Proof.
  induction a as [|c a IH]; [reflexivity|].
  cbn [append contains prefixb]. rewrite IH, orb_assoc. reflexivity.
Qed.

Lemma replace_digits_id (x : ascii) (new s : string) :
  is_digit x = false -> str_all is_digit s = true ->
  py_replace (String x EmptyString) new s = s.
Proof. intros Hx Hs. unfold py_replace. apply (replace_single_absent is_digit); assumption. Qed.

(* ---- stripping ---- *)

Lemma ws2_ascii_l (c1 c2 : ascii) : (code c1 < 128)%nat -> ws2 c1 c2 = false.
Proof. intros H. unfold ws2. rewrite (proj2 (Nat.eqb_neq (code c1) 194)) by lia. reflexivity. Qed.

Lemma ws2_ascii_r (c1 c2 : ascii) : (code c2 < 128)%nat -> ws2 c1 c2 = false.
Proof.
  intros H. unfold ws2.
  rewrite (proj2 (Nat.eqb_neq (code c2) 133)), (proj2 (Nat.eqb_neq (code c2) 160)) by lia.
  apply andb_false_r.
Qed.

Lemma ws3_ascii_l (c1 c2 c3 : ascii) : (code c1 < 128)%nat -> ws3 c1 c2 c3 = false.
Proof.
  intros H. unfold ws3. cbv zeta.
  rewrite (proj2 (Nat.eqb_neq (code c1) 225)), (proj2 (Nat.eqb_neq (code c1) 226)),
    (proj2 (Nat.eqb_neq (code c1) 227)) by lia.
  reflexivity.
Qed.

Lemma ws3_ascii_r (c1 c2 c3 : ascii) : (code c3 < 128)%nat -> ws3 c1 c2 c3 = false.
Proof.
  intros H. unfold ws3. cbv zeta.
  rewrite (proj2 (Nat.leb_gt 128 (code c3)) H).
  rewrite (proj2 (Nat.eqb_neq (code c3) 128)), (proj2 (Nat.eqb_neq (code c3) 168)),
    (proj2 (Nat.eqb_neq (code c3) 169)), (proj2 (Nat.eqb_neq (code c3) 175)),
    (proj2 (Nat.eqb_neq (code c3) 159)) by lia.
  destruct (code c1 =? 225)%nat, (code c1 =? 226)%nat, (code c1 =? 227)%nat,
    (code c2 =? 154)%nat, (code c2 =? 128)%nat, (code c2 =? 129)%nat; reflexivity.
Qed.

Lemma lstrip_ascii (c : ascii) (s : string) :
  is_space c = false -> (code c < 128)%nat -> lstrip (String c s) = String c s.
Proof.
  intros H1 H2. cbn [lstrip]. rewrite H1.
  destruct s as [|c2 [|c3 s3]]; cbn beta iota; [reflexivity| |].
  - rewrite ws2_ascii_l by exact H2. reflexivity.
  - rewrite ws2_ascii_l, ws3_ascii_l by exact H2. reflexivity.
Qed.

Lemma lstrip_rev_ascii (c : ascii) (s : string) :
  is_space c = false -> (code c < 128)%nat -> lstrip_rev (String c s) = String c s.
Proof.
  intros H1 H2. cbn [lstrip_rev]. rewrite H1.
  destruct s as [|c2 [|c3 s3]]; cbn beta iota; [reflexivity| |].
  - rewrite ws2_ascii_r by exact H2. reflexivity.
  - rewrite ws2_ascii_r, ws3_ascii_r by exact H2. reflexivity.
Qed.

(** A text whose first and last characters are ASCII and not spaces is
    left alone by [strip]. *)
Lemma py_strip_fixed (s : string) :
  (exists c s', s = String c s' /\ is_space c = false /\ (code c < 128)%nat) ->
  (exists c s', rev_str s = String c s' /\ is_space c = false /\ (code c < 128)%nat) ->
  py_strip s = s.
Proof.
  intros [c [s' [Hs [Hc Hc']]]] [d [r [Hr [Hd Hd']]]]. unfold py_strip.
  assert (Hl : lstrip s = s) by (rewrite Hs; apply lstrip_ascii; assumption).
  rewrite Hl, Hr, lstrip_rev_ascii by assumption. rewrite <- Hr. apply rev_str_involutive.
Qed.

(* ---- code points ---- *)

Section CodePoints.
Local Open Scope list_scope.


Lemma utf8_decode_ascii (c : ascii) (s : string) :
  (code c < 128)%nat -> utf8_decode (String c s) = byte c :: utf8_decode s.
Proof.
  intros H. cbn [utf8_decode]. cbv zeta.
  assert (E : (byte c <? 192)%Z = true) by (unfold byte; apply Z.ltb_lt; lia).
  rewrite E. reflexivity.
Qed.

Lemma isdecimal_neq (x y : Z) : isdecimal x = true -> isdecimal y = false -> (x =? y)%Z = false.
Proof. intros Hx Hy. apply Z.eqb_neq. intros ->. congruence. Qed.

Lemma span_digits_spec (l ip rest : list Z) :
  span_digits l = (ip, rest) ->
  l = ip ++ rest /\ Forall (fun x => isdecimal x = true) ip /\
  (forall x r, rest = x :: r -> isdecimal x = false).
Proof.
  revert ip rest. induction l as [|c l IH]; intros ip rest H; cbn [span_digits] in H.
  - inversion H; subst. split; [reflexivity|]. split; [constructor|]. intros x r E; discriminate E.
  - destruct (isdecimal c) eqn:Hc.
    + destruct (span_digits l) as [d r] eqn:E. inversion H; subst.
      destruct (IH d rest eq_refl) as (-> & Hd & Hr).
      split; [reflexivity|]. split; [constructor; assumption|]. exact Hr.
    + inversion H; subst. split; [reflexivity|]. split; [constructor|].
      intros x r E; inversion E; subst; exact Hc.
Qed.

Lemma span_digits_app (a rest : list Z) :
  Forall (fun x => isdecimal x = true) a ->
  (forall x r, rest = x :: r -> isdecimal x = false) ->
  span_digits (a ++ rest) = (a, rest).
Proof.
  intros Ha Hr. induction Ha as [|x a Hx Ha IH]; cbn [app span_digits].
  - destruct rest as [|x r]; [reflexivity|]. cbn [span_digits span_dc].
    rewrite (Hr x r eq_refl). reflexivity.
  - rewrite Hx, IH. reflexivity.
Qed.

Lemma span_digits_all (a : list Z) :
  Forall (fun x => isdecimal x = true) a -> span_digits a = (a, []).
Proof.
  intros Ha. pose proof (span_digits_app a [] Ha ltac:(intros x r E; discriminate E)) as E.
  rewrite app_nil_r in E. exact E.
Qed.

Lemma span_dc_app (a rest : list Z) :
  Forall (fun x => is_dc x = true) a ->
  (forall x r, rest = x :: r -> is_dc x = false) ->
  span_dc (a ++ rest) = (a, rest).
Proof.
  intros Ha Hr. induction Ha as [|x a Hx Ha IH]; cbn [app span_dc].
  - destruct rest as [|x r]; [reflexivity|]. cbn [span_digits span_dc].
    rewrite (Hr x r eq_refl). reflexivity.
  - rewrite Hx, IH. reflexivity.
Qed.

Lemma search_rate_none (t : list Z) :
  Forall (fun x => isdecimal x = false) t -> search_rate t = None.
Proof.
  induction 1 as [|x t Hx Ht IH]; cbn [search_rate]; [reflexivity|].
  destruct (x =? 45)%Z.
  - destruct t as [|d t']; [reflexivity|]. rewrite (Forall_inv Ht). exact IH.
  - rewrite Hx. exact IH.
Qed.

Lemma search_numeral_none (t : list Z) :
  Forall (fun x => isdecimal x = false) t -> search_numeral t = None.
Proof.
  induction 1 as [|x t Hx Ht IH]; cbn [search_numeral]; [reflexivity|].
  destruct (x =? 45)%Z.
  - destruct t as [|d t']; [reflexivity|]. rewrite (Forall_inv Ht). exact IH.
  - rewrite Hx. exact IH.
Qed.

Lemma last_tail (x : Z) (p : list Z) :
  last (x :: p) 0%Z <> 45%Z -> p <> [] -> last p 0%Z <> 45%Z.
Proof. destruct p as [|y p]; [congruence|]. intros H _. exact H. Qed.

Lemma search_rate_found (p : list Z) (neg : bool) (d : Z) (body rest : list Z) :
  Forall (fun x => isdecimal x = false) p ->
  (neg = false -> last p 0%Z <> 45%Z) ->
  isdecimal d = true -> Forall (fun x => is_dc x = true) body ->
  (forall x r, rest = x :: r -> is_dc x = false) ->
  search_rate (p ++ (if neg then [45%Z] else []) ++ (d :: body) ++ rest) =
  Some ((if neg then [45%Z] else []) ++ d :: body).
Proof.
  intros Hp Hl Hd Hb Hr. revert Hl. induction Hp as [|x p Hx Hp IH]; intros Hl.
  - destruct neg; cbn [app search_rate].
    + rewrite Z.eqb_refl, Hd, span_dc_app by assumption. reflexivity.
    + rewrite (isdecimal_neq d 45 Hd eq_refl), Hd, span_dc_app by assumption. reflexivity.
  - assert (Hl' : neg = false -> last p 0%Z <> 45%Z).
    { intros Hn. destruct p as [|y p']; [discriminate|]. exact (Hl Hn). }
    cbn [app search_rate]. destruct (x =? 45)%Z eqn:Ex.
    + destruct p as [|y p'].
      * destruct neg.
        -- cbn [app]. exact (IH Hl').
        -- exfalso. apply Z.eqb_eq in Ex. exact (Hl eq_refl Ex).
      * cbn [app]. rewrite (Forall_inv Hp). exact (IH Hl').
    + rewrite Hx. exact (IH Hl').
Qed.

Lemma search_numeral_found (p : list Z) (neg : bool) (u : list Z) (d : Z) (u' : list Z) :
  Forall (fun x => isdecimal x = false) p ->
  (neg = false -> last p 0%Z <> 45%Z) ->
  u = d :: u' -> isdecimal d = true ->
  search_numeral (p ++ (if neg then [45%Z] else []) ++ u) =
  Some ((if neg then [45%Z] else []) ++ numeral_body u).
Proof.
  intros Hp Hl -> Hd. revert Hl. induction Hp as [|x p Hx Hp IH]; intros Hl.
  - destruct neg; cbn [app search_numeral].
    + rewrite Z.eqb_refl, Hd. reflexivity.
    + rewrite (isdecimal_neq d 45 Hd eq_refl), Hd. reflexivity.
  - assert (Hl' : neg = false -> last p 0%Z <> 45%Z).
    { intros Hn. destruct p as [|y p']; [discriminate|]. exact (Hl Hn). }
    cbn [app search_numeral]. destruct (x =? 45)%Z eqn:Ex.
    + destruct p as [|y p'].
      * destruct neg.
        -- cbn [app]. exact (IH Hl').
        -- exfalso. apply Z.eqb_eq in Ex. exact (Hl eq_refl Ex).
      * cbn [app]. rewrite (Forall_inv Hp). exact (IH Hl').
    + rewrite Hx. exact (IH Hl').
Qed.

Lemma numeral_body_match (a c rest : list Z) :
  Forall (fun x => isdecimal x = true) a -> Forall (fun x => isdecimal x = true) c ->
  (forall x r, rest = x :: r -> isdecimal x = false) ->
  (c = [] -> forall y r, rest = 46%Z :: y :: r -> isdecimal y = false) ->
  numeral_body (a ++ (match c with [] => [] | _ :: _ => 46%Z :: c end) ++ rest) =
  a ++ (match c with [] => [] | _ :: _ => 46%Z :: c end).
Proof.
  intros Ha Hc Hr Hd. unfold numeral_body. destruct c as [|y c'].
  - cbn [app]. rewrite span_digits_app by assumption. rewrite app_nil_r.
    destruct rest as [|x r]; [reflexivity|].
    destruct (x =? 46)%Z eqn:E; [|reflexivity]. apply Z.eqb_eq in E. subst x.
    destruct (span_digits r) as [fp r2] eqn:E2. destruct fp as [|f fp']; [reflexivity|].
    exfalso. destruct (span_digits_spec _ _ _ E2) as (Er & Hf & _).
    pose proof (Hd eq_refl f (fp' ++ r2) ltac:(rewrite Er; reflexivity)) as H1.
    pose proof (Forall_inv Hf) as H2. cbn beta in H2. congruence.
  - cbn [app]. rewrite span_digits_app.
    2: exact Ha.
    2: { intros x r E. inversion E. reflexivity. }
    cbn beta iota. rewrite Z.eqb_refl.
    change (y :: c' ++ rest) with ((y :: c') ++ rest).
    rewrite span_digits_app by assumption. reflexivity.
Qed.

Lemma split_sign_sg (neg : bool) (d : Z) (r : list Z) :
  isdecimal d = true ->
  split_sign ((if neg then [45%Z] else []) ++ d :: r) = (neg, d :: r).
Proof.
  intros Hd. destruct neg; cbn; [reflexivity|].
  rewrite (isdecimal_neq d 45 Hd eq_refl), (isdecimal_neq d 43 Hd eq_refl). reflexivity.
Qed.

Lemma py_float_int (neg : bool) (a : list Z) :
  a <> [] -> Forall (fun x => isdecimal x = true) a ->
  py_float ((if neg then [45%Z] else []) ++ a) = Some (signed neg (inject_Z (nd_digits_value a))).
Proof.
  intros Hne Ha. destruct a as [|d a']; [congruence|].
  unfold py_float. rewrite (split_sign_sg neg d a' (Forall_inv Ha)). cbn beta iota.
  rewrite span_digits_all by exact Ha. reflexivity.
Qed.

Lemma py_float_dec (neg : bool) (a c : list Z) :
  a <> [] -> Forall (fun x => isdecimal x = true) a -> Forall (fun x => isdecimal x = true) c ->
  py_float ((if neg then [45%Z] else []) ++ a ++ 46%Z :: c) = Some (signed neg (decimal_value a c)).
Proof.
  intros Hne Ha Hc. destruct a as [|d a']; [congruence|].
  unfold py_float. change ((d :: a') ++ 46%Z :: c) with (d :: (a' ++ 46%Z :: c)).
  rewrite (split_sign_sg neg d (a' ++ 46%Z :: c) (Forall_inv Ha)). cbn beta iota.
  change (d :: a' ++ 46%Z :: c) with ((d :: a') ++ 46%Z :: c).
  rewrite span_digits_app.
  2: exact Ha.
  2: { intros x r E. inversion E. reflexivity. }
  cbn beta iota. rewrite Z.eqb_refl, span_digits_all by exact Hc. reflexivity.
Qed.

Lemma count_digits_46 (l : list Z) :
  Forall (fun x => isdecimal x = true) l -> count_occ Z.eq_dec l 46%Z = O.
Proof.
  intros H. apply count_occ_not_In. intros Hin.
  rewrite Forall_forall in H. specialize (H _ Hin). discriminate H.
Qed.

Lemma py_float_dots (neg : bool) (l : list Z) :
  Forall (fun x => (isdecimal x || (x =? 46)%Z) = true) l ->
  (2 <= count_occ Z.eq_dec l 46%Z)%nat ->
  py_float ((if neg then [45%Z] else []) ++ l) = None.
Proof.
  intros Hl Hc. destruct l as [|x l']; [cbn in Hc; lia|].
  assert (Hsg : split_sign ((if neg then [45%Z] else []) ++ x :: l') = (neg, x :: l')).
  { pose proof (Forall_inv Hl) as H. cbn beta in H. destruct (isdecimal x) eqn:E.
    - apply split_sign_sg. exact E.
    - cbn in H. apply Z.eqb_eq in H. subst x. destruct neg; reflexivity. }
  unfold py_float. rewrite Hsg. cbn beta iota.
  destruct (span_digits (x :: l')) as [ip rest] eqn:E1.
  destruct (span_digits_spec _ _ _ E1) as (Eq & Hip & Hr).
  rewrite Eq, count_occ_app, (count_digits_46 ip Hip) in Hc. cbn [Nat.add] in Hc.
  destruct rest as [|y fr]; [cbn in Hc; lia|].
  assert (Hy : y = 46%Z).
  { rewrite Forall_forall in Hl. specialize (Hl y).
    rewrite Eq in Hl. specialize (Hl ltac:(apply in_or_app; right; left; reflexivity)).
    rewrite (Hr y fr eq_refl) in Hl. cbn in Hl. apply Z.eqb_eq in Hl. exact Hl. }
  subst y. rewrite Z.eqb_refl.
  rewrite count_occ_cons_eq in Hc by reflexivity.
  destruct (span_digits fr) as [fp r2] eqn:E2.
  destruct (span_digits_spec _ _ _ E2) as (Eq2 & Hfp & _).
  rewrite Eq2, count_occ_app, (count_digits_46 fp Hfp) in Hc. cbn [Nat.add] in Hc.
  destruct r2 as [|z r2]; [cbn in Hc; lia|]. reflexivity.
Qed.

Lemma cp_in_iff (x : Z) (l : list Z) : cp_in x l = true <-> In x l.
Proof.
  unfold cp_in. rewrite existsb_exists. split.
  - intros (y & Hy & E). apply Z.eqb_eq in E. subst. exact Hy.
  - intros H. exists x. split; [exact H|apply Z.eqb_refl].
Qed.

Lemma cp_in_false (x : Z) (l : list Z) : ~ In x l -> cp_in x l = false.
Proof. intros H. destruct (cp_in x l) eqn:E; [|reflexivity]. apply cp_in_iff in E. contradiction. Qed.

Lemma cp_delete_absent (x : Z) (l : list Z) : cp_in x l = false -> cp_delete x l = l.
Proof.
  unfold cp_in, cp_delete. induction l as [|y l IH]; [reflexivity|].
  cbn [existsb filter]. intros H. apply orb_false_iff in H as [H1 H2].
  rewrite Z.eqb_sym, H1. cbn [negb]. rewrite IH by exact H2. reflexivity.
Qed.

Lemma normalize_rate_num_eq (l : list Z) :
  normalize_rate_num l = if cp_in 44 l then cp_replace 44 46 (cp_delete 46 l) else l.
Proof.
  unfold normalize_rate_num.
  destruct (cp_in 46 l) eqn:E1, (cp_in 44 l) eqn:E2; cbn [andb]; try reflexivity.
  rewrite cp_delete_absent by exact E1. reflexivity.
Qed.

Lemma normalize_rate_num_sign (neg : bool) (l : list Z) :
  normalize_rate_num ((if neg then [45%Z] else []) ++ l) =
  (if neg then [45%Z] else []) ++ normalize_rate_num l.
Proof.
  destruct neg; [|reflexivity]. rewrite !normalize_rate_num_eq.
  unfold cp_in, cp_replace, cp_delete. cbn.
  destruct (existsb (Z.eqb 44) l); reflexivity.
Qed.

Lemma cp_replace_absent (x y : Z) (l : list Z) : ~ In x l -> cp_replace x y l = l.
Proof.
  unfold cp_replace. induction l as [|z l IH]; [reflexivity|]. intros H. cbn [map].
  rewrite (proj2 (Z.eqb_neq z x)) by (intros ->; apply H; left; reflexivity).
  rewrite IH by (intros Hin; apply H; right; exact Hin). reflexivity.
Qed.

Lemma count_replace_delete (l : list Z) :
  count_occ Z.eq_dec (cp_replace 44 46 (cp_delete 46 l)) 46%Z = count_occ Z.eq_dec l 44%Z.
Proof.
  unfold cp_replace, cp_delete. induction l as [|x l IH]; [reflexivity|].
  cbn [filter]. destruct (Z.eq_dec x 46) as [->|Hx46].
  - cbn [Z.eqb negb Pos.eqb]. rewrite count_occ_cons_neq by discriminate. exact IH.
  - rewrite (proj2 (Z.eqb_neq x 46) Hx46). cbn [negb map].
    destruct (Z.eq_dec x 44) as [->|Hx44].
    + cbn [Z.eqb Pos.eqb]. rewrite !count_occ_cons_eq by reflexivity. rewrite IH. reflexivity.
    + rewrite (proj2 (Z.eqb_neq x 44) Hx44).
      rewrite !count_occ_cons_neq by congruence. exact IH.
Qed.

Lemma dc_replace_delete (l : list Z) :
  Forall (fun x => is_dc x = true) l ->
  Forall (fun x => (isdecimal x || (x =? 46)%Z) = true) (cp_replace 44 46 (cp_delete 46 l)).
Proof.
  unfold cp_replace, cp_delete. intros H. rewrite Forall_forall in *. intros y Hy.
  apply in_map_iff in Hy as (x & <- & Hx). apply filter_In in Hx as [Hx _].
  specialize (H x Hx). unfold is_dc in H.
  destruct (x =? 44)%Z eqn:E; [reflexivity|]. rewrite ?E, orb_false_r in H. exact H.
Qed.

Lemma dc_no_comma (l : list Z) :
  Forall (fun x => is_dc x = true) l -> ~ In 44%Z l ->
  Forall (fun x => (isdecimal x || (x =? 46)%Z) = true) l.
Proof.
  intros H Hn. rewrite Forall_forall in *. intros x Hx. specialize (H x Hx). unfold is_dc in H.
  destruct (x =? 44)%Z eqn:E.
  - apply Z.eqb_eq in E. subst. contradiction.
  - rewrite ?E, orb_false_r in H. exact H.
Qed.

Lemma digits_no_sep (x : Z) (l : list Z) :
  isdecimal x = false -> Forall (fun y => isdecimal y = true) l -> ~ In x l.
Proof.
  intros Hx H Hin. rewrite Forall_forall in H. specialize (H x Hin). congruence.
Qed.

(** The numeral [parse_rate_value] matched, with its sign, goes to
    [float] after the separators are handled. *)
Lemma parse_rate_text_match (s : string) (neg : bool) (num : list Z) :
  rate_match (rate_text s) neg num ->
  parse_rate_text s =
  match py_float ((if neg then [45%Z] else []) ++ normalize_rate_num num) with
  | Some q => Ok (Some q)
  | None => Raise
  end.
Proof.
  intros (p & rest & Ht & Hp & Hl & (d & body & -> & Hd & Hb) & Hr).
  unfold parse_rate_text. rewrite Ht, search_rate_found by assumption. cbn beta iota.
  rewrite normalize_rate_num_sign. reflexivity.
Qed.

Lemma rate_match_dc (t : list Z) (neg : bool) (num : list Z) :
  rate_match t neg num ->
  exists d body, num = d :: body /\ isdecimal d = true /\ Forall (fun x => is_dc x = true) num.
Proof.
  intros (p & rest & _ & _ & _ & (d & body & -> & Hd & Hb) & _).
  exists d, body. split; [reflexivity|]. split; [exact Hd|].
  constructor; [unfold is_dc; rewrite Hd; reflexivity|exact Hb].
Qed.

Lemma forallb_sg_cpart (f : Z -> bool) (neg : bool) (a c : list Z) :
  f 45%Z = true -> f 46%Z = true ->
  forallb f ((if neg then [45%Z] else []) ++ a ++ match c with [] => [] | _ :: _ => 46%Z :: c end) =
  forallb f (a ++ c).
Proof.
  intros H45 H46. rewrite !forallb_app.
  destruct neg, c as [|y c']; cbn [forallb app]; rewrite ?H45, ?H46; cbn [andb];
    rewrite ?andb_true_r; reflexivity.
Qed.

(** The numeral [to_numeric_series] matched is read when it is ASCII. *)
Lemma to_numeric_text_match (x : string) (neg : bool) (a c : list Z) :
  number_match (number_text x) neg a c ->
  to_numeric_text x =
  if forallb (fun y => (y <? 128)%Z) (a ++ c)
  then py_float ((if neg then [45%Z] else []) ++ a ++ match c with [] => [] | _ :: _ => 46%Z :: c end)
  else None.
Proof.
  intros (p & rest & Ht & Hp & Hl & Hne & Ha & Hc & Hr & Hd).
  assert (Hh : exists d a', a = d :: a' /\ isdecimal d = true).
  { destruct a as [|d a']; [congruence|]. exists d, a'. split; [reflexivity|exact (Forall_inv Ha)]. }
  destruct Hh as (d & a' & Ea & Hd0).
  unfold to_numeric_text. rewrite Ht.
  rewrite (search_numeral_found p neg _ d (a' ++ (match c with [] => [] | _ :: _ => 46%Z :: c end) ++ rest))
    by (assumption || (rewrite Ea; reflexivity)).
  rewrite numeral_body_match by assumption. cbn beta iota.
  rewrite forallb_sg_cpart by reflexivity. reflexivity.
Qed.

Lemma cp_delete_app (x : Z) (l1 l2 : list Z) : cp_delete x (l1 ++ l2) = cp_delete x l1 ++ cp_delete x l2.
Proof. apply filter_app. Qed.

Lemma cp_replace_app (x y : Z) (l1 l2 : list Z) : cp_replace x y (l1 ++ l2) = cp_replace x y l1 ++ cp_replace x y l2.
Proof. apply map_app. Qed.

Lemma cp_delete_not_in (x y : Z) (l : list Z) : ~ In y l -> ~ In y (cp_delete x l).
Proof. intros H Hin. unfold cp_delete in Hin. apply filter_In in Hin as [Hin _]. exact (H Hin). Qed.

(** With one [,] the dots go and the [,] becomes the decimal point. *)
Lemma normalize_comma (a c : list Z) :
  ~ In 44%Z a -> ~ In 44%Z c ->
  normalize_rate_num (a ++ 44%Z :: c) = cp_delete 46 a ++ 46%Z :: cp_delete 46 c.
Proof.
  intros Ha Hc. rewrite normalize_rate_num_eq.
  rewrite (proj2 (cp_in_iff 44 (a ++ 44%Z :: c))) by (apply in_or_app; right; left; reflexivity).
  rewrite cp_delete_app. change (cp_delete 46 (44%Z :: c)) with (44%Z :: cp_delete 46 c).
  rewrite cp_replace_app.
  change (cp_replace 44 46 (44%Z :: cp_delete 46 c)) with (46%Z :: cp_replace 44 46 (cp_delete 46 c)).
  rewrite (cp_replace_absent 44 46 (cp_delete 46 a)) by (apply cp_delete_not_in; exact Ha).
  rewrite (cp_replace_absent 44 46 (cp_delete 46 c)) by (apply cp_delete_not_in; exact Hc).
  reflexivity.
Qed.

Lemma cp_delete_digits (a : list Z) :
  Forall (fun x => is_dc x = true) a -> ~ In 44%Z a ->
  Forall (fun x => isdecimal x = true) (cp_delete 46 a).
Proof.
  intros Hdc Hn. rewrite Forall_forall in *. intros x Hx.
  unfold cp_delete in Hx. apply filter_In in Hx as [Hx Hx46].
  specialize (Hdc x Hx). unfold is_dc in Hdc. apply negb_true_iff in Hx46.
  destruct (isdecimal x) eqn:Ex; [reflexivity|]. exfalso.
  rewrite ?Ex, Hx46 in Hdc. cbn in Hdc. apply Z.eqb_eq in Hdc. subst. contradiction.
Qed.


End CodePoints.

(** C2 (amended): [parse_rate_value] of rf_destaques.py returns numbers as
    they are and null as null, and on text takes the first match of
    [-?\d[\d\.,]*] ([\d] is any Unicode decimal digit) after upper-casing
    and dropping [%] and spaces: no match gives null; a match with one [,]
    drops the dots and reads the [,] as the decimal point; a match with a
    [.] and no [,] keeps the [.] as the decimal point; a match with two [,],
    or with two [.] and no [,], raises.  [to_numeric_series] returns a
    numeric column unchanged; on text it strips, drops every [.], turns [,]
    into [.] and takes the first match of [-?\d+(\.\d+)?]: no match, or a
    match with a non-ASCII digit, gives null, otherwise its value.  The
    spec's examples hold. *)
Theorem parse_rate_and_number (z : Z) (m : Z) (e : nat) :
  parse_rate_value CNone = Ok None /\
  parse_rate_value (CInt z) = Ok (Some (inject_Z z)) /\
  parse_rate_value (CFloat m e) = Ok (Some (float_val m e)) /\
  (forall s, parse_rate_value (CStr s) = parse_rate_text s) /\
  (forall s, Forall (fun x => isdecimal x = false) (rate_text s) ->
     parse_rate_value (CStr s) = Ok None) /\
  (forall s neg num, rate_match (rate_text s) neg num ->
     (Forall (fun x => isdecimal x = true) num ->
        parse_rate_value (CStr s) = Ok (Some (signed neg (inject_Z (nd_digits_value num))))) /\
     (forall a c, num = (a ++ 46%Z :: c)%list ->
        Forall (fun x => isdecimal x = true) a -> Forall (fun x => isdecimal x = true) c ->
        parse_rate_value (CStr s) = Ok (Some (signed neg (decimal_value a c)))) /\
     (forall a c, num = (a ++ 44%Z :: c)%list -> ~ In 44%Z a -> ~ In 44%Z c ->
        parse_rate_value (CStr s) =
        Ok (Some (signed neg (decimal_value (cp_delete 46 a) (cp_delete 46 c))))) /\
     ((2 <= count_occ Z.eq_dec num 44%Z)%nat \/
      (count_occ Z.eq_dec num 44%Z = O /\ (2 <= count_occ Z.eq_dec num 46%Z)%nat) ->
        parse_rate_value (CStr s) = Raise)) /\
  (forall l, numeric_dtype l = true -> to_numeric_series l = map to_numeric_cell l) /\
  (forall l, numeric_dtype l = false ->
     to_numeric_series l = map (fun x => to_numeric_text (py_str x)) l) /\
  (forall x, Forall (fun y => isdecimal y = false) (number_text x) -> to_numeric_text x = None) /\
  (forall x neg a c, number_match (number_text x) neg a c ->
     (Forall (fun y => (y < 128)%Z) (a ++ c) ->
        to_numeric_text x =
        Some (signed neg (match c with
                          | [] => inject_Z (nd_digits_value a)
                          | _ :: _ => decimal_value a c
                          end))) /\
     ((exists y, In y (a ++ c) /\ (128 <= y)%Z) -> to_numeric_text x = None)) /\
  parse_rate_value (CStr "abc") = Ok None /\ to_numeric_text "abc" = None /\
  parse_rate_value (CStr "IPCA + 7,20%") = Ok (Some (Qmake 720 100)) /\
  parse_rate_value (CStr "110% CDI") = Ok (Some (Qmake 110 1)) /\
  to_numeric_text "1.234,56" = Some (Qmake 123456 100).
Proof.
  split; [reflexivity|]. split; [reflexivity|]. split; [reflexivity|].
  split; [intros s; reflexivity|].
  split.
  { intros s H. change (parse_rate_value (CStr s)) with (parse_rate_text s).
    unfold parse_rate_text. rewrite search_rate_none by exact H. reflexivity. }
  split.
  { intros s neg num Hm.
    change (parse_rate_value (CStr s)) with (parse_rate_text s).
    rewrite (parse_rate_text_match s neg num Hm).
    destruct (rate_match_dc _ _ _ Hm) as (d & body & Enum & Hd & Hdc).
    split; [|split; [|split]].
    - intros Hall. rewrite normalize_rate_num_eq.
      rewrite cp_in_false by (apply digits_no_sep; [reflexivity|exact Hall]).
      rewrite py_float_int by (congruence || exact Hall). reflexivity.
    - intros a c -> Ha Hc.
      assert (Hne : a <> []).
      { intros ->. cbn in Enum. inversion Enum; subst.
        change (isdecimal 46%Z) with false in Hd. discriminate Hd. }
      rewrite normalize_rate_num_eq, cp_in_false.
      2: { intros Hin. apply in_app_or in Hin as [Hin|[Hin|Hin]].
           - exact (digits_no_sep 44 a eq_refl Ha Hin).
           - discriminate Hin.
           - exact (digits_no_sep 44 c eq_refl Hc Hin). }
      rewrite py_float_dec by assumption. reflexivity.
    - intros a c -> Ha Hc.
      assert (Hne : cp_delete 46 a <> []).
      { destruct a as [|y a'].
        - cbn in Enum. inversion Enum; subst.
          change (isdecimal 44%Z) with false in Hd. discriminate Hd.
        - cbn in Enum. inversion Enum; subst. unfold cp_delete. cbn [filter].
          rewrite (isdecimal_neq _ 46 Hd eq_refl). cbn [negb]. discriminate. }
      assert (Hda : Forall (fun x => is_dc x = true) a).
      { rewrite Forall_forall in *. intros x Hx. apply Hdc, in_or_app. left. exact Hx. }
      assert (Hdc' : Forall (fun x => is_dc x = true) c).
      { rewrite Forall_forall in *. intros x Hx. apply Hdc, in_or_app. right. right. exact Hx. }
      rewrite normalize_comma by assumption.
      rewrite py_float_dec by (assumption || apply cp_delete_digits; assumption). reflexivity.
    - intros [H2|[H0 H2]].
      + rewrite normalize_rate_num_eq.
        rewrite (proj2 (cp_in_iff 44 num)) by (apply (count_occ_In Z.eq_dec); lia).
        rewrite py_float_dots; [reflexivity|apply dc_replace_delete; exact Hdc|].
        rewrite count_replace_delete. exact H2.
      + rewrite normalize_rate_num_eq.
        assert (Hn : ~ In 44%Z num) by (apply (count_occ_not_In Z.eq_dec); exact H0).
        rewrite cp_in_false by exact Hn.
        rewrite py_float_dots; [reflexivity|apply dc_no_comma; assumption|exact H2]. }
  split; [intros l Hl; unfold to_numeric_series; rewrite Hl; reflexivity|].
  split; [intros l Hl; unfold to_numeric_series; rewrite Hl; reflexivity|].
  split.
  { intros x H. unfold to_numeric_text. rewrite search_numeral_none by exact H. reflexivity. }
  split.
  { intros x neg a c Hm. rewrite (to_numeric_text_match x neg a c Hm).
    destruct Hm as (p & rest & _ & _ & _ & Hne & Ha & Hc & _).
    split.
    - intros Hasc. rewrite (proj2 (forallb_forall _ _)).
      2: { intros y Hy. rewrite Forall_forall in Hasc. apply Z.ltb_lt. exact (Hasc y Hy). }
      cbn beta iota. destruct c as [|y c'].
      + rewrite app_nil_r. apply py_float_int; assumption.
      + apply py_float_dec; assumption.
    - intros (y & Hy & Hbig).
      destruct (forallb (fun y => (y <? 128)%Z) (a ++ c)) eqn:E; [|reflexivity].
      exfalso. rewrite forallb_forall in E. specialize (E y Hy). apply Z.ltb_lt in E. lia. }
  split; [vm_compute; reflexivity|].
  split; [vm_compute; reflexivity|].
  split; [vm_compute; reflexivity|].
  split; [vm_compute; reflexivity|].
  vm_compute; reflexivity.
Qed.

Lemma parse_rate_and_number_witness :
  rate_match (rate_text "1.234,56") false [49; 46; 50; 51; 52; 44; 53; 54]%Z /\
  parse_rate_value (CStr "1.234,56") = Ok (Some (decimal_value [49; 50; 51; 52]%Z [53; 54]%Z)).
Proof.
  assert (Hm : rate_match (rate_text "1.234,56") false [49; 46; 50; 51; 52; 44; 53; 54]%Z).
  { exists [], []. split; [vm_compute; reflexivity|]. split; [constructor|].
    split; [intros _; discriminate|]. split.
    - exists 49%Z, [46; 50; 51; 52; 44; 53; 54]%Z. split; [reflexivity|]. split; [reflexivity|].
      repeat constructor.
    - intros x r E. discriminate E. }
  split; [exact Hm|].
  destruct (parse_rate_and_number 0 15 1) as (_ & _ & _ & _ & _ & Hr & _).
  destruct (Hr _ _ _ Hm) as (_ & _ & Hc & _).
  rewrite (Hc [49; 46; 50; 51; 52]%Z [53; 54]%Z eq_refl).
  - vm_compute. reflexivity.
  - intros H. cbn in H. intuition discriminate.
  - intros H. cbn in H. intuition discriminate.
Defined.

(** C2 (counterexample): a numeral with a [.] and no [,] keeps the [.] as
    the decimal point in [parse_rate_value] of rf_destaques.py ([1.5] is
    read as 1.5), where the reference algorithm drops every [.] first and
    reads 15; and [parse_rate_value] of rf_destques.py stringifies a
    native number, so the float 1.5 comes back as 15. *)
Lemma parse_rate_dot_not_thousands :
  parse_rate_value (CStr "1.5") = Ok (Some (Qmake 15 10)) /\
  spec_parse_rate "1.5" = Some (Qmake 15 1) /\
  Destques.parse_rate_value (CFloat 15 1) = Some (Some (Qmake 15 1)).
Proof. split; [|split]; vm_compute; reflexivity. Qed.

(** ** The optional post-filters *)

Lemma rating_filter_is_filter (use : bool) (col : option string) (tok : string) :
  exists p, forall df, rating_filter use col tok df = filter p df.
Proof.
  unfold rating_filter. destruct use, col as [c|].
  - destruct (rating_score (CStr tok)) as [sc|].
    + exists (rating_ok c sc). reflexivity.
    + exists (fun _ => true). intros df. symmetry. apply forallb_filter_id, forallb_forall. auto.
  - exists (fun _ => true). intros df. symmetry. apply forallb_filter_id, forallb_forall. auto.
  - exists (fun _ => true). intros df. symmetry. apply forallb_filter_id, forallb_forall. auto.
  - exists (fun _ => true). intros df. symmetry. apply forallb_filter_id, forallb_forall. auto.
Qed.

Lemma min_app_filter_is_filter (use : bool) (mx : Z) :
  exists p, forall df, min_app_filter use mx df = filter p df.
Proof.
  unfold min_app_filter. destruct (use && (0 <? mx)%Z).
  - exists (min_app_ok mx). reflexivity.
  - exists (fun _ => true). intros df. symmetry. apply forallb_filter_id, forallb_forall. auto.
Qed.

Lemma filter_filter_comm {A : Type} (p q : A -> bool) (l : list A) :
  filter p (filter q l) = filter q (filter p l).
Proof.
  induction l as [|x l IH]; simpl; [reflexivity|].
  destruct (q x) eqn:Eq, (p x) eqn:Ep; simpl; rewrite ?Eq, ?Ep, IH; reflexivity.
Qed.

Lemma filter_incl {A : Type} (p : A -> bool) (l : list A) : incl (filter p l) l.
Proof. intros x Hx. apply filter_In in Hx. tauto. Qed.

Lemma strongly_sorted_filter {A : Type} (R : A -> A -> Prop) (p : A -> bool) (l : list A) :
  StronglySorted R l -> StronglySorted R (filter p l).
Proof.
  induction l as [|x l IH]; simpl; [auto|].
  intros H. inversion H as [|? ? Hs Hall]; subst.
  destruct (p x); [|apply IH; exact Hs].
  constructor; [apply IH; exact Hs|].
  rewrite Forall_forall in *. intros y Hy. apply Hall. apply filter_In in Hy. tauto.
Qed.

Lemma ranked_filter (p : Rec -> bool) (l : list Rec) : ranked l -> ranked (filter p l).
Proof.
  intros H. apply strongly_ranked, strongly_sorted_filter, ranked_strongly, H.
Qed.

(** C6 (code bug): with the rating filter on and a minimum token that is
    not in the rating table, neither script disables the filter with a
    warning while keeping every row.  The rating block of rf_destques.py
    shows the warning but has already dropped the offers whose own rating
    is null (its null-rating guard runs first); the block of rf_destaques.py
    keeps every offer but shows no warning. *)
Lemma rating_unknown_token_drops_null_or_silent :
  rating_score (CStr "Baa1") = None /\
  destques_rating_filter true (Some "Rating") "Baa1" [offer_a; offer_b] = ([offer_a], [rating_warning]) /\
  rating_step true (Some "Rating") "Baa1" [offer_a; offer_b] = ([offer_a; offer_b], []).
Proof. split; [|split]; vm_compute; reflexivity. Qed.


(** C7: the rating filter and the minimum-investment cap keep a
    subsequence of their input (so they never add records and keep the
    relative order), commute with each other and with taking an
    (indexer, horizon) bucket, and keep a ranked bucket ranked. *)
Theorem post_filters_monotone_commuting (use_r : bool) (col : option string) (tok : string)
    (use_m : bool) (mx : Z) (idx : Indexer) (hz : Horizon) (df : list Rec) :
  (exists p, forall l, rating_filter use_r col tok l = filter p l) /\
  (exists q, forall l, min_app_filter use_m mx l = filter q l) /\
  incl (rating_filter use_r col tok df) df /\
  incl (min_app_filter use_m mx df) df /\
  rating_filter use_r col tok (min_app_filter use_m mx df) =
    min_app_filter use_m mx (rating_filter use_r col tok df) /\
  filter (in_block idx hz) (rating_filter use_r col tok df) =
    rating_filter use_r col tok (filter (in_block idx hz) df) /\
  filter (in_block idx hz) (min_app_filter use_m mx df) =
    min_app_filter use_m mx (filter (in_block idx hz) df) /\
  (forall l, ranked l ->
     ranked (min_app_filter use_m mx l) /\ ranked (rating_filter use_r col tok l)).
Proof.
  destruct (rating_filter_is_filter use_r col tok) as [p Hp].
  destruct (min_app_filter_is_filter use_m mx) as [q Hq].
  split; [exists p; exact Hp|]. split; [exists q; exact Hq|].
  rewrite !Hp, !Hq.
  split; [apply filter_incl|]. split; [apply filter_incl|].
  split; [apply filter_filter_comm|].
  split; [apply filter_filter_comm|].
  split; [apply filter_filter_comm|].
  intros l Hl. rewrite Hp, Hq. split; apply ranked_filter; exact Hl.
Qed.

(** ** The survivors of the pipeline *)

Lemma in_firstn_in {A : Type} (n : nat) (l : list A) (x : A) : In x (firstn n l) -> In x l.
Proof.
  intros H. rewrite <- (firstn_skipn n l). apply in_or_app. left. exact H.
Qed.










(** ** Dependence on the date of the run *)

(** C9 (counterexample): the same table read on two different days gives
    two different messages (the header carries the date), and without a
    Prazo column the term is counted from the day of the run, so an offer
    maturing in 360 days is short-term one day and medium-term the day
    before.  Even with a Prazo column, a Vencimento cell holding "today"
    is dated by the clock, so the records differ from one day to the
    next. *)
Lemma run_depends_on_date :
  outcome_msg (run pandas_stable cfg_ex 20454 table_venc) <>
    outcome_msg (run pandas_stable cfg_ex 20455 table_venc) /\
  outcome_blocks (run pandas_stable cfg_ex 20454 table_venc) <>
    outcome_blocks (run pandas_stable cfg_ex 20453 table_venc) /\
  outcome_blocks (run pandas_stable cfg_ex 20454 table_prazo_today) <>
    outcome_blocks (run pandas_stable cfg_ex 20455 table_prazo_today).
Proof. split; [|split]; intros H; vm_compute in H; discriminate H. Qed.

(** C9 (amended): a run is a function of the table, the settings and the
    date of the run.  When the table has a Prazo column, and its Vencimento
    column holds no text that [pd.to_datetime] reads against the clock, two
    runs on the same table on different days stop alike, crash alike, or
    give the same records and blocks and messages that differ only in the
    dated header. *)
Theorem run_date_only_in_header (pd : Pandas) (cfg : Config) (d1 d2 : Z) (t : Table)
    (Hpd : clock_contract pd)
    (Hprazo : find_col (t_cols t) ["Prazo"] <> None)
    (Hvenc : forall cv, find_col (t_cols t) ["Vencimento"] = Some cv ->
               forallb (fun c => negb (clock_text c)) (column t cv) = true) :
  date_only_in_header pd cfg d1 d2 t.
Proof.
  unfold date_only_in_header, run. cbv zeta.
  destruct (find_col (t_cols t) ["Prazo"]) as [cpz|]; [|congruence].
  destruct (find_col (t_cols t) ["Emissor"]) as [ce|]; [|reflexivity].
  destruct (find_col (t_cols t) ["Produto"]) as [cp|]; [|reflexivity].
  destruct (find_col (t_cols t) ["Indexador"]) as [ci|]; [|reflexivity].
  destruct (find_col (t_cols t) ["Tx"; "Taxa"; "Máxima"; "Maxima"]) as [ct|]; [|reflexivity].
  destruct (find_col (t_cols t) ["Vencimento"]) as [cv|] eqn:Ecv; [|reflexivity].
  destruct (find_col (t_cols t) ["Aplicação"; "Aplicacao"; "mínima"; "minima"]) as [cm|]; [|reflexivity].
  unfold transform. cbv zeta.
  rewrite (Hpd d1 d2 (column t cv) (Hvenc cv eq_refl)).
  destruct (existsb (repeated (t_cols t)) (transform_reads ci ct (Some cpz) cv cm)); [exact I|].
  destruct (res_map parse_rate_value (column t ct)) as [tx|]; [|exact I].
  destruct (existsb (repeated (t_cols t)) (rating_reads _ _ _)); [exact I|].
  destruct (preview_clash (t_cols t) _); [exact I|].
  split; [reflexivity|]. split; [reflexivity|].
  eexists. unfold build_whatsapp_message, message_header. rewrite !str_app_assoc.
  split; reflexivity.
Qed.

Lemma pandas_stable_clock : clock_contract pandas_stable.
Proof.
  intros d1 d2 cells. cbn [to_datetime pandas_stable].
  induction cells as [|c cs IH]; [reflexivity|].
  cbn [forallb map]. intros H. apply andb_prop in H as [Hc Hcs].
  rewrite (IH Hcs). f_equal.
  destruct c as [| | |s|]; try reflexivity. cbn [cell_date_at].
  destruct (String.eqb s "today") eqn:E1.
  { apply String.eqb_eq in E1. subst s. discriminate Hc. }
  destruct (String.eqb s "now") eqn:E2.
  { apply String.eqb_eq in E2. subst s. discriminate Hc. }
  reflexivity.
Qed.

Lemma run_date_only_in_header_witness :
  date_only_in_header pandas_stable cfg_ex 20454 20455 table_prazo.
Proof.
  apply (run_date_only_in_header pandas_stable cfg_ex 20454 20455 table_prazo).
  - exact pandas_stable_clock.
  - vm_compute. discriminate.
  - intros cv Hcv. vm_compute in Hcv. injection Hcv as <-. vm_compute. reflexivity.
Defined.

(** ** The sheet reader *)

Lemma forallb_false {A : Type} (f : A -> bool) (l : list A) :
  forallb f l = false -> exists x, In x l /\ f x = false.
Proof.
  induction l as [|x l IH]; simpl; [discriminate|].
  destruct (f x) eqn:E; simpl.
  - intros H. destruct (IH H) as [y [Hy Hf]]. exists y. split; [right|]; assumption.
  - intros _. exists x. split; [left; reflexivity|exact E].
Qed.

Lemma forallb_false_intro {A : Type} (f : A -> bool) (l : list A) (x : A) :
  In x l -> f x = false -> forallb f l = false.
Proof.
  intros Hx Hf. destruct (forallb f l) eqn:E; [|reflexivity].
  rewrite forallb_forall in E. rewrite (E x Hx) in Hf. discriminate.
Qed.

Lemma read_rows_nonblank (k : nat) (rows : list (list Cell)) :
  Forall (fun row => blank_row row = false) (read_rows k rows).
Proof.
  revert k. induction rows as [|row rest IH]; intros k; cbn [read_rows]; [constructor|].
  destruct (blank_row row) eqn:E.
  - destruct (20 <=? S k)%nat; [constructor|apply IH].
  - constructor; [exact E|apply IH].
Qed.

Lemma read_rows_run_ok (k : nat) (rows : list (list Cell)) :
  run_ok k rows = true -> read_rows k rows = filter (fun row => negb (blank_row row)) rows.
Proof.
  revert k. induction rows as [|row rest IH]; intros k H; cbn [run_ok read_rows filter] in *; [reflexivity|].
  destruct (blank_row row) eqn:E; cbn [negb].
  - apply andb_prop in H as [Hk Hr]. apply Nat.ltb_lt in Hk.
    replace (20 <=? S k)%nat with false by (symmetry; apply Nat.leb_gt; lia).
    apply IH. exact Hr.
  - f_equal. apply IH. exact H.
Qed.

Lemma read_rows_stop (bl post : list (list Cell)) (k : nat) :
  Forall (fun row => blank_row row = true) bl -> bl <> [] -> (20 <= length bl + k)%nat ->
  read_rows k (bl ++ post) = [].
Proof.
  revert k. induction bl as [|row bl IH]; intros k Hbl Hne Hlen; [congruence|].
  inversion Hbl as [|? ? Hrow Hrest]; subst. cbn [app read_rows]. rewrite Hrow.
  destruct (20 <=? S k)%nat eqn:E; [reflexivity|].
  apply Nat.leb_gt in E. apply IH; [exact Hrest| |simpl in Hlen; lia].
  destruct bl; [simpl in Hlen; lia|discriminate].
Qed.

Lemma read_rows_prefix (pre rest : list (list Cell)) (k : nat) :
  run_ok k pre = true ->
  exists k', read_rows k (pre ++ rest) =
             (filter (fun row => negb (blank_row row)) pre ++ read_rows k' rest)%list.
Proof.
  revert k. induction pre as [|row pre IH]; intros k H; cbn [run_ok read_rows filter app] in *; [exists k; reflexivity|].
  destruct (blank_row row) eqn:E; cbn [negb app].
  - apply andb_prop in H as [Hk Hr]. apply Nat.ltb_lt in Hk.
    replace (20 <=? S k)%nat with false by (symmetry; apply Nat.leb_gt; lia).
    apply IH. exact Hr.
  - destruct (IH 0%nat H) as [k' Hk']. exists k'. rewrite Hk'. reflexivity.
Qed.

Lemma length_le_list_max {A : Type} (row : list A) (data : list (list A)) :
  In row data -> (length row <= list_max (map (@length A) data))%nat.
Proof.
  intros H. pose proof (proj1 (list_max_le (map (@length A) data) _) (le_n _)) as Hf.
  rewrite Forall_forall in Hf. apply Hf, in_map, H.
Qed.

Lemma pad_row_nth (w j : nat) (row : list Cell) :
  (j < length row)%nat -> nth j (pad_row w row) CNone = nth j row CNone.
Proof. intros Hj. unfold pad_row. apply app_nth1. exact Hj. Qed.

Lemma read_sheet_fast_nonblank (header_cells : list Cell) (rows : list (list Cell))
    (cols : list string) (out : list (list Cell)) :
  read_sheet_fast header_cells rows = Ok (cols, out) ->
  Forall (fun row => blank_row row = false) out.
Proof.
  unfold read_sheet_fast.
  pose proof (read_rows_nonblank 0 rows) as Hnb. revert Hnb.
  destruct (read_rows 0 rows) as [|r0 rs].
  { intros _ H. injection H as _ <-. constructor. }
  cbv beta iota zeta.
  remember (r0 :: rs) as data eqn:Edata. clear Edata.
  set (w := list_max (map (@length Cell) data)).
  intros Hnb.
  match goal with |- context [if ?b then _ else _] => destruct b end; [|discriminate].
  intros H. injection H as _ <-.
  rewrite Forall_forall in Hnb.
  apply Forall_forall. intros prow Hp. apply in_map_iff in Hp as [prow' [<- Hp']].
  apply in_map_iff in Hp' as [row [<- Hrow]].
  pose proof (Hnb row Hrow) as Hb. unfold blank_row in Hb.
  apply forallb_false in Hb as [x [Hx Hbx]].
  apply In_nth with (d := CNone) in Hx as [j [Hj Hxj]].
  assert (Hw : (length row <= w)%nat) by (apply length_le_list_max; exact Hrow).
  assert (Hpj : nth j (pad_row w row) CNone = x) by (rewrite pad_row_nth; assumption).
  assert (Hcol : col_all_none (map (pad_row w) data) j = false).
  { unfold col_all_none. apply (forallb_false_intro _ _ (pad_row w row)); [apply in_map; exact Hrow|].
    rewrite Hpj. destruct x; [discriminate Hbx|reflexivity..]. }
  unfold blank_row. apply (forallb_false_intro _ _ x); [|exact Hbx].
  apply in_map_iff. exists j. split; [exact Hpj|].
  apply filter_In. split; [apply in_seq; lia|]. rewrite Hcol. reflexivity.
Qed.

(** C10: the sheet reader returns no all-blank row (every row has a cell
    that is not None and not empty once stripped); a blank row is skipped
    wherever it stands as long as no run of 20 blank rows occurs; and once
    20 blank rows in a row are met reading stops, so nothing after them is
    read. *)
Theorem read_sheet_skips_blank_rows (pre blanks post : list (list Cell))
    (Hpre : run_ok 0 pre = true)
    (Hbl : Forall (fun row => blank_row row = true) blanks) (Hlen : length blanks = 20%nat) :
  (forall header_cells rows cols out,
     read_sheet_fast header_cells rows = Ok (cols, out) ->
     Forall (fun row => blank_row row = false) out) /\
  (forall rows, Forall (fun row => blank_row row = false) (read_rows 0 rows)) /\
  (forall rows, run_ok 0 rows = true ->
     read_rows 0 rows = filter (fun row => negb (blank_row row)) rows) /\
  read_rows 0 (pre ++ blanks ++ post) = filter (fun row => negb (blank_row row)) pre.
Proof.
  split; [apply read_sheet_fast_nonblank|].
  split; [intros rows; apply read_rows_nonblank|].
  split; [intros rows; apply read_rows_run_ok|].
  destruct (read_rows_prefix pre (blanks ++ post) 0 Hpre) as [k' Hk'].
  rewrite Hk', read_rows_stop; [apply app_nil_r|exact Hbl| |lia].
  destruct blanks; [discriminate Hlen|discriminate].
Qed.

Lemma read_sheet_skips_blank_rows_witness :
  read_rows 0 ([data_line "a"; blank_line] ++ repeat blank_line 20 ++ [data_line "b"]) =
  [data_line "a"].
Proof.
  assert (Hbl : Forall (fun row => blank_row row = true) (repeat blank_line 20)).
  { apply Forall_forall. intros x Hx. apply repeat_spec in Hx. subst. reflexivity. }
  exact (proj2 (proj2 (proj2 (read_sheet_skips_blank_rows
           [data_line "a"; blank_line] (repeat blank_line 20) [data_line "b"]
           eq_refl Hbl eq_refl)))).
Defined.

(* ================================================================== *)
(** * Further properties of the helpers and the pipeline *)

(** X1: [categorize_horizon] is monotone: a longer term in days never gets a
    shorter horizon bucket. *)
Lemma categorize_horizon_monotone (d1 d2 : Q) (H : d1 <= d2) :
  match categorize_horizon (Some d1), categorize_horizon (Some d2) with
  | Some h1, Some h2 => (horizon_rank h1 <= horizon_rank h2)%nat
  | _, _ => False
  end.
Proof.
  unfold categorize_horizon.
  destruct (Qle_bool d1 360) eqn:E1, (Qle_bool d2 360) eqn:E2; simpl; try lia;
  destruct (Qle_bool d1 1080) eqn:E3; try (destruct (Qle_bool d2 1080) eqn:E4); simpl; try lia;
  rewrite ?Qle_bool_iff in *;
  repeat match goal with
         | H : Qle_bool _ _ = false |- _ =>
             apply Bool.not_true_iff_false in H; rewrite Qle_bool_iff in H
         end.
  all: exfalso; match goal with
                | N : ~ ?x <= ?c, P : ?y <= ?c, L : ?x <= ?y |- _ =>
                    apply N; apply Qle_trans with y; assumption
                end.
Qed.

(** X2: the first variant's [categorize_horizon] (rf_destques.py), with its
    explicit [360 < days] test, agrees with the main variant's on every input. *)
Lemma destques_categorize_horizon_same (days : option Q) :
  destques_categorize_horizon days = categorize_horizon days.
Proof.
  destruct days as [d|]; [|reflexivity]. unfold destques_categorize_horizon, categorize_horizon.
  unfold Qltb. destruct (Qle_bool d 360); reflexivity.
Qed.

Lemma in_block_key (i1 i2 : Indexer) (h1 h2 : Horizon) (r : Rec) :
  in_block i1 h1 r = true -> in_block i2 h2 r = true -> i1 = i2 /\ h1 = h2.
Proof.
  unfold in_block. destruct (indexador_pad r) as [i|], (horizonte r) as [h|]; try discriminate.
  destruct i, i1, i2, h, h1, h2; simpl; intros; try discriminate; split; reflexivity.
Qed.

Lemma all_blocks_in_key (sv : list Rec -> list Rec) (Hsort : sort_contract sv)
    (df : list Rec) (n : nat) (i : Indexer) (h : Horizon) (b : list Rec) (r : Rec) :
  In (i, h, b) (all_blocks sv df n) -> In r b -> in_block i h r = true /\ In r df.
Proof.
  intros Hb Hr. unfold all_blocks in Hb. apply in_flat_map in Hb as [idx [_ Hb]].
  apply in_map_iff in Hb as [hz [Heq _]]. injection Heq as -> -> <-.
  unfold top_n_block in Hr. apply in_firstn_in in Hr.
  destruct (Hsort (filter (in_block i h) df)) as [Hperm _].
  apply (Permutation_in _ Hperm) in Hr. apply filter_In in Hr as [Hin Hr]. split; assumption.
Qed.

(** X3: the nine Top-N blocks of the tabs and of the CSV are disjoint: a record
    that appears in two of them appears in blocks of the same indexer and
    horizon. *)
Theorem all_blocks_disjoint (sv : list Rec -> list Rec) (Hsort : sort_contract sv)
    (df : list Rec) (n : nat) (i1 i2 : Indexer) (h1 h2 : Horizon) (b1 b2 : list Rec) (r : Rec) :
  In (i1, h1, b1) (all_blocks sv df n) -> In (i2, h2, b2) (all_blocks sv df n) ->
  In r b1 -> In r b2 -> i1 = i2 /\ h1 = h2.
Proof.
  intros Hb1 Hb2 Hr1 Hr2.
  destruct (all_blocks_in_key sv Hsort df n i1 h1 b1 r Hb1 Hr1) as [K1 _].
  destruct (all_blocks_in_key sv Hsort df n i2 h2 b2 r Hb2 Hr2) as [K2 _].
  exact (in_block_key i1 i2 h1 h2 r K1 K2).
Qed.

Lemma all_blocks_disjoint_witness :
  In (PosCDI, Curto, top_n_block stable_sort_desc [offer_a; offer_c] PosCDI Curto 5%nat)
     (all_blocks stable_sort_desc [offer_a; offer_c] 5%nat) /\
  In offer_a (top_n_block stable_sort_desc [offer_a; offer_c] PosCDI Curto 5%nat) /\
  (PosCDI = PosCDI /\ Curto = Curto).
Proof.
  assert (Hb : In (PosCDI, Curto, top_n_block stable_sort_desc [offer_a; offer_c] PosCDI Curto 5%nat)
                  (all_blocks stable_sort_desc [offer_a; offer_c] 5%nat))
    by (cbn [all_blocks flat_map map indexers horizons app In]; left; reflexivity).
  assert (Hr : In offer_a (top_n_block stable_sort_desc [offer_a; offer_c] PosCDI Curto 5%nat))
    by (vm_compute; right; left; reflexivity).
  split; [exact Hb|]. split; [exact Hr|].
  exact (all_blocks_disjoint stable_sort_desc stable_sort_contract [offer_a; offer_c] 5%nat
           PosCDI PosCDI Curto Curto _ _ offer_a Hb Hb Hr Hr).
Defined.

Lemma filter_stronger {A : Type} (p q : A -> bool) (l : list A) :
  (forall x, p x = true -> q x = true) -> filter p l = filter p (filter q l).
Proof.
  intros Hpq. induction l as [|x l IH]; simpl; [reflexivity|].
  destruct (p x) eqn:E.
  - rewrite (Hpq x E). simpl. rewrite E, IH. reflexivity.
  - destruct (q x); simpl; [rewrite E|]; exact IH.
Qed.

(** X4: with the rating filter on, filtering with a stricter minimum rating
    (a smaller score) keeps exactly the rows of the looser filter whose
    rating passes the stricter one. *)
Theorem rating_filter_tighter (col t1 t2 : string) (s1 s2 : Z) (df : list Rec)
    (H1 : rating_score (CStr t1) = Some s1) (H2 : rating_score (CStr t2) = Some s2)
    (Hle : (s1 <= s2)%Z) :
  rating_filter true (Some col) t1 df =
  filter (rating_ok col s1) (rating_filter true (Some col) t2 df).
Proof.
  unfold rating_filter. rewrite H1, H2. apply filter_stronger.
  intros r. unfold rating_ok. destruct (rating_score (row_get r col)); [|discriminate].
  rewrite !Z.leb_le. lia.
Qed.

(** X5: with the minimum-application filter on and a positive bound, a smaller
    bound keeps exactly the rows of the larger bound's result that pass the
    smaller one. *)
Theorem min_app_filter_tighter (m1 m2 : Z) (df : list Rec)
    (H1 : (0 < m1)%Z) (Hle : (m1 <= m2)%Z) :
  min_app_filter true m1 df = filter (min_app_ok m1) (min_app_filter true m2 df).
Proof.
  unfold min_app_filter. simpl.
  replace (0 <? m1)%Z with true by (symmetry; apply Z.ltb_lt; lia).
  replace (0 <? m2)%Z with true by (symmetry; apply Z.ltb_lt; lia).
  apply filter_stronger. intros r. unfold min_app_ok.
  destruct (aplic_min_num r) as [a|]; [|discriminate].
  rewrite !Qle_bool_iff. intros E. apply Qle_trans with (inject_Z m1); [exact E|].
  rewrite <- Zle_Qle. exact Hle.
Qed.

(* ---- numbers ---- *)

Lemma str_length_app (a b : string) : String.length (a ++ b) = (String.length a + String.length b)%nat.
Proof. induction a as [|c a IH]; simpl; [reflexivity|]. rewrite IH. reflexivity. Qed.

Lemma digits_value_aux_app (acc : Z) (p q : string) :
  digits_value_aux acc (p ++ q) = digits_value_aux (digits_value_aux acc p) q.
Proof. revert acc. induction p as [|c p IH]; intros acc; simpl; [reflexivity|]. apply IH. Qed.

Lemma digit_char_value (k : N) : (k < 10)%N -> Z.of_nat (code (digit_char k) - 48) = Z.of_N k.
Proof.
  intros Hk. unfold digit_char, code, chr. rewrite nat_ascii_embedding by lia. lia.
Qed.

Lemma digits_aux_spec (fuel : nat) (n : N) (acc : string) :
  (n < 2 ^ N.of_nat fuel)%N ->
  exists p, digits_aux fuel n acc = p ++ acc /\ digits_value p = Z.of_N n /\
            (forall k, (0 < k)%nat -> (n < 10 ^ N.of_nat k)%N -> (String.length p <= k)%nat).
Proof.
  revert n acc. induction fuel as [|f IH]; intros n acc Hn.
  - exists EmptyString. change (N.of_nat 0) with 0%N in Hn. rewrite N.pow_0_r in Hn.
    split; [reflexivity|]. split; [unfold digits_value; simpl; lia|]. simpl; lia.
  - cbn [digits_aux].
    assert (Hd : (n mod 10 < 10)%N) by (apply N.mod_lt; discriminate).
    destruct (n <? 10)%N eqn:E.
    + apply N.ltb_lt in E. exists (String (digit_char (n mod 10)) EmptyString).
      split; [reflexivity|]. split.
      * unfold digits_value. cbn [digits_value_aux]. rewrite digit_char_value by exact Hd.
        rewrite N.mod_small by exact E. reflexivity.
      * intros k Hk _. cbn [String.length]. lia.
    + apply N.ltb_ge in E.
      assert (Hn' : (n / 10 < 2 ^ N.of_nat f)%N).
      { apply N.Div0.div_lt_upper_bound. rewrite Nat2N.inj_succ, N.pow_succ_r' in Hn. lia. }
      destruct (IH (n / 10)%N (String (digit_char (n mod 10)) acc) Hn') as [p [Hp [Hv Hl]]].
      exists (p ++ String (digit_char (n mod 10)) EmptyString).
      split; [rewrite Hp, str_app_assoc; reflexivity|]. split.
      * unfold digits_value in *. rewrite digits_value_aux_app, Hv. cbn [digits_value_aux].
        rewrite digit_char_value by exact Hd.
        pose proof (N.div_mod n 10 ltac:(discriminate)). lia.
      * intros k Hk Hlt. rewrite str_length_app. cbn [String.length].
        destruct k as [|k]; [lia|]. destruct k as [|k].
        { exfalso. change (N.of_nat 1) with 1%N in Hlt. rewrite N.pow_1_r in Hlt. lia. }
        assert (Hlt' : (n / 10 < 10 ^ N.of_nat (S k))%N).
        { apply N.Div0.div_lt_upper_bound. rewrite Nat2N.inj_succ, N.pow_succ_r' in Hlt. exact Hlt. }
        specialize (Hl (S k) ltac:(lia) Hlt'). lia.
Qed.

Lemma digits_aux_nonempty (fuel : nat) (n : N) (acc : string) :
  acc <> EmptyString -> digits_aux fuel n acc <> EmptyString.
Proof.
  revert n acc. induction fuel as [|f IH]; intros n acc H; [exact H|].
  cbn [digits_aux]. destruct (n <? 10)%N; [discriminate|]. apply IH. discriminate.
Qed.

Lemma N_to_string_spec (n : N) :
  digits_value (N_to_string n) = Z.of_N n /\ N_to_string n <> EmptyString /\
  (forall k, (0 < k)%nat -> (n < 10 ^ N.of_nat k)%N -> (String.length (N_to_string n) <= k)%nat).
Proof.
  assert (Hb : (n < 2 ^ N.of_nat (S (N.to_nat (N.log2 n))))%N).
  { rewrite Nat2N.inj_succ, N2Nat.id. destruct (N.eq_dec n 0) as [->|Hn]; [reflexivity|].
    apply N.log2_spec. lia. }
  destruct (digits_aux_spec _ n EmptyString Hb) as [p [Hp [Hv Hl]]].
  split; [unfold N_to_string; rewrite Hp, str_app_nil_r; exact Hv|].
  split; [|unfold N_to_string; rewrite Hp, str_app_nil_r; exact Hl].
  unfold N_to_string. cbn [digits_aux].
  destruct (n <? 10)%N; [discriminate|]. apply digits_aux_nonempty. discriminate.
Qed.

Lemma replace_single_char (x c : ascii) (new : string) :
  replace_go (String x EmptyString) new 0 (String c EmptyString) =
  if ch_eqb x c then new else String c EmptyString.
Proof. cbn. rewrite andb_true_r. destruct (ch_eqb x c); [apply str_app_nil_r|reflexivity]. Qed.

Lemma replace_single_cons (x c : ascii) (new s : string) :
  replace_go (String x EmptyString) new 0 (String c s) =
  (if ch_eqb x c then new else String c EmptyString) ++ replace_go (String x EmptyString) new 0 s.
Proof. change (String c s) with (String c EmptyString ++ s). rewrite replace_single_app, replace_single_char. reflexivity. Qed.

Lemma replace_delete_rev (x : ascii) (s : string) :
  replace_go (String x EmptyString) EmptyString 0 (rev_str s) =
  rev_str (replace_go (String x EmptyString) EmptyString 0 s).
Proof.
  induction s as [|c s IH]; [reflexivity|].
  cbn [rev_str]. rewrite replace_single_app, IH, replace_single_char, replace_single_cons.
  rewrite rev_str_app. destruct (ch_eqb x c); simpl; rewrite ?str_app_nil_r; reflexivity.
Qed.

Lemma ch_eqb_refl (x : ascii) : ch_eqb x x = true.
Proof. apply Ascii.eqb_refl. Qed.

Lemma replace_delete_group_rev (x : ascii) (k : nat) (s : string) :
  replace_go (String x EmptyString) EmptyString 0 (group_rev x k s) =
  replace_go (String x EmptyString) EmptyString 0 s.
Proof.
  revert k. induction s as [|c s IH]; intros k; [reflexivity|].
  cbn [group_rev]. destruct (k =? 3)%nat.
  - rewrite !replace_single_cons, ch_eqb_refl, IH. reflexivity.
  - rewrite !replace_single_cons, IH. reflexivity.
Qed.

Lemma str_all_impl (P Q : ascii -> bool) (s : string) :
  (forall c, P c = true -> Q c = true) -> str_all P s = true -> str_all Q s = true.
Proof.
  intros H. induction s as [|c s IH]; simpl; [reflexivity|].
  intros Hs. apply andb_prop in Hs as [Hc Hs]. rewrite (H c Hc), (IH Hs). reflexivity.
Qed.

Lemma digit_not (x : ascii) : is_digit x = false ->
  forall c, is_digit c = true -> negb (ch_eqb x c) = true.
Proof.
  intros Hx c Hc. destruct (ch_eqb x c) eqn:E; [|reflexivity].
  apply Ascii.eqb_eq in E. subst. congruence.
Qed.

(** Deleting the grouping separator gives the digits back. *)
Lemma replace_delete_group_with (x : ascii) (ds : string) :
  is_digit x = false -> str_all is_digit ds = true ->
  py_replace (String x EmptyString) EmptyString (group_with x ds) = ds.
Proof.
  intros Hx Hd. unfold py_replace, group_with.
  rewrite replace_delete_rev, replace_delete_group_rev, replace_delete_rev.
  rewrite (replace_single_absent (fun c => negb (ch_eqb x c)) x EmptyString ds).
  - apply rev_str_involutive.
  - simpl. rewrite ch_eqb_refl. reflexivity.
  - exact (str_all_impl _ _ ds (digit_not x Hx) Hd).
Qed.

Lemma rev_digits_head (ds : string) :
  ds <> EmptyString -> str_all is_digit ds = true ->
  exists d r, rev_str ds = String d r /\ is_digit d = true.
Proof.
  intros Hne Hd. rewrite <- str_all_rev in Hd.
  destruct (rev_str ds) as [|d r] eqn:E.
  - exfalso. apply Hne. rewrite <- (rev_str_involutive ds), E. reflexivity.
  - exists d, r. split; [reflexivity|]. cbn [str_all] in Hd. apply andb_prop in Hd as [H _]. exact H.
Qed.

Lemma digit_not_space (d : ascii) : is_digit d = true -> is_space d = false.
Proof.
  unfold is_digit, is_space. intros H. apply andb_prop in H as [H1 H2].
  apply Nat.leb_le in H1, H2. cbv zeta.
  rewrite (proj2 (Nat.leb_gt (code d) 13) ltac:(lia)), (proj2 (Nat.leb_gt (code d) 32) ltac:(lia)).
  rewrite !andb_false_r. reflexivity.
Qed.

Lemma digit_byte (c : ascii) :
  is_digit c = true -> nd_value (byte c) = Some (Z.of_nat (code c - 48)) /\ (code c < 128)%nat.
Proof.
  unfold is_digit. intros H. apply andb_prop in H as [H1 H2]. apply Nat.leb_le in H1, H2.
  split; [|lia]. unfold nd_value, nd_starts, byte. cbn [nd_lookup].
  rewrite (proj2 (Z.leb_le 48 (Z.of_nat (code c)))) by lia.
  rewrite (proj2 (Z.ltb_lt (Z.of_nat (code c)) (48 + 10))) by lia.
  cbn [andb]. f_equal. lia.
Qed.

(** An ASCII digit string decodes to its bytes, which are decimal digits
    with the same value. *)
Lemma utf8_decode_digits (ds : string) :
  str_all is_digit ds = true ->
  Forall (fun x => isdecimal x = true) (utf8_decode ds) /\
  Forall (fun x => (x < 128)%Z) (utf8_decode ds) /\
  (forall acc, fold_left (fun acc c => acc * 10 + digit_of c)%Z (utf8_decode ds) acc =
               digits_value_aux acc ds).
Proof.
  induction ds as [|c ds IH]; intros H.
  - split; [constructor|]. split; [constructor|]. intros acc. reflexivity.
  - cbn [str_all] in H. apply andb_prop in H as [Hc Hs]. destruct (digit_byte c Hc) as [Hv Hlt].
    rewrite utf8_decode_ascii by exact Hlt. destruct (IH Hs) as (H1 & H2 & H3).
    split; [constructor; [unfold isdecimal; rewrite Hv; reflexivity|exact H1]|].
    split; [constructor; [unfold byte; lia|exact H2]|].
    intros acc. cbn [fold_left digits_value_aux]. rewrite H3. unfold digit_of. rewrite Hv. reflexivity.
Qed.

Lemma utf8_decode_nonempty (s : string) :
  s <> EmptyString -> str_all is_digit s = true -> utf8_decode s <> [].
Proof.
  destruct s as [|c s]; [congruence|]. intros _ H. cbn [str_all] in H.
  apply andb_prop in H as [Hc _]. rewrite utf8_decode_ascii by exact (proj2 (digit_byte c Hc)).
  discriminate.
Qed.

Lemma Qopp_inject_Z (a : Z) : Qopp (inject_Z a) = inject_Z (- a).
Proof. reflexivity. Qed.

(** X7: the text of [format_currency_brl] read back by [to_numeric_series]
    gives the rounded value: the dot thousands separators are removed. *)
Theorem format_currency_brl_reads_back (v : Q) :
  to_numeric_text (format_currency_brl (Some v)) = Some (inject_Z (round_half_even v)).
Proof.
  unfold format_currency_brl. set (z := round_half_even v).
  set (ds := N_to_string (Z.to_N (Z.abs z))).
  destruct (N_to_string_spec (Z.to_N (Z.abs z))) as [Hv [Hne _]]. fold ds in Hv, Hne.
  pose proof (N_to_string_digits (Z.to_N (Z.abs z))) as Hd. fold ds in Hd.
  rewrite py_replace_single, !str_map_app, str_map_group_with.
  rewrite (str_map_digits_id _ ds) by first [exact Hd | apply swap_fixes_digits; reflexivity].
  set (sign := if (z <? 0)%Z then "-" else "").
  replace (str_map (fun x => if ch_eqb ","%char x then "."%char else x) sign) with sign
    by (unfold sign; destruct (z <? 0)%Z; reflexivity).
  replace (str_map (fun x => if ch_eqb ","%char x then "."%char else x) "R$ ") with "R$ " by reflexivity.
  replace (if ch_eqb "," "," then "." else ",")%char with "."%char by reflexivity.
  assert (Ht : number_text ("R$ " ++ sign ++ group_with "." ds) =
               ([82; 36; 32]%Z ++ (if (z <? 0)%Z then [45%Z] else []) ++ utf8_decode ds ++ [] ++ [])%list).
  { unfold number_text. rewrite py_strip_fixed.
    2:{ eexists. eexists. split; [reflexivity|]. split; [reflexivity|cbn; lia]. }
    2:{ destruct (rev_digits_head ds Hne Hd) as [d [r [Hr Hdd]]].
        rewrite !rev_str_app. unfold group_with. rewrite rev_str_involutive, Hr.
        cbn [group_rev Nat.eqb]. exists d.
        eexists. split; [reflexivity|]. split; [apply digit_not_space; exact Hdd|].
        exact (proj2 (digit_byte d Hdd)). }
    unfold py_replace at 2.
    rewrite !replace_single_app.
    fold (py_replace "." "" (group_with "." ds)).
    rewrite replace_delete_group_with by (reflexivity || exact Hd).
    replace (replace_go "." "" 0 "R$ ") with "R$ " by reflexivity.
    replace (replace_go "." "" 0 sign) with sign by (unfold sign; destruct (z <? 0)%Z; reflexivity).
    unfold py_replace. rewrite !replace_single_app.
    replace (replace_go "," "." 0 "R$ ") with "R$ " by reflexivity.
    replace (replace_go "," "." 0 sign) with sign by (unfold sign; destruct (z <? 0)%Z; reflexivity).
    fold (py_replace "," "." ds). rewrite (replace_digits_id "," "." ds) by (reflexivity || exact Hd).
    rewrite !app_nil_r.
    unfold sign. destruct (z <? 0)%Z; cbn [append];
      rewrite !utf8_decode_ascii by (cbn; lia); reflexivity. }
  destruct (utf8_decode_digits ds Hd) as (H1 & H2 & H3).
  assert (Hm : number_match (number_text ("R$ " ++ sign ++ group_with "." ds)) (z <? 0)%Z
                 (utf8_decode ds) []).
  { exists [82; 36; 32]%Z, []. split; [exact Ht|].
    split; [repeat constructor|].
    split; [intros _; cbn; discriminate|].
    split; [apply utf8_decode_nonempty; assumption|].
    split; [exact H1|]. split; [constructor|].
    split; [intros x r E; discriminate E|].
    intros _ y r E; discriminate E. }
  rewrite (to_numeric_text_match _ _ _ _ Hm).
  rewrite (proj2 (forallb_forall _ _)).
  2:{ intros y Hy. rewrite app_nil_r in Hy. rewrite Forall_forall in H2. apply Z.ltb_lt, H2, Hy. }
  cbn beta iota. rewrite app_nil_r.
  rewrite py_float_int by first [apply utf8_decode_nonempty; assumption | exact H1].
  unfold nd_digits_value. rewrite H3. fold (digits_value ds). rewrite Hv.
  unfold signed. destruct (z <? 0)%Z eqn:Ez.
  - apply Z.ltb_lt in Ez. rewrite Qopp_inject_Z. f_equal. f_equal. lia.
  - apply Z.ltb_ge in Ez. f_equal. f_equal. lia.
Qed.

Lemma categorize_horizon_monotone_witness :
  200 <= 400 /\
  match categorize_horizon (Some 200), categorize_horizon (Some 400) with
  | Some h1, Some h2 => (horizon_rank h1 <= horizon_rank h2)%nat
  | _, _ => False
  end.
Proof.
  assert (H : 200 <= 400) by (unfold Qle; simpl; lia).
  split; [exact H|]. exact (categorize_horizon_monotone 200 400 H).
Defined.

Lemma rating_filter_tighter_witness :
  rating_score (CStr "AA") = Some 3%Z /\ rating_score (CStr "A") = Some 6%Z /\
  rating_filter true (Some "Rating") "AA" [offer_a; offer_c] =
  filter (rating_ok "Rating" 3) (rating_filter true (Some "Rating") "A" [offer_a; offer_c]).
Proof.
  assert (H1 : rating_score (CStr "AA") = Some 3%Z) by (vm_compute; reflexivity).
  assert (H2 : rating_score (CStr "A") = Some 6%Z) by (vm_compute; reflexivity).
  split; [exact H1|]. split; [exact H2|].
  apply (rating_filter_tighter "Rating" "AA" "A" 3 6 [offer_a; offer_c] H1 H2). lia.
Defined.

Lemma min_app_filter_tighter_witness :
  min_app_filter true 2000 [offer_a; offer_c] =
  filter (min_app_ok 2000) (min_app_filter true 5000 [offer_a; offer_c]).
Proof.
  apply (min_app_filter_tighter 2000 5000 [offer_a; offer_c]); lia.
Defined.

Lemma digits_value_zeros (k : nat) (s : string) :
  digits_value (pad_left k s) = digits_value s.
Proof.
  unfold pad_left, digits_value. rewrite digits_value_aux_app.
  induction (k - String.length s)%nat as [|m IH]; [reflexivity|]. cbn. exact IH.
Qed.

Lemma pad_left_length (k : nat) (s : string) :
  (String.length s <= k)%nat -> String.length (pad_left k s) = k.
Proof.
  intros H. unfold pad_left. rewrite str_length_app.
  assert (Hz : forall m, String.length
     ((fix zeros (k : nat) : string := match k with O => EmptyString | S k' => String "0" (zeros k') end) m) = m).
  { induction m as [|m IH]; [reflexivity|]. cbn. rewrite IH. reflexivity. }
  rewrite Hz. lia.
Qed.

Section DateFields.
Local Open Scope Z_scope.

Lemma doy_bound (doe : Z) : (0 <= doe < 146097)%Z ->
  let yoe := (doe - doe / 1460 + doe / 36524 - doe / 146096) / 365 in
  0 <= doe - (365 * yoe + yoe / 4 - yoe / 100) <= 365.
Proof.
  intros H. cbv zeta.
  destruct (Z.eq_dec doe 146096) as [->|Hne]; [vm_compute; split; discriminate|].
  assert (Hc : doe / 146096 = 0) by (apply Z.div_small; lia). rewrite Hc.
  set (cy := doe / 36524). assert (HC : 0 <= cy <= 3).
  { unfold cy. split; [apply Z.div_pos; lia|]. assert (doe / 36524 < 4) by (apply Z.div_lt_upper_bound; lia). lia. }
  set (rc := doe - 36524 * cy). assert (HR : 0 <= rc < 36524) by (unfold rc, cy; pose proof (Z.mod_pos_bound doe 36524); rewrite Z.mod_eq in H0 by lia; lia).
  set (q4 := rc / 1461). set (s4 := rc - 1461 * q4).
  assert (HS : 0 <= s4 < 1461) by (unfold s4, q4; pose proof (Z.mod_pos_bound rc 1461); rewrite Z.mod_eq in H0 by lia; lia).
  assert (HQ : 0 <= q4 <= 24).
  { unfold q4. split; [apply Z.div_pos; lia|]. assert (rc / 1461 < 25) by (apply Z.div_lt_upper_bound; lia). lia. }
  assert (Ed : doe = 36524 * cy + 1461 * q4 + s4) by (unfold s4, rc; lia).
  assert (ER : rc = 1461 * q4 + s4) by (unfold s4; lia).
  clearbody cy rc q4 s4. subst doe.
  assert (A1 : (36524 * cy + 1461 * q4 + s4) / 36524 = cy) by (symmetry; apply Z.div_unique with (1461 * q4 + s4); lia).
  set (e1 := (24 * cy + q4 + s4) / 1460).
  assert (He : 0 <= e1 <= 1) by (unfold e1; split; [apply Z.div_pos; lia|]; assert ((24 * cy + q4 + s4) / 1460 < 2) by (apply Z.div_lt_upper_bound; lia); lia).
  assert (He' : 1460 * e1 <= 24 * cy + q4 + s4 < 1460 * e1 + 1460) by (unfold e1; pose proof (Z.mod_pos_bound (24 * cy + q4 + s4) 1460); rewrite Z.mod_eq in H0 by lia; lia).
  assert (A2 : (36524 * cy + 1461 * q4 + s4) / 1460 = 25 * cy + q4 + e1) by (symmetry; apply Z.div_unique with (24 * cy + q4 + s4 - 1460 * e1); lia).
  rewrite ?A1, A2.
  set (p1 := (s4 - e1) / 365).
  assert (HP : 365 * p1 <= s4 - e1 < 365 * p1 + 365) by (unfold p1; pose proof (Z.mod_pos_bound (s4 - e1) 365); rewrite Z.mod_eq in H0 by lia; lia).
  assert (HP' : 0 <= p1 <= 3) by lia.
  assert (A3 : (36524 * cy + 1461 * q4 + s4 - (25 * cy + q4 + e1) + cy - 0) / 365 = 100 * cy + 4 * q4 + p1)
    by (symmetry; apply Z.div_unique with (s4 - e1 - 365 * p1); lia).
  rewrite A3.
  assert (A4 : (100 * cy + 4 * q4 + p1) / 4 = 25 * cy + q4) by (symmetry; apply Z.div_unique with p1; lia).
  assert (A5 : (100 * cy + 4 * q4 + p1) / 100 = cy) by (symmetry; apply Z.div_unique with (4 * q4 + p1); lia).
  rewrite A4, A5. lia.
Qed.

Lemma md_bound (doy : Z) : 0 <= doy <= 365 ->
  let mp := (5 * doy + 2) / 153 in
  1 <= (if mp <? 10 then mp + 3 else mp - 9) <= 12 /\ 1 <= doy - (153 * mp + 2) / 5 + 1 <= 31.
Proof.
  intros H. cbv zeta. set (mp := (5 * doy + 2) / 153).
  assert (Hm : 153 * mp <= 5 * doy + 2 < 153 * mp + 153)
    by (unfold mp; pose proof (Z.mod_pos_bound (5 * doy + 2) 153); rewrite Z.mod_eq in H0 by lia; lia).
  set (k := (153 * mp + 2) / 5).
  assert (Hk : 5 * k <= 153 * mp + 2 < 5 * k + 5)
    by (unfold k; pose proof (Z.mod_pos_bound (153 * mp + 2) 5); rewrite Z.mod_eq in H0 by lia; lia).
  clearbody mp k.
  destruct (mp <? 10) eqn:E; [apply Z.ltb_lt in E|apply Z.ltb_ge in E]; lia.
Qed.

Lemma civil_from_days_bounds (z0 : Z) :
  let '(y, m, d) := civil_from_days z0 in (1 <= m <= 12)%Z /\ (1 <= d <= 31)%Z.
Proof.
  unfold civil_from_days. cbv zeta.
  set (z := (z0 + 719468)%Z).
  set (era := (z / 146097)%Z).
  assert (Hdoe : (0 <= z - era * 146097 < 146097)%Z)
    by (unfold era; pose proof (Z.mod_pos_bound z 146097); rewrite Z.mod_eq in H by lia; lia).
  pose proof (doy_bound _ Hdoe) as Hy. cbv zeta in Hy.
  set (doe := (z - era * 146097)%Z) in *.
  set (yoe := ((doe - doe / 1460 + doe / 36524 - doe / 146096) / 365)%Z) in *.
  set (doy := (doe - (365 * yoe + yoe / 4 - yoe / 100))%Z) in *.
  pose proof (md_bound doy Hy) as Hm. cbv zeta in Hm.
  set (mp := ((5 * doy + 2) / 153)%Z) in *.
  destruct (mp <? 10)%Z; exact Hm.
Qed.

Lemma two_spec (z : Z) : (0 <= z < 100)%Z ->
  String.length (two z) = 2%nat /\ str_all is_digit (two z) = true /\ digits_value (two z) = z.
Proof.
  intros H. unfold two, Z_to_string.
  replace (z <? 0)%Z with false by (symmetry; apply Z.ltb_ge; lia).
  destruct (N_to_string_spec (Z.to_N z)) as (Hv & _ & Hl).
  split; [apply pad_left_length, Hl; [lia|]; change (10 ^ N.of_nat 2)%N with 100%N; lia|].
  split; [apply pad_left_digits, N_to_string_digits|].
  rewrite digits_value_zeros, Hv. apply Z2N.id. lia.
Qed.

(** X10: [format_date_br] of a date gives a dd/mm/yyyy text whose day has two
    digits between 1 and 31 and whose month has two digits between 1 and 12. *)
Theorem format_date_br_fields (d : Z) :
  exists ds ms ys, format_date_br (Some d) = ds ++ "/" ++ ms ++ "/" ++ ys /\
    String.length ds = 2%nat /\ String.length ms = 2%nat /\
    str_all is_digit ds = true /\ str_all is_digit ms = true /\
    (1 <= digits_value ds <= 31)%Z /\ (1 <= digits_value ms <= 12)%Z.
Proof.
  pose proof (civil_from_days_bounds d) as Hb. unfold format_date_br, strftime_dmy.
  destruct (civil_from_days d) as [[y m] dd]. destruct Hb as [Hm Hd].
  destruct (two_spec dd ltac:(lia)) as (L1 & D1 & V1).
  destruct (two_spec m ltac:(lia)) as (L2 & D2 & V2).
  exists (two dd), (two m), (four y). repeat split; try assumption; rewrite ?V1, ?V2; lia.
Qed.

End DateFields.

(* ---- sheet reader ---- *)

Lemma forallb_false_exists {A : Type} (f : A -> bool) (l : list A) :
  forallb f l = false -> exists x, In x l /\ f x = false.
Proof.
  induction l as [|x l IH]; simpl; [discriminate|].
  destruct (f x) eqn:E; simpl.
  - intros H. destruct (IH H) as [y [Hy Hf]]. exists y. split; [right; exact Hy|exact Hf].
  - intros _. exists x. split; [left; reflexivity|exact E].
Qed.

(** X11: reading the sheet raises exactly when some data row is kept and
    the widest kept row does not have as many cells as the header (pandas
    pads the shorter rows with None). *)
Theorem read_sheet_fast_raise_iff (header_cells : list Cell) (rows : list (list Cell)) :
  read_sheet_fast header_cells rows = Raise <->
  read_rows 0 rows <> [] /\
  list_max (map (@length Cell) (read_rows 0 rows)) <> length header_cells.
Proof.
  unfold read_sheet_fast.
  destruct (read_rows 0 rows) as [|r0 rs].
  { split; [discriminate|]. intros [H _]. congruence. }
  cbv beta iota zeta. rewrite length_map.
  destruct (Nat.eqb_spec (list_max (map (@length Cell) (r0 :: rs))) (length header_cells)) as [E|E].
  - split; [discriminate|]. intros [_ H]. contradiction.
  - split; [intros _|reflexivity]. split; [discriminate|exact E].
Qed.

(** X12: a sheet read without error keeps one row per kept data row, every
    row as long as the column list, and only columns with a value. *)
Theorem read_sheet_fast_shape (header_cells : list Cell) (rows : list (list Cell))
    (cols : list string) (data : list (list Cell))
    (H : read_sheet_fast header_cells rows = Ok (cols, data)) :
  length data = length (read_rows 0 rows) /\
  Forall (fun row => length row = length cols) data /\
  (forall j, (j < length cols)%nat -> exists row, In row data /\ nth j row CNone <> CNone).
Proof.
  unfold read_sheet_fast in H.
  destruct (read_rows 0 rows) as [|r0 rs].
  { injection H as <- <-. split; [reflexivity|]. split; [constructor|].
    intros j Hj. simpl in Hj. lia. }
  cbv beta iota zeta in H.
  remember (r0 :: rs) as dat eqn:Edat. clear Edat.
  set (w := list_max (map (@length Cell) dat)) in H.
  destruct (_ =? _)%nat; [|discriminate]. injection H as <- <-.
  set (padded := map (pad_row w) dat).
  set (keep := filter _ (seq 0 w)).
  split; [rewrite length_map; apply length_map|]. split.
  - apply Forall_forall. intros row Hrow. apply in_map_iff in Hrow as [r [<- _]].
    rewrite !length_map. reflexivity.
  - intros j Hj. rewrite length_map in Hj.
    assert (Hk : In (nth j keep 0%nat) keep) by (apply nth_In; exact Hj).
    apply filter_In in Hk as [_ Hk].
    apply negb_true_iff in Hk. unfold col_all_none in Hk.
    apply forallb_false_exists in Hk as [r [Hr Hc]].
    exists (map (fun j => nth j r CNone) keep).
    split; [exact (in_map (fun row => map (fun j => nth j row CNone) keep) _ r Hr)|].
    rewrite (nth_indep _ CNone (nth 0%nat r CNone)) by (rewrite length_map; exact Hj).
    rewrite (map_nth (fun j => nth j r CNone) keep 0%nat j).
    destruct (nth (nth j keep 0%nat) r CNone); [discriminate Hc|..]; discriminate.
Qed.

Lemma read_sheet_fast_shape_witness :
  read_sheet_fast [CStr "A"; CStr "B"] [[CStr "x"]; [CStr "y"; CStr "z"]] =
    Ok (["A"; "B"], [[CStr "x"; CNone]; [CStr "y"; CStr "z"]]) /\
  length [[CStr "x"; CNone]; [CStr "y"; CStr "z"]] =
    length (read_rows 0 [[CStr "x"]; [CStr "y"; CStr "z"]]).
Proof.
  assert (H : read_sheet_fast [CStr "A"; CStr "B"] [[CStr "x"]; [CStr "y"; CStr "z"]] =
                Ok (["A"; "B"], [[CStr "x"; CNone]; [CStr "y"; CStr "z"]]))
    by (vm_compute; reflexivity).
  split; [exact H|]. exact (proj1 (read_sheet_fast_shape _ _ _ _ H)).
Defined.

(* ---- header names ---- *)

Lemma lstrip_length : forall s, (String.length (lstrip s) <= String.length s)%nat.
Proof.
  fix IH 1. intros [|c1 s1]; [cbn; lia|]. cbn [lstrip].
  destruct (is_space c1); [specialize (IH s1); cbn [String.length]; lia|].
  destruct s1 as [|c2 s2]; [cbn; lia|].
  destruct (ws2 c1 c2); [specialize (IH s2); cbn [String.length]; lia|].
  destruct s2 as [|c3 s3]; [cbn; lia|].
  destruct (ws3 c1 c2 c3); [specialize (IH s3); cbn [String.length]; lia|]. cbn; lia.
Qed.

Lemma lstrip_rev_length : forall s, (String.length (lstrip_rev s) <= String.length s)%nat.
Proof.
  fix IH 1. intros [|c1 s1]; [cbn; lia|]. cbn [lstrip_rev].
  destruct (is_space c1); [specialize (IH s1); cbn [String.length]; lia|].
  destruct s1 as [|c2 s2]; [cbn; lia|].
  destruct (ws2 c2 c1); [specialize (IH s2); cbn [String.length]; lia|].
  destruct s2 as [|c3 s3]; [cbn; lia|].
  destruct (ws3 c3 c2 c1); [specialize (IH s3); cbn [String.length]; lia|]. cbn; lia.
Qed.

(** [lstrip] leaves a text alone exactly when it does not start with a
    space of one, two or three bytes. *)
Lemma lstrip_fixed_intro (c1 : ascii) (s1 : string) :
  is_space c1 = false ->
  (forall c2 s2, s1 = String c2 s2 -> ws2 c1 c2 = false /\
     (forall c3 s3, s2 = String c3 s3 -> ws3 c1 c2 c3 = false)) ->
  lstrip (String c1 s1) = String c1 s1.
Proof.
  intros H1 H2. cbn [lstrip]. rewrite H1.
  destruct s1 as [|c2 s2]; [reflexivity|]. destruct (H2 c2 s2 eq_refl) as [H3 H4]. rewrite H3.
  destruct s2 as [|c3 s3]; [reflexivity|]. rewrite (H4 c3 s3 eq_refl). reflexivity.
Qed.

Lemma lstrip_fixed (c1 : ascii) (s1 : string) :
  lstrip (String c1 s1) = String c1 s1 ->
  is_space c1 = false /\
  (forall c2 s2, s1 = String c2 s2 -> ws2 c1 c2 = false /\
     (forall c3 s3, s2 = String c3 s3 -> ws3 c1 c2 c3 = false)).
Proof.
  intros H. cbn [lstrip] in H.
  destruct (is_space c1).
  { exfalso. pose proof (lstrip_length s1) as L. rewrite H in L. cbn [String.length] in L. lia. }
  split; [reflexivity|]. intros c2 s2 ->.
  destruct (ws2 c1 c2).
  { exfalso. pose proof (lstrip_length s2) as L. rewrite H in L. cbn [String.length] in L. lia. }
  split; [reflexivity|]. intros c3 s3 ->.
  destruct (ws3 c1 c2 c3); [|reflexivity].
  exfalso. pose proof (lstrip_length s3) as L. rewrite H in L. cbn [String.length] in L. lia.
Qed.

Lemma lstrip_rev_fixed_intro (c1 : ascii) (s1 : string) :
  is_space c1 = false ->
  (forall c2 s2, s1 = String c2 s2 -> ws2 c2 c1 = false /\
     (forall c3 s3, s2 = String c3 s3 -> ws3 c3 c2 c1 = false)) ->
  lstrip_rev (String c1 s1) = String c1 s1.
Proof.
  intros H1 H2. cbn [lstrip_rev]. rewrite H1.
  destruct s1 as [|c2 s2]; [reflexivity|]. destruct (H2 c2 s2 eq_refl) as [H3 H4]. rewrite H3.
  destruct s2 as [|c3 s3]; [reflexivity|]. rewrite (H4 c3 s3 eq_refl). reflexivity.
Qed.

Lemma lstrip_rev_fixed (c1 : ascii) (s1 : string) :
  lstrip_rev (String c1 s1) = String c1 s1 ->
  is_space c1 = false /\
  (forall c2 s2, s1 = String c2 s2 -> ws2 c2 c1 = false /\
     (forall c3 s3, s2 = String c3 s3 -> ws3 c3 c2 c1 = false)).
Proof.
  intros H. cbn [lstrip_rev] in H.
  destruct (is_space c1).
  { exfalso. pose proof (lstrip_rev_length s1) as L. rewrite H in L. cbn [String.length] in L. lia. }
  split; [reflexivity|]. intros c2 s2 ->.
  destruct (ws2 c2 c1).
  { exfalso. pose proof (lstrip_rev_length s2) as L. rewrite H in L. cbn [String.length] in L. lia. }
  split; [reflexivity|]. intros c3 s3 ->.
  destruct (ws3 c3 c2 c1); [|reflexivity].
  exfalso. pose proof (lstrip_rev_length s3) as L. rewrite H in L. cbn [String.length] in L. lia.
Qed.

Lemma lstrip_idem : forall s, lstrip (lstrip s) = lstrip s.
Proof.
  fix IH 1. intros [|c1 s1]; [reflexivity|]. cbn [lstrip].
  destruct (is_space c1) eqn:E1; [apply IH|].
  destruct s1 as [|c2 s2]; [apply lstrip_fixed_intro; [exact E1|intros c2 s2 H; discriminate H]|].
  destruct (ws2 c1 c2) eqn:E2; [apply IH|].
  destruct s2 as [|c3 s3].
  - apply lstrip_fixed_intro; [exact E1|]. intros c s E; injection E as <- <-.
    split; [exact E2|intros c3 s3 H; discriminate H].
  - destruct (ws3 c1 c2 c3) eqn:E3; [apply IH|].
    apply lstrip_fixed_intro; [exact E1|]. intros c s E; injection E as <- <-.
    split; [exact E2|]. intros c s E; injection E as <- <-. exact E3.
Qed.

Lemma lstrip_rev_idem : forall s, lstrip_rev (lstrip_rev s) = lstrip_rev s.
Proof.
  fix IH 1. intros [|c1 s1]; [reflexivity|]. cbn [lstrip_rev].
  destruct (is_space c1) eqn:E1; [apply IH|].
  destruct s1 as [|c2 s2]; [apply lstrip_rev_fixed_intro; [exact E1|intros c2 s2 H; discriminate H]|].
  destruct (ws2 c2 c1) eqn:E2; [apply IH|].
  destruct s2 as [|c3 s3].
  - apply lstrip_rev_fixed_intro; [exact E1|]. intros c s E; injection E as <- <-.
    split; [exact E2|intros c3 s3 H; discriminate H].
  - destruct (ws3 c3 c2 c1) eqn:E3; [apply IH|].
    apply lstrip_rev_fixed_intro; [exact E1|]. intros c s E; injection E as <- <-.
    split; [exact E2|]. intros c s E; injection E as <- <-. exact E3.
Qed.

Lemma lstrip_rev_suffix : forall s, exists w, s = w ++ lstrip_rev s.
Proof.
  fix IH 1. intros [|c1 s1]; [exists EmptyString; reflexivity|]. cbn [lstrip_rev].
  destruct (is_space c1).
  { destruct (IH s1) as [w Hw]. exists (String c1 w). cbn [append]. rewrite <- Hw. reflexivity. }
  destruct s1 as [|c2 s2]; [exists EmptyString; reflexivity|].
  destruct (ws2 c2 c1).
  { destruct (IH s2) as [w Hw]. exists (String c1 (String c2 w)). cbn [append]. rewrite <- Hw. reflexivity. }
  destruct s2 as [|c3 s3]; [exists EmptyString; reflexivity|].
  destruct (ws3 c3 c2 c1); [|exists EmptyString; reflexivity].
  destruct (IH s3) as [w Hw]. exists (String c1 (String c2 (String c3 w))). cbn [append].
  rewrite <- Hw. reflexivity.
Qed.

Lemma lstrip_prefix (u x : string) : lstrip (u ++ x) = u ++ x -> lstrip u = u.
Proof.
  destruct u as [|c1 s1]; [reflexivity|]. intros H. cbn [append] in H.
  apply lstrip_fixed in H as (H1 & H2). apply lstrip_fixed_intro; [exact H1|].
  intros c2 s2 E. subst s1. cbn [append] in H2. destruct (H2 c2 (s2 ++ x) eq_refl) as (H3 & H4).
  split; [exact H3|]. intros c3 s3 E. subst s2. exact (H4 c3 (s3 ++ x) eq_refl).
Qed.

(** What [strip] returns starts and ends with no space. *)
Lemma py_strip_ends (s : string) :
  lstrip (py_strip s) = py_strip s /\ lstrip_rev (rev_str (py_strip s)) = rev_str (py_strip s).
Proof.
  unfold py_strip. rewrite rev_str_involutive. split; [|apply lstrip_rev_idem].
  destruct (lstrip_rev_suffix (rev_str (lstrip s))) as [w Hw].
  apply (lstrip_prefix _ (rev_str w)).
  rewrite <- rev_str_app, <- Hw, rev_str_involutive. apply lstrip_idem.
Qed.

Lemma py_strip_of_fixed (w : string) :
  lstrip w = w -> lstrip_rev (rev_str w) = rev_str w -> py_strip w = w.
Proof. intros H1 H2. unfold py_strip. rewrite H1, H2. apply rev_str_involutive. Qed.

Lemma ws3_ascii_m (c1 c2 c3 : ascii) : (code c2 < 128)%nat -> ws3 c1 c2 c3 = false.
Proof.
  intros H. unfold ws3. cbv zeta.
  rewrite (proj2 (Nat.eqb_neq (code c2) 154)), (proj2 (Nat.eqb_neq (code c2) 128)),
    (proj2 (Nat.eqb_neq (code c2) 129)) by lia.
  destruct (code c1 =? 225)%nat, (code c1 =? 226)%nat, (code c1 =? 227)%nat; reflexivity.
Qed.

(** A map that only turns ASCII spaces into ASCII spaces keeps a text
    that starts (or ends) with no space that way. *)
Section SpaceSwap.

Variable g : ascii -> ascii.
Hypothesis Hg : forall x, g x = x \/
  ((code x < 128)%nat /\ (code (g x) < 128)%nat /\ is_space x = true /\ is_space (g x) = true).

Lemma swap_is_space (x : ascii) : is_space (g x) = is_space x.
Proof. destruct (Hg x) as [->|(_ & _ & H1 & H2)]; [reflexivity|congruence]. Qed.

Lemma swap_ws2 (x y : ascii) : ws2 (g x) (g y) = ws2 x y.
Proof.
  destruct (Hg x) as [Ex|(Hx1 & Hx2 & _)].
  - rewrite Ex. destruct (Hg y) as [Ey|(Hy1 & Hy2 & _)]; [rewrite Ey; reflexivity|].
    rewrite !ws2_ascii_r by assumption. reflexivity.
  - rewrite !ws2_ascii_l by assumption. reflexivity.
Qed.

Lemma swap_ws3 (x y z : ascii) : ws3 (g x) (g y) (g z) = ws3 x y z.
Proof.
  destruct (Hg x) as [Ex|(Hx1 & Hx2 & _)]; [|rewrite !ws3_ascii_l by assumption; reflexivity].
  destruct (Hg y) as [Ey|(Hy1 & Hy2 & _)]; [|rewrite !ws3_ascii_m by assumption; reflexivity].
  destruct (Hg z) as [Ez|(Hz1 & Hz2 & _)]; [|rewrite !ws3_ascii_r by assumption; reflexivity].
  rewrite Ex, Ey, Ez. reflexivity.
Qed.

Lemma lstrip_swap (u : string) : lstrip u = u -> lstrip (str_map g u) = str_map g u.
Proof.
  destruct u as [|c1 s1]; [reflexivity|]. intros H. apply lstrip_fixed in H as (H1 & H2).
  cbn [str_map]. apply lstrip_fixed_intro; [rewrite swap_is_space; exact H1|].
  intros c2' s2' E. destruct s1 as [|c2 s2]; [discriminate E|]. cbn [str_map] in E.
  injection E as <- <-. destruct (H2 c2 s2 eq_refl) as [H3 H4].
  split; [rewrite swap_ws2; exact H3|].
  intros c3' s3' E. destruct s2 as [|c3 s3]; [discriminate E|]. cbn [str_map] in E.
  injection E as <- <-. rewrite swap_ws3. exact (H4 c3 s3 eq_refl).
Qed.

Lemma lstrip_rev_swap (u : string) : lstrip_rev u = u -> lstrip_rev (str_map g u) = str_map g u.
Proof.
  destruct u as [|c1 s1]; [reflexivity|]. intros H. apply lstrip_rev_fixed in H as (H1 & H2).
  cbn [str_map]. apply lstrip_rev_fixed_intro; [rewrite swap_is_space; exact H1|].
  intros c2' s2' E. destruct s1 as [|c2 s2]; [discriminate E|]. cbn [str_map] in E.
  injection E as <- <-. destruct (H2 c2 s2 eq_refl) as [H3 H4].
  split; [rewrite swap_ws2; exact H3|].
  intros c3' s3' E. destruct s2 as [|c3 s3]; [discriminate E|]. cbn [str_map] in E.
  injection E as <- <-. rewrite swap_ws3. exact (H4 c3 s3 eq_refl).
Qed.

End SpaceSwap.

Lemma swap_space_ok (a : ascii) :
  (code a < 128)%nat -> is_space a = true ->
  forall x, (if ch_eqb a x then " "%char else x) = x \/
    ((code x < 128)%nat /\ (code (if ch_eqb a x then " "%char else x) < 128)%nat /\
     is_space x = true /\ is_space (if ch_eqb a x then " "%char else x) = true).
Proof.
  intros Ha Hs x. destruct (ch_eqb a x) eqn:E; [|left; reflexivity].
  right. apply Ascii.eqb_eq in E. subst x. split; [exact Ha|]. split; [cbn; lia|].
  split; [exact Hs|reflexivity].
Qed.

Lemma normalize_colname_map (c : Cell) :
  normalize_colname c =
  match c with
  | CNone => EmptyString
  | _ => str_map (fun x => if ch_eqb (ascii_of_nat 13) x then " "%char else x)
           (str_map (fun x => if ch_eqb (ascii_of_nat 10) x then " "%char else x) (py_strip (py_str c)))
  end.
Proof. unfold normalize_colname, nl, cr. destruct c; rewrite ?py_replace_single; reflexivity. Qed.

Lemma no_line_breaks (s : string) :
  str_all (fun x => negb (ch_eqb (ascii_of_nat 10) x) && negb (ch_eqb (ascii_of_nat 13) x))
    (str_map (fun x => if ch_eqb (ascii_of_nat 13) x then " "%char else x)
       (str_map (fun x => if ch_eqb (ascii_of_nat 10) x then " "%char else x) s)) = true.
Proof.
  induction s as [|x s IH]; [reflexivity|]. cbn [str_map str_all]. rewrite IH, andb_true_r.
  destruct (ch_eqb (ascii_of_nat 10) x) eqn:E1; [reflexivity|].
  destruct (ch_eqb (ascii_of_nat 13) x) eqn:E2; [reflexivity|]. rewrite E1, E2. reflexivity.
Qed.

Lemma str_all_not_contains (a : ascii) (s : string) :
  str_all (fun x => negb (ch_eqb a x)) s = true -> contains (String a EmptyString) s = false.
Proof.
  induction s as [|x s IH]; [reflexivity|]. cbn [str_all contains prefixb].
  intros H. apply andb_prop in H as [H1 H2]. apply negb_true_iff in H1.
  rewrite H1, IH by exact H2. reflexivity.
Qed.

Lemma str_map_fix (f : ascii -> ascii) (P : ascii -> bool) (s : string) :
  (forall x, P x = true -> f x = x) -> str_all P s = true -> str_map f s = s.
Proof.
  intros Hf. induction s as [|x s IH]; [reflexivity|]. cbn [str_all str_map].
  intros H. apply andb_prop in H as [H1 H2]. rewrite (Hf x H1), (IH H2). reflexivity.
Qed.

(** X13: [normalize_colname] gives a name without line breaks and without
    surrounding blanks, and normalising it again changes nothing. *)
Theorem normalize_colname_clean (c : Cell) :
  contains nl (normalize_colname c) = false /\ contains cr (normalize_colname c) = false /\
  py_strip (normalize_colname c) = normalize_colname c /\
  normalize_colname (CStr (normalize_colname c)) = normalize_colname c.
Proof.
  set (f10 := fun x => if ch_eqb (ascii_of_nat 10) x then " "%char else x).
  set (f13 := fun x => if ch_eqb (ascii_of_nat 13) x then " "%char else x).
  assert (Hclean : forall s,
    contains nl (str_map f13 (str_map f10 s)) = false /\ contains cr (str_map f13 (str_map f10 s)) = false).
  { intros s. pose proof (no_line_breaks s) as H. fold f10 f13 in H. split; apply str_all_not_contains;
    refine (str_all_impl _ _ _ _ H); intros x Hx; apply andb_prop in Hx as [H1 H2]; assumption. }
  assert (Hstrip : forall s, py_strip (str_map f13 (str_map f10 (py_strip s))) = str_map f13 (str_map f10 (py_strip s))).
  { intros s. destruct (py_strip_ends s) as [E1 E2].
    pose proof (swap_space_ok (ascii_of_nat 10) ltac:(cbn; lia) eq_refl) as G10. fold f10 in G10.
    pose proof (swap_space_ok (ascii_of_nat 13) ltac:(cbn; lia) eq_refl) as G13. fold f13 in G13.
    apply py_strip_of_fixed.
    - apply (lstrip_swap f13 G13), (lstrip_swap f10 G10), E1.
    - rewrite <- !str_map_rev. apply (lstrip_rev_swap f13 G13), (lstrip_rev_swap f10 G10), E2. }
  assert (Hnc : normalize_colname c = EmptyString \/
                exists s, normalize_colname c = str_map f13 (str_map f10 (py_strip s))).
  { rewrite normalize_colname_map. destruct c; first [left; reflexivity | right; eexists; reflexivity]. }
  destruct Hnc as [-> | [s ->]]; [repeat split; reflexivity|].
  destruct (Hclean (py_strip s)) as [N1 N2]. split; [exact N1|]. split; [exact N2|].
  split; [apply Hstrip|].
  rewrite normalize_colname_map. cbn [py_str]. fold f10 f13. rewrite Hstrip.
  pose proof (no_line_breaks (py_strip s)) as H. fold f10 f13 in H.
  set (t := str_map f13 (str_map f10 (py_strip s))) in *.
  rewrite (str_map_fix f10 (fun x => negb (ch_eqb (ascii_of_nat 10) x) && negb (ch_eqb (ascii_of_nat 13) x)) t).
  - apply (str_map_fix f13 (fun x => negb (ch_eqb (ascii_of_nat 10) x) && negb (ch_eqb (ascii_of_nat 13) x)) t);
      [|exact H].
    intros x Hx. apply andb_prop in Hx as [_ Hx]. apply negb_true_iff in Hx. unfold f13. rewrite Hx. reflexivity.
  - intros x Hx. apply andb_prop in Hx as [Hx _]. apply negb_true_iff in Hx. unfold f10. rewrite Hx. reflexivity.
  - exact H.
Qed.

(* ---- pipeline outcome ---- *)




(* ---- proofs ---- *)


Lemma replace2_cons (a b : ascii) (new : string) (c : ascii) (s : string) :
  replace_go (String a (String b EmptyString)) new 0 (String c s) =
  match s with
  | String d s' => if ch_eqb a c && ch_eqb b d then new ++ replace_go (String a (String b EmptyString)) new 0 s'
                   else String c (replace_go (String a (String b EmptyString)) new 0 s)
  | EmptyString => String c EmptyString
  end.
Proof.
  destruct s as [|d s']; cbn [replace_go prefixb].
  - rewrite andb_false_r. reflexivity.
  - rewrite andb_true_r. destruct (ch_eqb a c && ch_eqb b d); reflexivity.
Qed.










Lemma contains_dq_cons (c : ascii) (s : string) :
  contains dq (String c s) = ch_eqb (ascii_of_nat 34) c || contains dq s.
Proof. unfold dq. cbn [contains prefixb]. rewrite andb_true_r. reflexivity. Qed.

Lemma replace_single_dq (x : ascii) (new s : string) :
  ch_eqb (ascii_of_nat 34) x = false -> contains dq new = false ->
  contains dq (replace_go (String x EmptyString) new 0 s) = contains dq s.
Proof.
  intros Hx Hn. induction s as [|c s IH]; [reflexivity|].
  rewrite replace_single_cons. destruct (ch_eqb x c) eqn:E.
  - apply Ascii.eqb_eq in E. subst c. unfold dq. rewrite contains_single_app. fold dq.
    rewrite Hn, IH, contains_dq_cons, Hx. reflexivity.
  - cbn [append]. rewrite !contains_dq_cons, IH. reflexivity.
Qed.

Lemma replace_dollar_dq (n : nat) :
  forall s, (String.length s <= n)%nat -> contains dq (replace_go "${" "\${" 0 s) = contains dq s.
Proof.
  induction n as [n IH] using lt_wf_ind. intros s Hs.
  destruct s as [|c s']; [reflexivity|]. cbn [String.length] in Hs. rewrite replace2_cons.
  destruct s' as [|d s'']; [reflexivity|]. cbn [String.length] in Hs.
  destruct (ch_eqb "$" c && ch_eqb "{" d) eqn:E.
  - apply andb_prop in E as [E1 E2]. apply Ascii.eqb_eq in E1, E2. subst c d.
    unfold dq. rewrite contains_single_app. fold dq. rewrite (IH (String.length s'')) by lia.
    rewrite !contains_dq_cons. reflexivity.
  - rewrite !contains_dq_cons. rewrite (IH (String.length (String d s''))) by (cbn [String.length]; lia).
    rewrite contains_dq_cons. reflexivity.
Qed.

Lemma copy_button_safe_dq (text : string) : contains dq (copy_button_safe text) = contains dq text.
Proof.
  unfold copy_button_safe, py_replace. rewrite (replace_dollar_dq _ _ (le_n _)).
  rewrite !replace_single_dq by reflexivity. reflexivity.
Qed.

Lemma upto_dq_app (a b : string) : upto_dq (a ++ dq ++ b) = a <-> contains dq a = false.
Proof.
  induction a as [|c a IH].
  - split; intros _; reflexivity.
  - rewrite contains_dq_cons. cbn [append upto_dq]. destruct (ch_eqb (ascii_of_nat 34) c) eqn:E.
    + cbn [orb]. split; intros H; discriminate H.
    + cbn [orb]. rewrite <- IH. split; [intros H; injection H as H; exact H|intros ->; reflexivity].
Qed.

(** X16: the [onclick] attribute of [copy_button]'s HTML is the whole
    clipboard call exactly when the text has no double quote. *)
Theorem copy_button_onclick (text label : string) :
  exists after, copy_button text label = onclick_prefix ++ after /\
  (upto_dq after = "navigator.clipboard.writeText(`" ++ copy_button_safe text ++ "`)" <->
   contains dq text = false).
Proof.
  exists (("navigator.clipboard.writeText(`" ++ copy_button_safe text ++ "`)") ++ dq ++ nl ++
  "    style=" ++ dq ++ "cursor:pointer;padding:8px 12px;border-radius:8px;border:1px solid #ddd;background:white;" ++ dq ++ ">" ++ nl ++
  "    📋 " ++ label ++ nl ++ "    </button>" ++ nl ++ "    ").
  split.
  - unfold copy_button, onclick_prefix. rewrite !str_app_assoc. reflexivity.
  - rewrite upto_dq_app. unfold dq at 1. rewrite !contains_single_app. fold dq.
    assert (L1 : contains dq "navigator.clipboard.writeText(`" = false) by reflexivity.
    assert (L2 : contains dq "`)" = false) by reflexivity.
    rewrite L1, L2, orb_false_r, copy_button_safe_dq. reflexivity.
Qed.









Lemma str_app_cancel_l (a b c : string) : a ++ b = a ++ c -> b = c.
Proof. induction a as [|x a IH]; [exact (fun H => H)|]. intros H. injection H as H. exact (IH H). Qed.

Lemma firstn_nil_iff {A : Type} (n : nat) (l : list A) : firstn n l = [] <-> n = 0%nat \/ l = [].
Proof.
  destruct n as [|n]; [split; [left; reflexivity|reflexivity]|].
  destruct l as [|x l]; simpl; split; try (intros; right; reflexivity); try reflexivity.
  - discriminate.
  - intros [H|H]; discriminate H.
Qed.

Lemma filter_nil_iff {A : Type} (p : A -> bool) (l : list A) :
  filter p l = [] <-> Forall (fun x => p x = false) l.
Proof.
  induction l as [|x l IH]; simpl; [split; [constructor|reflexivity]|].
  destruct (p x) eqn:E; split.
  - discriminate.
  - intros H. inversion H; congruence.
  - intros H. constructor; [exact E|apply IH, H].
  - intros H. inversion H. apply IH. assumption.
Qed.

Lemma join_cards_head (f : Rec -> string) (r : Rec) (l : list Rec) (s0 : string) :
  f r = "🏦*" ++ s0 -> exists s, join nl (map f (r :: l)) ++ nl = "🏦*" ++ s.
Proof.
  intros H. destruct l as [|r' l]; cbn [map join].
  - rewrite H. exists (s0 ++ nl). rewrite str_app_assoc. reflexivity.
  - rewrite H. eexists. rewrite !str_app_assoc. reflexivity.
Qed.

(** X17: a section of the message shows the placeholder line
    "- (sem ativos hoje)" exactly when Top N is 0 or no record has the
    section's indexer. *)
Theorem section_no_assets_iff (sv : list Rec -> list Rec) (Hsort : sort_contract sv)
    (ce cp : string) (df : list Rec) (n : nat) (label : Indexer) (title pref : string) :
  section sv ce cp df n label title pref =
    "📍*" ++ title ++ "*" ++ nl ++ "- (sem ativos hoje)" ++ nl ++ nl <->
  n = 0%nat \/ Forall (fun r => has_indexer label r = false) df.
Proof.
  unfold section. cbv zeta.
  assert (Hsub : firstn n (sv (filter (has_indexer label) df)) = [] <->
                 n = 0%nat \/ Forall (fun r => has_indexer label r = false) df).
  { rewrite firstn_nil_iff, <- filter_nil_iff.
    destruct (Hsort (filter (has_indexer label) df)) as [Hp _].
    split; intros [H|H]; try (left; exact H); right.
    - rewrite H in Hp. apply Permutation_nil. exact Hp.
    - rewrite H in Hp |- *. apply Permutation_nil. apply Permutation_sym. exact Hp. }
  rewrite <- Hsub.
  destruct (firstn n (sv (filter (has_indexer label) df))) as [|r l].
  - split; reflexivity.
  - split; [|discriminate]. intros H. exfalso.
    destruct (join_cards_head (fun r => format_card ce cp r pref) r l _ eq_refl) as [s Hs].
    rewrite Hs in H.
    do 4 apply str_app_cancel_l in H. cbn [append] in H. discriminate H.
Qed.

Lemma section_no_assets_iff_witness :
  sort_contract stable_sort_desc /\
  section stable_sort_desc "Emissor" "Produto" [offer_a] 5%nat Pre "PRÉ-FIXADOS" "" =
    "📍*" ++ "PRÉ-FIXADOS" ++ "*" ++ nl ++ "- (sem ativos hoje)" ++ nl ++ nl.
Proof.
  split; [exact stable_sort_contract|].
  apply (section_no_assets_iff stable_sort_desc stable_sort_contract). right.
  constructor; [reflexivity|constructor].
Defined.
